(** * PyShopList: the item store and the list presenter of [PyShopList.py]

    A shallow embedding of the two classes of the program, [ShoppingList]
    (the data-access layer over one SQLite table) and [ShoppingListGUI]
    (the Tk handlers that read the entries, call the store and redraw the
    list), together with the Python built-ins and the part of SQLite the
    two classes rely on.

    Conventions.
    - A Python [str] is a [string]; one [ascii] stands for one character,
      so only one-byte characters are represented.
    - A Python [int] is a [Z]; a [float] is a binary64 [PrimFloat.float].
    - A text given to SQLite, a value or the text of a statement, is
      taken to be within SQLite's limit on its length (10^9 bytes).
    - A method that can raise returns an [outcome]; a method that changes
      an object returns the object after the call next to its outcome, so
      that what a failed call leaves behind is part of its result. *)

From Stdlib Require Import ZArith String Ascii List Lia Bool PrimFloat DecimalString Sorted Permutation.
From Stdlib Require Finite DecimalFacts DecimalPos.
Import ListNotations.

Local Open Scope string_scope.
Local Open Scope Z_scope.

(** ** Exceptions and results *)

(** The exceptions the modelled code can raise: Python's own, and the two
    classes of [sqlite3] errors the statements of the program can cause. *)
Inductive exn : Type :=
| ValueError        (* int() on a text that is not an integer literal *)
| TypeError         (* a format specification applied to None; a keyword
                       named like a parameter of the method called *)
| AttributeError    (* an attribute read on None *)
| OverflowError     (* an int outside 64 bits bound to a statement *)
| OperationalError  (* sqlite3: syntax error, no such column, too many
                       columns in a SET list, rowids exhausted *)
| IntegrityError.   (* sqlite3: UNIQUE constraint failed, datatype mismatch *)

Inductive outcome (A : Type) : Type :=
| Returns (a : A)
| Raises (e : exn).

Arguments Returns {A} a.
Arguments Raises {A} e.

Definition raised {A} (o : outcome A) : bool :=
  match o with Returns _ => false | Raises _ => true end.

(** ** Python built-ins used by the program *)

Module Py.

(** The white space [int] drops around a literal: tab to carriage return
    and space, and, of the other one-byte characters, NEL (133) and the
    no-break space (160). *)
Definition literal_space (c : ascii) : bool :=
  let n := nat_of_ascii c in
  ((9 <=? n) && (n <=? 13) || (n =? 32) || (n =? 133) || (n =? 160))%nat.

Definition isdigit (c : ascii) : bool :=
  let n := nat_of_ascii c in ((48 <=? n) && (n <=? 57))%nat.

Definition digit_value (c : ascii) : Z := Z.of_nat (nat_of_ascii c) - 48.

Fixpoint skip_spaces (l : list ascii) : list ascii :=
  match l with
  | c :: l' => if literal_space c then skip_spaces l' else l
  | [] => []
  end.

(** The text between the white space at both ends. *)
Definition trim (l : list ascii) : list ascii :=
  rev (skip_spaces (rev (skip_spaces l))).

(** The digit part of an integer literal in base ten: one digit or more,
    with single underscores allowed between two digits. [seen] tells
    whether the previous character was a digit. *)
Fixpoint digits (acc : Z) (seen : bool) (l : list ascii) : option Z :=
  match l with
  | [] => if seen then Some acc else None
  | c :: l' =>
      if isdigit c then digits (10 * acc + digit_value c) true l'
      else if Ascii.eqb c "_"
           then (if seen then digits acc false l' else None)
           else None
  end.

(** The cap CPython puts on the number of digits of a conversion between
    [int] and [str] in base ten, [sys.int_info.default_max_str_digits];
    a conversion with more digits raises [ValueError]. *)
Definition int_max_str_digits : nat := 4300.

Definition digit_count (l : list ascii) : nat := List.length (filter isdigit l).

Definition literal (l : list ascii) : option Z :=
  if (int_max_str_digits <? digit_count l)%nat then None
  else digits 0 false l.

(** [int(s)] for a [str]: surrounding white space is dropped, one sign is
    accepted, the rest must be a digit part. [None] is [ValueError]. *)
Definition int (s : string) : option Z :=
  match trim (list_ascii_of_string s) with
  | "-"%char :: ds => option_map Z.opp (literal ds)
  | "+"%char :: ds => literal ds
  | l => literal l
  end.

(** The decimal numeral of an integer. *)
Definition decimal (n : Z) : string := NilZero.string_of_int (Z.to_int n).

(** [str(n)] for an [int]; [None] is [ValueError]. *)
Definition str (n : Z) : option string :=
  if (int_max_str_digits <? digit_count (list_ascii_of_string (decimal n)))%nat
  then None
  else Some (decimal n).

Fixpoint spaces (n : nat) : string :=
  match n with
  | O => ""
  | S n' => String " " (spaces n')
  end.

(** [s.rjust(w)] and [s.ljust(w)]: padding with spaces up to [w]
    characters, nothing removed from a longer [s]. *)
Definition rjust (w : nat) (s : string) : string :=
  spaces (w - String.length s) ++ s.

Definition ljust (w : nat) (s : string) : string :=
  s ++ spaces (w - String.length s).

(** [format(n, "w")] for an [int], as in [f"{n:2}"]: numbers are
    right-aligned in a field of at least [w] characters. [None] is the
    [ValueError] of the conversion. *)
Definition format_int (w : nat) (n : Z) : option string :=
  option_map (rjust w) (str n).

(** [format(s, "<w")] for a [str], as in [f"{s:<20}"]. *)
Definition format_left (w : nat) (s : string) : string := ljust w s.

(** [s.split(sep)[0]] for a one-character [sep]: the text before the
    first [sep], all of [s] when there is none. *)
Fixpoint split_head (sep : ascii) (s : string) : string :=
  match s with
  | EmptyString => ""
  | String c s' => if Ascii.eqb c sep then "" else String c (split_head sep s')
  end.

(** Truth value of a [str]: false exactly for the empty one. *)
Definition truthy (s : string) : bool :=
  match s with EmptyString => false | _ => true end.

Definition isalpha (c : ascii) : bool :=
  let n := nat_of_ascii c in
  ((65 <=? n) && (n <=? 90) || (97 <=? n) && (n <=? 122))%nat.

(** [s.isidentifier()], for one-byte characters: a letter or underscore,
    then letters, digits and underscores. Keyword arguments written in a
    call are identifiers. *)
Definition isidentifier (s : string) : bool :=
  match s with
  | EmptyString => false
  | String c s' =>
      (isalpha c || Ascii.eqb c "_")
      && forallb (fun x => isalpha x || isdigit x || Ascii.eqb x "_")
                 (list_ascii_of_string s')
  end.

End Py.

(** ** The data model *)

Definition float : Type := PrimFloat.float.

(** The dataclass [Item], field by field. *)
Record Item : Type := {
  id : option Z;
  quantity : Z;
  description : string;
  barcode : option string;
  last_price : option float;
  to_purchase : bool
}.

(** ** The part of SQLite the program uses

    One table, [items], created by [create_table]:
    [id INTEGER PRIMARY KEY AUTOINCREMENT], [quantity INTEGER],
    [description TEXT], [barcode TEXT UNIQUE], [last_price REAL],
    [to_purchase BOOLEAN]. A failed statement changes nothing. *)

Module Sqlite.

Definition MAX_ROWID : Z := 2 ^ 63 - 1.

(** The largest number of assignments SQLite accepts in the SET list of
    an UPDATE ([SQLITE_MAX_COLUMN]); a longer list is "too many columns
    in set list" when the statement is compiled. *)
Definition MAX_COLUMN : nat := 2000.

(** The integers SQLite stores; [sqlite3] raises [OverflowError] when
    asked to bind any other [int], before the statement runs. (Some
    versions of [sqlite3] let the error of an earlier failed statement
    escape in its place; no property below depends on which exception a
    failed binding raises.) *)
Definition fits_int64 (z : Z) : bool :=
  (- 2 ^ 63 <=? z) && (z <=? MAX_ROWID).

(** A line of [items]. The column [id] is the rowid. The BOOLEAN column
    holds 1 or 0, which is how [sqlite3] stores True and False; it is
    kept as a [bool] here. *)
Record row : Type := {
  rowid : Z;
  c_quantity : Z;
  c_description : string;
  c_barcode : option string;
  c_last_price : option float;
  c_to_purchase : bool
}.

(** The table, its lines in rowid order (the order of a scan), and the
    entry AUTOINCREMENT keeps for it in [sqlite_sequence]: the largest
    rowid an INSERT has given out, 0 before the first one. *)
Record table : Type := {
  rows : list row;
  sequence : Z
}.

Definition empty : table := {| rows := []; sequence := 0 |}.

(** A line is stored at the place of its key. *)
Fixpoint place (r : row) (l : list row) : list row :=
  match l with
  | [] => [r]
  | x :: l' => if rowid r <? rowid x then r :: l else x :: place r l'
  end.

(** The rowid of a new line under AUTOINCREMENT: one more than the
    largest rowid in the table or given out before; none is left once
    that is the largest possible rowid (SQLITE_FULL). *)
Definition largest_rowid (t : table) : Z :=
  Z.max (sequence t) (last (map rowid (rows t)) 0).

Definition new_rowid (t : table) : option Z :=
  if MAX_ROWID <=? largest_rowid t then None
  else Some (largest_rowid t + 1).

(** UNIQUE on [barcode]: NULL never collides, a text collides with the
    same text in another line. *)
Definition has_barcode (s : string) (x : row) : bool :=
  match c_barcode x with
  | Some s' => String.eqb s s'
  | None => false
  end.

Definition barcode_taken (b : option string) (l : list row) : bool :=
  match b with
  | Some s => existsb (has_barcode s) l
  | None => false
  end.

(** [INSERT INTO items (quantity, description, barcode, last_price,
    to_purchase) VALUES (?, ?, ?, ?, ?)]; returns the new rowid. *)
Definition insert (t : table) (q : Z) (d : string) (b : option string)
    (p : option float) (tp : bool) : table * outcome Z :=
  match new_rowid t with
  | None => (t, Raises OperationalError)
  | Some i =>
      if barcode_taken b (rows t) then (t, Raises IntegrityError)
      else ({| rows := place {| rowid := i; c_quantity := q;
                                c_description := d; c_barcode := b;
                                c_last_price := p; c_to_purchase := tp |}
                             (rows t);
               sequence := i |}, Returns i)
  end.

Definition has_id (i : Z) (x : row) : bool := rowid x =? i.

Definition others (i : Z) (l : list row) : list row :=
  filter (fun x => negb (has_id i x)) l.

(** [SELECT ... FROM items] *)
Definition select_all (t : table) : list row := rows t.

(** [SELECT ... FROM items WHERE id = ?], then [fetchone()] *)
Definition select_by_id (t : table) (i : Z) : option row :=
  find (has_id i) (rows t).

(** [SELECT ... FROM items WHERE to_purchase = 1] *)
Definition select_to_purchase (t : table) : list row :=
  filter c_to_purchase (rows t).

(** [DELETE FROM items WHERE id = ?] *)
Definition delete (t : table) (i : Z) : table :=
  {| rows := others i (rows t); sequence := sequence t |}.

(** [UPDATE items SET ... WHERE id = ?], the SET clause given as the
    change [f] it makes to the line: no line with that id, nothing to
    do; otherwise the changed line must keep the rowid and the barcode
    distinct from those of the other lines. *)
Definition update (t : table) (i : Z) (f : row -> row) : table * outcome unit :=
  match select_by_id t i with
  | None => (t, Returns tt)
  | Some r =>
      let r' := f r in
      let rest := others i (rows t) in
      if existsb (has_id (rowid r')) rest || barcode_taken (c_barcode r') rest
      then (t, Raises IntegrityError)
      else ({| rows := place r' rest; sequence := sequence t |}, Returns tt)
  end.

End Sqlite.

(** ** class ShoppingList *)

Module ShoppingList.

(** The state of a [ShoppingList] is the database behind its
    connection; every method commits before it returns. *)
Definition t : Type := Sqlite.table.

(** The [Item] built from a fetched line, column by column. *)
Definition Item_of_row (r : Sqlite.row) : Item :=
  {| id := Some (Sqlite.rowid r);
     quantity := Sqlite.c_quantity r;
     description := Sqlite.c_description r;
     barcode := Sqlite.c_barcode r;
     last_price := Sqlite.c_last_price r;
     to_purchase := Sqlite.c_to_purchase r |}.

(** [item.barcode or None] *)
Definition or_None (b : option string) : option string :=
  match b with
  | Some s => if Py.truthy s then Some s else None
  | None => None
  end.

(** A [float] written to the REAL column [last_price], as it is read
    back: SQLite stores NaN as NULL; and it stores a number without a
    fractional part as an integer, so that a zero comes back as [+0.0]
    whatever its sign was. Every other number comes back as it was. *)
Definition bind_float (p : option float) : option float :=
  match p with
  | Some f =>
      if PrimFloat.is_nan f then None
      else if PrimFloat.is_zero f then Some PrimFloat.zero
      else Some f
  | None => None
  end.

Definition add_item (self : t) (item : Item) : t * outcome Z :=
  if Sqlite.fits_int64 (quantity item)
  then Sqlite.insert self (quantity item) (description item)
         (or_None (barcode item)) (bind_float (last_price item))
         (to_purchase item)
  else (self, Raises OverflowError).

Definition get_all_items (self : t) : list Item :=
  map Item_of_row (Sqlite.select_all self).

Definition get_item_by_id (self : t) (item_id : Z) : outcome (option Item) :=
  if Sqlite.fits_int64 item_id
  then Returns (option_map Item_of_row (Sqlite.select_by_id self item_id))
  else Raises OverflowError.

Definition delete_item (self : t) (item_id : Z) : t * outcome unit :=
  if Sqlite.fits_int64 item_id
  then (Sqlite.delete self item_id, Returns tt)
  else (self, Raises OverflowError).

Definition get_items_to_purchase (self : t) : list Item :=
  map Item_of_row (Sqlite.select_to_purchase self).

(** *** update_item

    [update_item] writes the keys of [kwargs] into the SET clause and
    binds the values. The columns of [items], which a key can name: *)
Inductive column : Type :=
| Cid | Cquantity | Cdescription | Cbarcode | Clast_price | Cto_purchase.

Definition lower_char (c : ascii) : ascii :=
  let n := nat_of_ascii c in
  if ((65 <=? n) && (n <=? 90))%nat then ascii_of_nat (n + 32) else c.

Fixpoint lower (s : string) : string :=
  match s with
  | EmptyString => EmptyString
  | String c s' => String (lower_char c) (lower s')
  end.

(** The column an identifier names in [UPDATE items SET key = ?]:
    column names are matched without regard to case, and [rowid], [oid]
    and [_rowid_] name the INTEGER PRIMARY KEY. [None] is SQLite's
    "no such column" (or a syntax error, when the identifier is a
    reserved word); both are [sqlite3.OperationalError]. *)
Definition column_named (key : string) : option column :=
  let k := lower key in
  if String.eqb k "id" || String.eqb k "rowid" || String.eqb k "oid"
     || String.eqb k "_rowid_" then Some Cid
  else if String.eqb k "quantity" then Some Cquantity
  else if String.eqb k "description" then Some Cdescription
  else if String.eqb k "barcode" then Some Cbarcode
  else if String.eqb k "last_price" then Some Clast_price
  else if String.eqb k "to_purchase" then Some Cto_purchase
  else None.

(** The values a caller passes. *)
Inductive value : Type :=
| VNone
| VBool (b : bool)
| VInt (z : Z)
| VFloat (f : float)
| VStr (s : string).


Definition set_rowid (z : Z) (r : Sqlite.row) : Sqlite.row :=
  {| Sqlite.rowid := z; Sqlite.c_quantity := Sqlite.c_quantity r;
     Sqlite.c_description := Sqlite.c_description r;
     Sqlite.c_barcode := Sqlite.c_barcode r;
     Sqlite.c_last_price := Sqlite.c_last_price r;
     Sqlite.c_to_purchase := Sqlite.c_to_purchase r |}.

Definition set_quantity (z : Z) (r : Sqlite.row) : Sqlite.row :=
  {| Sqlite.rowid := Sqlite.rowid r; Sqlite.c_quantity := z;
     Sqlite.c_description := Sqlite.c_description r;
     Sqlite.c_barcode := Sqlite.c_barcode r;
     Sqlite.c_last_price := Sqlite.c_last_price r;
     Sqlite.c_to_purchase := Sqlite.c_to_purchase r |}.

Definition set_description (s : string) (r : Sqlite.row) : Sqlite.row :=
  {| Sqlite.rowid := Sqlite.rowid r; Sqlite.c_quantity := Sqlite.c_quantity r;
     Sqlite.c_description := s;
     Sqlite.c_barcode := Sqlite.c_barcode r;
     Sqlite.c_last_price := Sqlite.c_last_price r;
     Sqlite.c_to_purchase := Sqlite.c_to_purchase r |}.

Definition set_barcode (b : option string) (r : Sqlite.row) : Sqlite.row :=
  {| Sqlite.rowid := Sqlite.rowid r; Sqlite.c_quantity := Sqlite.c_quantity r;
     Sqlite.c_description := Sqlite.c_description r;
     Sqlite.c_barcode := b;
     Sqlite.c_last_price := Sqlite.c_last_price r;
     Sqlite.c_to_purchase := Sqlite.c_to_purchase r |}.

Definition set_last_price (p : option float) (r : Sqlite.row) : Sqlite.row :=
  {| Sqlite.rowid := Sqlite.rowid r; Sqlite.c_quantity := Sqlite.c_quantity r;
     Sqlite.c_description := Sqlite.c_description r;
     Sqlite.c_barcode := Sqlite.c_barcode r;
     Sqlite.c_last_price := p;
     Sqlite.c_to_purchase := Sqlite.c_to_purchase r |}.

Definition set_to_purchase (b : bool) (r : Sqlite.row) : Sqlite.row :=
  {| Sqlite.rowid := Sqlite.rowid r; Sqlite.c_quantity := Sqlite.c_quantity r;
     Sqlite.c_description := Sqlite.c_description r;
     Sqlite.c_barcode := Sqlite.c_barcode r;
     Sqlite.c_last_price := Sqlite.c_last_price r;
     Sqlite.c_to_purchase := b |}.

(** [column = ?] with a value of the type the dataclass declares for the
    column ([int] for [id] and [quantity], [str], [Optional[str]],
    [Optional[float]], [bool]): the change it makes to the line. A value of another type is stored
    after a conversion that depends on the column's affinity; those
    conversions are not part of this embedding, and the result is
    [None] for them. *)
Definition assignment (c : column) (v : value) : option (Sqlite.row -> Sqlite.row) :=
  match c, v with
  | Cid, VInt z => Some (set_rowid z)
  | Cquantity, VInt z => Some (set_quantity z)
  | Cdescription, VStr s => Some (set_description s)
  | Cbarcode, VStr s => Some (set_barcode (Some s))
  | Cbarcode, VNone => Some (set_barcode None)
  | Clast_price, VFloat f => Some (set_last_price (bind_float (Some f)))
  | Clast_price, VNone => Some (set_last_price None)
  | Cto_purchase, VBool b => Some (set_to_purchase b)
  | _, _ => None
  end.

(** The columns the keys name, in order; [None] when one names none. *)
Fixpoint columns (kwargs : list (string * value)) : option (list (column * value)) :=
  match kwargs with
  | [] => Some []
  | (key, v) :: rest =>
      match column_named key, columns rest with
      | Some c, Some cs => Some ((c, v) :: cs)
      | _, _ => None
      end
  end.

(** The SET clause as one change: the assignments from left to right,
    so that of two assignments to one column the rightmost counts. *)
Fixpoint set_clause (cs : list (column * value)) : option (Sqlite.row -> Sqlite.row) :=
  match cs with
  | [] => Some (fun r => r)
  | (c, v) :: rest =>
      match assignment c v, set_clause rest with
      | Some f, Some g => Some (fun r => g (f r))
      | _, _ => None
      end
  end.

Definition binds (v : value) : bool :=
  match v with
  | VInt z => Sqlite.fits_int64 z
  | _ => true
  end.

(** The names of the two parameters of [update_item]: a keyword with one
    of these names does not go into [kwargs]; the call itself fails,
    "got multiple values for argument", a [TypeError]. *)
Definition parameter_name (key : string) : bool :=
  String.eqb key "self" || String.eqb key "item_id".

(** [update_item], called with [item_id] and keywords: [kwargs] is the keyword
    dictionary the method receives, in order (a dictionary: a list in
    which a key comes twice stands for no call). A keyword named like a
    parameter is a [TypeError] at the call, before the body runs. The
    result is [None] outside the embedding: when a key is not an
    identifier (the statement built from it would have to be parsed as
    SQL), or when a value is not of its column's declared type.
    Otherwise, in the order in which [sqlite3] works: the statement is
    compiled (an empty SET clause is a syntax error, a SET list of more
    than [Sqlite.MAX_COLUMN] assignments and an unknown column are
    errors), the values and [item_id] are bound, the statement runs. *)
Definition update_item (self : t) (item_id : Z) (kwargs : list (string * value))
  : option (t * outcome unit) :=
  if existsb (fun kv => parameter_name (fst kv)) kwargs
  then Some (self, Raises TypeError)
  else if negb (forallb (fun kv => Py.isidentifier (fst kv)) kwargs) then None
  else match kwargs with
  | [] => Some (self, Raises OperationalError)
  | _ =>
      if (Sqlite.MAX_COLUMN <? List.length kwargs)%nat
      then Some (self, Raises OperationalError)
      else
      match columns kwargs with
      | None => Some (self, Raises OperationalError)
      | Some cs =>
          match set_clause cs with
          | None => None
          | Some f =>
              if forallb (fun kv => binds (snd kv)) kwargs
                 && Sqlite.fits_int64 item_id
              then Some (Sqlite.update self item_id f)
              else Some (self, Raises OverflowError)
          end
      end
  end.

End ShoppingList.

(** ** class ShoppingListGUI *)

Module ShoppingListGUI.

(** The state the handlers read and write: the store, the view flag, the
    lines of the two list boxes and the texts of the three entries. *)
Record t : Type := {
  shopping_list : ShoppingList.t;
  show_all_items : bool;
  item_listbox_all : list string;
  item_listbox_to_purchase : list string;
  description_entry : string;
  quantity_entry : string;
  barcode_entry : string
}.

(** How a handler ends: it returns, it returns after
    [messagebox.showerror(title, message)], or an exception leaves it. *)
Inductive reply : Type :=
| Done
| ShowError (title message : string)
| Uncaught (e : exn).

Definition reply_of (o : outcome unit) : reply :=
  match o with
  | Returns _ => Done
  | Raises e => Uncaught e
  end.

Definition with_store (self : t) (sl : ShoppingList.t) : t :=
  {| shopping_list := sl;
     show_all_items := show_all_items self;
     item_listbox_all := item_listbox_all self;
     item_listbox_to_purchase := item_listbox_to_purchase self;
     description_entry := description_entry self;
     quantity_entry := quantity_entry self;
     barcode_entry := barcode_entry self |}.

Definition with_view (self : t) (all : bool) : t :=
  {| shopping_list := shopping_list self;
     show_all_items := all;
     item_listbox_all := item_listbox_all self;
     item_listbox_to_purchase := item_listbox_to_purchase self;
     description_entry := description_entry self;
     quantity_entry := quantity_entry self;
     barcode_entry := barcode_entry self |}.

(** The list box of the frame on show. *)
Definition current_listbox (self : t) : list string :=
  if show_all_items self then item_listbox_all self
  else item_listbox_to_purchase self.

Definition with_current_listbox (self : t) (box : list string) : t :=
  {| shopping_list := shopping_list self;
     show_all_items := show_all_items self;
     item_listbox_all :=
       if show_all_items self then box else item_listbox_all self;
     item_listbox_to_purchase :=
       if show_all_items self then item_listbox_to_purchase self else box;
     description_entry := description_entry self;
     quantity_entry := quantity_entry self;
     barcode_entry := barcode_entry self |}.

(** The user typing into the three entries. *)
Definition with_entries (self : t) (d q b : string) : t :=
  {| shopping_list := shopping_list self;
     show_all_items := show_all_items self;
     item_listbox_all := item_listbox_all self;
     item_listbox_to_purchase := item_listbox_to_purchase self;
     description_entry := d;
     quantity_entry := q;
     barcode_entry := b |}.

Definition clear_entries (self : t) : t := with_entries self "" "" "".

Definition status (item : Item) : string :=
  if to_purchase item then "To Purchase" else "Not to Purchase".

(** The third field of a line, [f"{item.description:<20}"]. *)
Definition description_field (item : Item) : string :=
  Py.format_left 20 (description item).

(** The text of a line of the list box,
    [f"{item.id:2} | {item.quantity:8} | {item.description:<20} | {status}"];
    a format specification on [None] is a [TypeError]. *)
Definition row_text (item : Item) : outcome string :=
  match id item with
  | None => Raises TypeError
  | Some i =>
      match Py.format_int 2 i, Py.format_int 8 (quantity item) with
      | Some id_field, Some quantity_field =>
          Returns (id_field ++ " | " ++ quantity_field ++ " | "
                   ++ description_field item ++ " | " ++ status item)
      | _, _ => Raises ValueError
      end
  end.

(** The loop of [update_list]: one line appended per item. *)
Fixpoint insert_rows (box : list string) (items : list Item)
  : list string * outcome unit :=
  match items with
  | [] => (box, Returns tt)
  | item :: rest =>
      match row_text item with
      | Raises e => (box, Raises e)
      | Returns s => insert_rows (box ++ [s])%list rest
      end
  end.

Definition update_list (self : t) : t * outcome unit :=
  let items :=
    if show_all_items self
    then ShoppingList.get_all_items (shopping_list self)
    else ShoppingList.get_items_to_purchase (shopping_list self) in
  let (box, o) := insert_rows [] items in
  (with_current_listbox self box, o).

Definition show_to_purchase_view (self : t) : t * outcome unit :=
  update_list (with_view self false).

Definition show_all_items_view (self : t) : t * outcome unit :=
  update_list (with_view self true).

(** [Item(None, quantity, description, barcode, None, True)] *)
Definition form_item (quantity : Z) (description barcode : string) : Item :=
  {| id := None; quantity := quantity; description := description;
     barcode := Some barcode; last_price := None; to_purchase := true |}.

Definition add_item (self : t) : t * reply :=
  let description := description_entry self in
  let quantity := quantity_entry self in
  let barcode := barcode_entry self in
  if negb (Py.truthy description) || negb (Py.truthy quantity)
  then (self, ShowError "Error" "Description and Quantity are required.")
  else
    match Py.int quantity with
    | None => (self, ShowError "Error" "Quantity must be a number.")
    | Some quantity =>
        let item := form_item quantity description barcode in
        match ShoppingList.add_item (shopping_list self) item with
        | (sl, Raises e) => (with_store self sl, Uncaught e)
        | (sl, Returns _) =>
            match update_list (with_store self sl) with
            | (self', Raises e) => (self', Uncaught e)
            | (self', Returns _) => (clear_entries self', Done)
            end
        end
    end.

(** [int(current_listbox.get(selection[0]).split(':')[0])]; the list
    box gives the empty text for an index it does not have. *)
Definition selected_id (self : t) (index : nat) : option Z :=
  Py.int (Py.split_head ":" (nth index (current_listbox self) "")).

(** [selection] is what [curselection()] returns. *)
Definition delete_item (self : t) (selection : list nat) : t * reply :=
  match selection with
  | [] => (self, ShowError "Error" "Please select an item to delete.")
  | index :: _ =>
      match selected_id self index with
      | None => (self, Uncaught ValueError)
      | Some item_id =>
          match ShoppingList.delete_item (shopping_list self) item_id with
          | (sl, Raises e) => (with_store self sl, Uncaught e)
          | (sl, Returns _) =>
              let (self', o) := update_list (with_store self sl) in
              (self', reply_of o)
          end
      end
  end.

(** The store calls of [toggle_purchase] for an id:
    [get_item_by_id], then [update_item] with the flag negated. *)
Definition toggle (sl : ShoppingList.t) (item_id : Z)
  : option (ShoppingList.t * outcome unit) :=
  match ShoppingList.get_item_by_id sl item_id with
  | Raises e => Some (sl, Raises e)
  | Returns None => Some (sl, Raises AttributeError)
  | Returns (Some item) =>
      ShoppingList.update_item sl item_id
        [("to_purchase", ShoppingList.VBool (negb (to_purchase item)))]
  end.

(** [None] only where [update_item] is outside the embedding. *)
Definition toggle_purchase (self : t) (selection : list nat) : option (t * reply) :=
  match selection with
  | [] => Some (self, ShowError "Error"
                        "Please select an item to toggle purchase status.")
  | index :: _ =>
      match selected_id self index with
      | None => Some (self, Uncaught ValueError)
      | Some item_id =>
          match toggle (shopping_list self) item_id with
          | None => None
          | Some (sl, Raises e) => Some (with_store self sl, Uncaught e)
          | Some (sl, Returns _) =>
              let (self', o) := update_list (with_store self sl) in
              Some (self', reply_of o)
          end
      end
  end.

(** The window after [__init__] over the database [db]: both boxes and
    the entries empty, then [show_to_purchase_view]. *)
Definition init (db : ShoppingList.t) : t * outcome unit :=
  show_to_purchase_view
    {| shopping_list := db; show_all_items := false;
       item_listbox_all := []; item_listbox_to_purchase := [];
       description_entry := ""; quantity_entry := ""; barcode_entry := "" |}.

(** The user fills the form and presses "Add Item". *)
Definition fill_and_add (self : t) (input : string * string * string) : t * reply :=
  let '(d, q, b) := input in add_item (with_entries self d q b).

(** The form used for each input in turn, until one is not added. *)
Fixpoint add_all (self : t) (inputs : list (string * string * string)) : t * reply :=
  match inputs with
  | [] => (self, Done)
  | input :: rest =>
      match fill_and_add self input with
      | (self', Done) => add_all self' rest
      | r => r
      end
  end.

End ShoppingListGUI.

(** ** Invariant of the table, call sequences and sample data *)

(** The barcodes present in the table, NULL left out. *)
Definition barcodes (l : list Sqlite.row) : list string :=
  flat_map (fun r => match Sqlite.c_barcode r with Some s => [s] | None => [] end) l.

(** The integers of a line are integers SQLite holds. *)
Definition in_range (r : Sqlite.row) : Prop :=
  Sqlite.fits_int64 (Sqlite.rowid r) = true
  /\ Sqlite.fits_int64 (Sqlite.c_quantity r) = true.

(** What the table maintains: the lines are in increasing rowid order
    (PRIMARY KEY), no barcode occurs twice (UNIQUE), the rowid counter is
    not negative, and every line is in range. *)
Definition well_formed (t : Sqlite.table) : Prop :=
  StronglySorted Z.lt (map Sqlite.rowid (Sqlite.rows t))
  /\ NoDup (barcodes (Sqlite.rows t))
  /\ 0 <= Sqlite.sequence t
  /\ Forall in_range (Sqlite.rows t).

(** [n] more rowids can be given out. *)
Definition room (t : Sqlite.table) (n : Z) : Prop :=
  Sqlite.largest_rowid t + n <= Sqlite.MAX_ROWID.

(** The line [add_item] stores for an item, under the rowid [i]. *)
Definition stored (i : Z) (item : Item) : Sqlite.row :=
  {| Sqlite.rowid := i;
     Sqlite.c_quantity := quantity item;
     Sqlite.c_description := description item;
     Sqlite.c_barcode := ShoppingList.or_None (barcode item);
     Sqlite.c_last_price := ShoppingList.bind_float (last_price item);
     Sqlite.c_to_purchase := to_purchase item |}.

(** The lines stored for a list of items, the rowids counted up from
    [k + 1]. *)
Fixpoint stored_from (k : Z) (items : list Item) : list Sqlite.row :=
  match items with
  | [] => []
  | item :: rest => stored (k + 1) item :: stored_from (k + 1) rest
  end.

(** The item the form makes of what the user typed; a quantity that is no
    integer literal never gets that far. *)
Definition typed_item (input : string * string * string) : Item :=
  let '(d, q, b) := input in
  ShoppingListGUI.form_item (match Py.int q with Some z => z | None => 0 end) d b.

(** [add_item] called for each item in turn, until one call raises; the
    ids returned, in order. *)
Fixpoint create_all (self : ShoppingList.t) (items : list Item)
  : ShoppingList.t * outcome (list Z) :=
  match items with
  | [] => (self, Returns [])
  | item :: rest =>
      match ShoppingList.add_item self item with
      | (self', Raises e) => (self', Raises e)
      | (self', Returns i) =>
          match create_all self' rest with
          | (self'', Returns ids) => (self'', Returns (i :: ids))
          | r => r
          end
      end
  end.

(** The item of the round-trip example: id 7, quantity 3, "Milk". *)
Definition milk : Item :=
  {| id := Some 7; quantity := 3; description := "Milk";
     barcode := None; last_price := None; to_purchase := true |}.

(** The store that holds it, and the window over that store. *)
Definition milk_store : ShoppingList.t :=
  {| Sqlite.rows :=
       [ {| Sqlite.rowid := 7; Sqlite.c_quantity := 3;
            Sqlite.c_description := "Milk"; Sqlite.c_barcode := None;
            Sqlite.c_last_price := None; Sqlite.c_to_purchase := true |} ];
     Sqlite.sequence := 7 |}.

Definition milk_window : ShoppingListGUI.t :=
  fst (ShoppingListGUI.init milk_store).

(** An item whose description is longer than the column. *)
Definition alphabet : Item :=
  {| id := Some 1; quantity := 1; description := "abcdefghijklmnopqrstuvwxyz";
     barcode := None; last_price := None; to_purchase := true |}.

(** A store with three lines, one of them with a barcode. *)
Definition pantry : ShoppingList.t :=
  {| Sqlite.rows :=
       [ {| Sqlite.rowid := 1; Sqlite.c_quantity := 3;
            Sqlite.c_description := "Milk"; Sqlite.c_barcode := None;
            Sqlite.c_last_price := None; Sqlite.c_to_purchase := true |};
         {| Sqlite.rowid := 2; Sqlite.c_quantity := 2;
            Sqlite.c_description := "Bread"; Sqlite.c_barcode := Some "4006381";
            Sqlite.c_last_price := None; Sqlite.c_to_purchase := true |};
         {| Sqlite.rowid := 3; Sqlite.c_quantity := 12;
            Sqlite.c_description := "Eggs"; Sqlite.c_barcode := None;
            Sqlite.c_last_price := None; Sqlite.c_to_purchase := false |} ];
     Sqlite.sequence := 3 |}.

(** The window over [pantry], showing all items. *)
Definition pantry_window : ShoppingListGUI.t :=
  fst (ShoppingListGUI.show_all_items_view (fst (ShoppingListGUI.init pantry))).

(** [pantry] after [update_item(2, id=2**63-1)]: the largest rowid is in
    use, and none is left to give out. *)
Definition full_pantry : ShoppingList.t :=
  {| Sqlite.rows :=
       [ {| Sqlite.rowid := 1; Sqlite.c_quantity := 3;
            Sqlite.c_description := "Milk"; Sqlite.c_barcode := None;
            Sqlite.c_last_price := None; Sqlite.c_to_purchase := true |};
         {| Sqlite.rowid := 3; Sqlite.c_quantity := 12;
            Sqlite.c_description := "Eggs"; Sqlite.c_barcode := None;
            Sqlite.c_last_price := None; Sqlite.c_to_purchase := false |};
         {| Sqlite.rowid := Sqlite.MAX_ROWID; Sqlite.c_quantity := 2;
            Sqlite.c_description := "Bread"; Sqlite.c_barcode := Some "4006381";
            Sqlite.c_last_price := None; Sqlite.c_to_purchase := true |} ];
     Sqlite.sequence := 3 |}.

(** The characters an integer literal can contain. *)
Definition literal_char (c : ascii) : bool :=
  Py.literal_space c || Py.isdigit c || Ascii.eqb c "_" || Ascii.eqb c "+"
  || Ascii.eqb c "-".

(** The characters [str] and [format] produce for an [int]. *)
Definition numeral_char (c : ascii) : bool :=
  Py.isdigit c || Ascii.eqb c "-" || Ascii.eqb c " ".

(** ** States the methods reach, and the events of the window *)

(** The stores reached from the empty table by calls of the methods that
    write: [add_item], [delete_item] and [update_item], whether they
    return or raise. *)
Inductive reachable : ShoppingList.t -> Prop :=
| reach_empty : reachable Sqlite.empty
| reach_add (self : ShoppingList.t) (item : Item) :
    reachable self -> reachable (fst (ShoppingList.add_item self item))
| reach_delete (self : ShoppingList.t) (item_id : Z) :
    reachable self -> reachable (fst (ShoppingList.delete_item self item_id))
| reach_update (self : ShoppingList.t) (item_id : Z)
    (kwargs : list (string * ShoppingList.value))
    (r : ShoppingList.t * outcome unit) :
    reachable self ->
    ShoppingList.update_item self item_id kwargs = Some r ->
    reachable (fst r).

(** The items of the view on show, as [update_list] fetches them. *)
Definition view_items (self : ShoppingListGUI.t) : list Item :=
  if ShoppingListGUI.show_all_items self
  then ShoppingList.get_all_items (ShoppingListGUI.shopping_list self)
  else ShoppingList.get_items_to_purchase (ShoppingListGUI.shopping_list self).

(** The list box of the frame that is not on show. *)
Definition hidden_listbox (self : ShoppingListGUI.t) : list string :=
  if ShoppingListGUI.show_all_items self
  then ShoppingListGUI.item_listbox_to_purchase self
  else ShoppingListGUI.item_listbox_all self.

(** The list box on show has the lines of the items of its view, one
    line per item, in order. *)
Definition in_sync (self : ShoppingListGUI.t) : Prop :=
  Forall2 (fun item line => ShoppingListGUI.row_text item = Returns line)
          (view_items self) (ShoppingListGUI.current_listbox self).

(** What the user does with the window: fill the form and press "Add
    Item", press "Delete Item" or "Toggle Purchase" with the selection of
    the list box on show, pick one of the two menu entries. The events
    are taken more freely than Tk gives them: the form is on the frame of
    all items only but may be used in either view here, and a selection
    may be any list of indices, not only indices of lines there are. *)
Inductive event : Type :=
| PressAdd (description quantity barcode : string)
| PressDelete (selection : list nat)
| PressToggle (selection : list nat)
| MenuToPurchase
| MenuAll.

(** The handler bound to each. *)
Definition handle (self : ShoppingListGUI.t) (e : event)
  : option (ShoppingListGUI.t * ShoppingListGUI.reply) :=
  match e with
  | PressAdd d q b => Some (ShoppingListGUI.fill_and_add self (d, q, b))
  | PressDelete selection => Some (ShoppingListGUI.delete_item self selection)
  | PressToggle selection => ShoppingListGUI.toggle_purchase self selection
  | MenuToPurchase =>
      let (self', o) := ShoppingListGUI.show_to_purchase_view self in
      Some (self', ShoppingListGUI.reply_of o)
  | MenuAll =>
      let (self', o) := ShoppingListGUI.show_all_items_view self in
      Some (self', ShoppingListGUI.reply_of o)
  end.


(** The windows the program shows: the one [__init__] leaves over a
    well-formed database, and those the handlers leave after the events
    that follow. The colours of the two menu entries and the geometry of
    the window are not part of the state; the two view handlers set the
    colours last, after the list is redrawn, so that a Tk error there
    (a colour name the platform does not know) finds the state as these
    definitions leave it. *)
Inductive shown : ShoppingListGUI.t -> Prop :=
| shown_init (db : ShoppingList.t) :
    well_formed db -> shown (fst (ShoppingListGUI.init db))
| shown_event (self : ShoppingListGUI.t) (e : event)
    (self' : ShoppingListGUI.t) (r : ShoppingListGUI.reply) :
    shown self -> handle self e = Some (self', r) -> shown self'.

(** The item [add_item] of the window creates, as it is read back. *)
Definition form_created (i z : Z) (d b : string) : Item :=
  {| id := Some i; quantity := z; description := d;
     barcode := if Py.truthy b then Some b else None;
     last_price := None; to_purchase := true |}.

(** A keyword of [update_item] that writes a column without a
    constraint (quantity, description, last_price or to_purchase), named
    by an identifier and given a value of the column's type that SQLite
    holds. *)
Definition plain_keyword (kv : string * ShoppingList.value) : bool :=
  Py.isidentifier (fst kv) && ShoppingList.binds (snd kv)
  && match ShoppingList.column_named (fst kv) with
     | Some ShoppingList.Cid | Some ShoppingList.Cbarcode | None => false
     | Some c =>
         match ShoppingList.assignment c (snd kv) with
         | Some _ => true
         | None => false
         end
     end.

(** * Properties *)

(** ** Python built-ins *)

Example int_plain : Py.int "42" = Some 42.
Proof. reflexivity. Qed.

Example int_padded_signed : Py.int "  -1_000 " = Some (-1000).
Proof. reflexivity. Qed.

Example int_rejects_text : Py.int "abc" = None.
Proof. reflexivity. Qed.

Example int_rejects_empty : Py.int "" = None.
Proof. reflexivity. Qed.

Example int_rejects_trailing_underscore : Py.int "5_" = None.
Proof. reflexivity. Qed.

Example format_int_2 : Py.format_int 2 7 = Some " 7".
Proof. reflexivity. Qed.

Example format_int_wide : Py.format_int 2 1234 = Some "1234".
Proof. reflexivity. Qed.

Example format_left_pads : Py.format_left 6 "Milk" = "Milk  ".
Proof. reflexivity. Qed.

Example split_head_no_sep : Py.split_head ":" " 7 | 3" = " 7 | 3".
Proof. reflexivity. Qed.

Example split_head_sep : Py.split_head ":" "7: Milk" = "7".
Proof. reflexivity. Qed.


(** *** What [int] accepts *)

Lemma skip_spaces_keeps (c : ascii) (l : list ascii) :
  In c l -> Py.literal_space c = true \/ In c (Py.skip_spaces l).
Proof.
  induction l as [|x l IH]; simpl; [tauto|].
  intros [->|Hin].
  - destruct (Py.literal_space c) eqn:E; [now left | right; now left].
  - destruct (Py.literal_space x) eqn:E; [now apply IH | right; now right].
Qed.

Lemma trim_keeps (c : ascii) (l : list ascii) :
  In c l -> Py.literal_space c = true \/ In c (Py.trim l).
Proof.
  intros Hin. unfold Py.trim.
  destruct (skip_spaces_keeps c l Hin) as [?|H1]; [now left|].
  apply in_rev in H1.
  destruct (skip_spaces_keeps c _ H1) as [?|H2]; [now left|].
  right. now apply in_rev in H2.
Qed.

Lemma digits_chars (l : list ascii) :
  forall acc seen z, Py.digits acc seen l = Some z ->
  forall c, In c l -> Py.isdigit c = true \/ c = "_"%char.
Proof.
  induction l as [|x l IH]; simpl; intros acc seen z H c Hin; [tauto|].
  destruct (Py.isdigit x) eqn:Ed.
  - destruct Hin as [<-|Hin]; [now left | eauto].
  - destruct (Ascii.eqb_spec x "_"); [|discriminate].
    destruct seen; [|discriminate].
    destruct Hin as [<-|Hin]; [now right | eauto].
Qed.

Lemma literal_chars (l : list ascii) (z : Z) :
  Py.literal l = Some z ->
  forall c, In c l -> Py.isdigit c = true \/ c = "_"%char.
Proof.
  unfold Py.literal. destruct (_ <? _)%nat; [discriminate|].
  apply digits_chars.
Qed.

Lemma int_chars (s : string) (z : Z) :
  Py.int s = Some z ->
  forall c, In c (list_ascii_of_string s) -> literal_char c = true.
Proof.
  unfold Py.int, literal_char. intros H c Hin.
  destruct (trim_keeps c _ Hin) as [->|Hs]; [reflexivity|].
  assert (Hd : forall l z', Py.literal l = Some z' ->
                In c l -> literal_char c = true).
  { intros l z' Hl Hc.
    destruct (literal_chars l z' Hl c Hc) as [E|E];
      unfold literal_char; rewrite E; [now rewrite orb_true_r | reflexivity]. }
  unfold literal_char in Hd.
  destruct (Py.trim (list_ascii_of_string s)) as [|x l] eqn:El; [destruct Hs|].
  destruct (Ascii.eqb_spec x "-") as [->|Hm].
  - destruct (Py.literal l) eqn:E; [|discriminate].
    destruct Hs as [<-|Hs]; [now rewrite !orb_true_r | eauto].
  - destruct (Ascii.eqb_spec x "+") as [->|Hp].
    + destruct Hs as [<-|Hs]; [now rewrite !orb_true_r | eauto].
    + assert (H' : Py.literal (x :: l) = Some z).
      { destruct x as [[] [] [] [] [] [] [] []]; try exact H; congruence. }
      eauto.
Qed.

(** A text with a character that is no part of a literal is refused. *)
Lemma int_refuses (s : string) (c : ascii) :
  In c (list_ascii_of_string s) -> literal_char c = false -> Py.int s = None.
Proof.
  intros Hin Hc. destruct (Py.int s) eqn:E; [|reflexivity].
  rewrite (int_chars s z E c Hin) in Hc. discriminate.
Qed.

(** *** What [str] and [format] produce *)

Lemma list_ascii_of_append (a b : string) :
  list_ascii_of_string (a ++ b) = (list_ascii_of_string a ++ list_ascii_of_string b)%list.
Proof. induction a as [|c a IH]; simpl; [reflexivity | now rewrite IH]. Qed.

Lemma append_assoc (a b c : string) : (a ++ b) ++ c = a ++ (b ++ c).
Proof. induction a as [|x a IH]; simpl; [reflexivity | now rewrite IH]. Qed.

Lemma append_empty (a : string) : a ++ "" = a.
Proof. induction a as [|x a IH]; simpl; [reflexivity | now rewrite IH]. Qed.

Lemma length_append (a b : string) :
  String.length (a ++ b) = (String.length a + String.length b)%nat.
Proof. induction a as [|c a IH]; simpl; [reflexivity | now rewrite IH]. Qed.

Lemma length_spaces (n : nat) : String.length (Py.spaces n) = n.
Proof. induction n as [|n IH]; simpl; [reflexivity | now rewrite IH]. Qed.

Lemma spaces_chars (n : nat) (c : ascii) :
  In c (list_ascii_of_string (Py.spaces n)) -> c = " "%char.
Proof. induction n as [|n IH]; simpl; [tauto | intros [<-|H]; auto]. Qed.

Lemma uint_chars (d : Decimal.uint) (c : ascii) :
  In c (list_ascii_of_string (NilEmpty.string_of_uint d)) -> Py.isdigit c = true.
Proof.
  induction d; simpl; try tauto; intros [<-|H]; auto.
Qed.

Lemma decimal_chars (n : Z) (c : ascii) :
  In c (list_ascii_of_string (Py.decimal n)) -> numeral_char c = true.
Proof.
  unfold Py.decimal, numeral_char.
  assert (U : forall d, In c (list_ascii_of_string (NilZero.string_of_uint d)) ->
                        Py.isdigit c = true).
  { intros d. destruct d; try apply (uint_chars _ c).
    simpl. intros [<-|[]]. reflexivity. }
  destruct (Z.to_int n) as [d|d]; simpl.
  - intros H. now rewrite (U d H).
  - intros [<-|H]; [reflexivity | now rewrite (U d H)].
Qed.

Lemma format_int_decimal (w : nat) (n : Z) (s : string) :
  Py.format_int w n = Some s -> s = Py.rjust w (Py.decimal n).
Proof.
  unfold Py.format_int, Py.str. destruct (_ <? _)%nat; [discriminate|].
  simpl. congruence.
Qed.

Lemma format_int_chars (w : nat) (n : Z) (s : string) (c : ascii) :
  Py.format_int w n = Some s ->
  In c (list_ascii_of_string s) -> numeral_char c = true.
Proof.
  intros Hs. rewrite (format_int_decimal w n s Hs).
  unfold Py.rjust. rewrite list_ascii_of_append.
  intros H. apply in_app_or in H. destruct H as [H|H].
  - now rewrite (spaces_chars _ _ H).
  - now apply decimal_chars with n.
Qed.

Lemma split_head_append (sep : ascii) (a b : string) :
  (forall c, In c (list_ascii_of_string a) -> Ascii.eqb c sep = false) ->
  Py.split_head sep (a ++ b) = a ++ Py.split_head sep b.
Proof.
  induction a as [|x a IH]; simpl; intros H; [reflexivity|].
  rewrite (H x (or_introl eq_refl)). f_equal. apply IH. intros c Hc. auto.
Qed.

Lemma numeral_char_not_colon (c : ascii) :
  numeral_char c = true -> Ascii.eqb c ":" = false.
Proof.
  destruct (Ascii.eqb_spec c ":") as [->|]; [discriminate | reflexivity].
Qed.

(** ** Rendering and parsing of a line *)

(** The text of a line is never read back: whatever the item, the part
    before the first colon still holds the first bar, and [int] refuses
    it. *)
Lemma row_text_not_parsed (item : Item) (s : string) :
  ShoppingListGUI.row_text item = Returns s ->
  Py.int (Py.split_head ":" s) = None.
Proof.
  unfold ShoppingListGUI.row_text. destruct (id item) as [i|]; [|discriminate].
  destruct (Py.format_int 2 i) as [a|] eqn:Ea; [|discriminate].
  destruct (Py.format_int 8 (quantity item)) as [b|]; [|discriminate].
  intros [= <-].
  rewrite split_head_append
    by (intros c Hc; apply numeral_char_not_colon, (format_int_chars 2 i a c Ea Hc)).
  simpl Py.split_head.
  apply int_refuses with (c := "|"%char); [|reflexivity].
  rewrite list_ascii_of_append. apply in_or_app. right. simpl. auto.
Qed.

Lemma update_list_store (self : ShoppingListGUI.t) :
  ShoppingListGUI.shopping_list (fst (ShoppingListGUI.update_list self))
  = ShoppingListGUI.shopping_list self.
Proof.
  unfold ShoppingListGUI.update_list.
  destruct (ShoppingListGUI.insert_rows _ _). reflexivity.
Qed.

(** C1, at the item of the specification's example. The line drawn for
    id 7, quantity 3, "Milk" has no colon, so [split(':')[0]] is the whole
    line and [int] raises [ValueError]: the id is not recovered, and
    [delete_item] on that line ends in the exception, the item still in
    the store. *)
Theorem milk_row_id_not_recovered :
  ShoppingList.get_all_items milk_store = [milk]
  /\ ShoppingListGUI.row_text milk
     = Returns " 7 |        3 | Milk                 | To Purchase"
  /\ ShoppingListGUI.current_listbox milk_window
     = [" 7 |        3 | Milk                 | To Purchase"]
  /\ Py.split_head ":" " 7 |        3 | Milk                 | To Purchase"
     = " 7 |        3 | Milk                 | To Purchase"
  /\ ShoppingListGUI.selected_id milk_window 0 = None
  /\ ShoppingListGUI.selected_id milk_window 0 <> Some 7
  /\ ShoppingListGUI.delete_item milk_window [0%nat]
     = (milk_window, ShoppingListGUI.Uncaught ValueError)
  /\ ShoppingListGUI.toggle_purchase milk_window [0%nat]
     = Some (milk_window, ShoppingListGUI.Uncaught ValueError).
Proof.
  repeat split; try reflexivity. discriminate.
Qed.


(** *** The cap on digits does not reach the integers of the table *)

Lemma nb_digits_double (d : Decimal.uint) :
  (Decimal.nb_digits (Decimal.Little.double d) <= S (Decimal.nb_digits d))%nat
  /\ (Decimal.nb_digits (Decimal.Little.succ_double d) <= S (Decimal.nb_digits d))%nat.
Proof.
  induction d as [|d [IH1 IH2]|d [IH1 IH2]|d [IH1 IH2]|d [IH1 IH2]|d [IH1 IH2]
                  |d [IH1 IH2]|d [IH1 IH2]|d [IH1 IH2]|d [IH1 IH2]|d [IH1 IH2]];
    simpl; split; lia.
Qed.

Lemma nb_digits_to_little_uint (p : positive) :
  (Decimal.nb_digits (Pos.to_little_uint p) <= Pos.size_nat p)%nat.
Proof.
  induction p as [p IH|p IH|]; simpl.
  - pose proof (proj2 (nb_digits_double (Pos.to_little_uint p))). lia.
  - pose proof (proj1 (nb_digits_double (Pos.to_little_uint p))). lia.
  - lia.
Qed.

Lemma length_string_of_uint (d : Decimal.uint) :
  String.length (NilEmpty.string_of_uint d) = Decimal.nb_digits d.
Proof. induction d; simpl; rewrite ?IHd; reflexivity. Qed.

Lemma length_list_ascii (s : string) :
  List.length (list_ascii_of_string s) = String.length s.
Proof. induction s as [|c s IH]; simpl; rewrite ?IH; reflexivity. Qed.

Lemma digit_count_pos (p : positive) :
  (Py.digit_count (list_ascii_of_string
                     (NilZero.string_of_uint (Pos.to_uint p))) <= Pos.size_nat p)%nat.
Proof.
  unfold Py.digit_count.
  etransitivity; [apply filter_length_le|]. rewrite length_list_ascii.
  assert (E : NilZero.string_of_uint (Pos.to_uint p)
              = NilEmpty.string_of_uint (Pos.to_uint p)).
  { pose proof (DecimalPos.Unsigned.to_uint_nonnil p) as Hnil.
    destruct (Pos.to_uint p); [now destruct Hnil | reflexivity ..]. }
  rewrite E, length_string_of_uint. unfold Pos.to_uint.
  rewrite DecimalFacts.nb_digits_rev. apply nb_digits_to_little_uint.
Qed.

Lemma size_nat_int64 (p : positive) :
  (p <= 2 ^ 63)%positive -> (Pos.size_nat p <= 65)%nat.
Proof.
  intros H.
  change 65%nat with (Pos.size_nat (2 ^ 64)).
  apply Pos.size_nat_monotone. 
  apply Pos.le_lt_trans with (2 ^ 63)%positive; [exact H | reflexivity].
Qed.

(** An integer SQLite holds has a numeral well under the cap. *)
Lemma str_fits (n : Z) :
  Sqlite.fits_int64 n = true -> Py.str n = Some (Py.decimal n).
Proof.
  unfold Sqlite.fits_int64, Sqlite.MAX_ROWID. intros H.
  apply andb_prop in H. destruct H as [Hlo Hhi].
  apply Z.leb_le in Hlo, Hhi.
  unfold Py.str.
  assert (Hc : (Py.digit_count (list_ascii_of_string (Py.decimal n)) <= 65)%nat).
  { unfold Py.decimal. destruct n as [|p|p]; simpl.
    - vm_compute. lia.
    - etransitivity; [apply digit_count_pos|]. apply size_nat_int64.
      change (2 ^ 63)%positive with (Z.to_pos (2 ^ 63)). lia.
    - change (Py.digit_count
                (list_ascii_of_string
                   (String "-" (NilZero.string_of_uint (Pos.to_uint p)))))
        with (Py.digit_count (list_ascii_of_string
                                (NilZero.string_of_uint (Pos.to_uint p)))).
      etransitivity; [apply digit_count_pos|]. apply size_nat_int64.
      change (2 ^ 63)%positive with (Z.to_pos (2 ^ 63)). lia. }
  destruct (Nat.ltb_spec Py.int_max_str_digits
              (Py.digit_count (list_ascii_of_string (Py.decimal n))))
    as [Hlt|_]; [|reflexivity].
  unfold Py.int_max_str_digits in Hlt. lia.
Qed.

Lemma format_int_fits (w : nat) (n : Z) :
  Sqlite.fits_int64 n = true ->
  Py.format_int w n = Some (Py.rjust w (Py.decimal n)).
Proof. intros H. unfold Py.format_int. now rewrite (str_fits n H). Qed.

(** C9, as the code has it. For an item with an id, its id and quantity
    being integers SQLite holds (as they are for every item read from the
    table), the line is the id right-aligned in at least 2 characters, the
    quantity right-aligned in at least 8, the description followed by
    spaces up to 20 characters, and the status, separated by " | ". The
    description is never cut: its field is 20 characters wide for a
    description of at most 20 characters, and as wide as the description
    beyond that. *)
Theorem row_text_layout (item : Item) (i : Z) :
  id item = Some i ->
  Sqlite.fits_int64 i = true ->
  Sqlite.fits_int64 (quantity item) = true ->
  ShoppingListGUI.row_text item
    = Returns (Py.spaces (2 - String.length (Py.decimal i)) ++ Py.decimal i
               ++ " | "
               ++ Py.spaces (8 - String.length (Py.decimal (quantity item)))
               ++ Py.decimal (quantity item) ++ " | "
               ++ ShoppingListGUI.description_field item ++ " | "
               ++ (if to_purchase item then "To Purchase" else "Not to Purchase"))
  /\ ShoppingListGUI.description_field item
     = description item ++ Py.spaces (20 - String.length (description item))
  /\ String.length (ShoppingListGUI.description_field item)
     = Nat.max 20 (String.length (description item))
  /\ ((String.length (description item) <= 20)%nat ->
      String.length (ShoppingListGUI.description_field item) = 20%nat)
  /\ ((20 < String.length (description item))%nat ->
      ShoppingListGUI.description_field item = description item).
Proof.
  intros Hid Hi Hq. unfold ShoppingListGUI.row_text.
  rewrite Hid, (format_int_fits 2 i Hi), (format_int_fits 8 _ Hq).
  unfold ShoppingListGUI.description_field, Py.format_left, Py.ljust,
    Py.rjust, ShoppingListGUI.status.
  split; [|split; [reflexivity|]].
  - now rewrite !append_assoc.
  - rewrite length_append, length_spaces.
    repeat split; intros; try lia.
    replace (20 - String.length (description item))%nat with 0%nat by lia.
    simpl. apply append_empty.
Qed.

Lemma row_text_layout_milk :
  ShoppingListGUI.row_text milk
    = Returns " 7 |        3 | Milk                 | To Purchase"
  /\ String.length (ShoppingListGUI.description_field milk) = 20%nat.
Proof.
  destruct (row_text_layout milk 7 eq_refl eq_refl eq_refl) as (H1 & _ & _ & H2 & _).
  split; [rewrite H1; reflexivity | apply H2; simpl; lia].
Defined.

(** C9 as stated fails where the description is longer than the column:
    the 26 letters are all in the line, and the field is 26 characters
    wide, not 20. *)
Lemma long_description_not_truncated :
  ShoppingListGUI.row_text alphabet
    = Returns " 1 |        1 | abcdefghijklmnopqrstuvwxyz | To Purchase"
  /\ String.length (ShoppingListGUI.description_field alphabet) = 26%nat
  /\ String.length (ShoppingListGUI.description_field alphabet) <> 20%nat.
Proof.
  repeat split; try reflexivity. discriminate.
Qed.

(** ** The store *)

Lemma item_of_row_id (r : Sqlite.row) :
  id (ShoppingList.Item_of_row r) = Some (Sqlite.rowid r).
Proof. reflexivity. Qed.

Lemma filter_map_item (l : list Sqlite.row) :
  map ShoppingList.Item_of_row (filter Sqlite.c_to_purchase l)
  = filter to_purchase (map ShoppingList.Item_of_row l).
Proof.
  induction l as [|r l IH]; simpl; [reflexivity|].
  destruct (Sqlite.c_to_purchase r); simpl; now rewrite IH.
Qed.

Lemma items_to_purchase_filter (self : ShoppingList.t) :
  ShoppingList.get_items_to_purchase self
  = filter to_purchase (ShoppingList.get_all_items self).
Proof. apply filter_map_item. Qed.

(** C5. The items to purchase are the items of [get_all_items] whose flag
    is set, in the same order: every one returned has the flag, every
    item with the flag is returned, and an item without it is not. *)
Theorem to_purchase_is_the_flagged_subset (self : ShoppingList.t) :
  ShoppingList.get_items_to_purchase self
    = filter to_purchase (ShoppingList.get_all_items self)
  /\ (forall item, In item (ShoppingList.get_items_to_purchase self) <->
                   In item (ShoppingList.get_all_items self)
                   /\ to_purchase item = true)
  /\ (forall item, In item (ShoppingList.get_all_items self) ->
        (to_purchase item = true
         /\ In item (ShoppingList.get_items_to_purchase self))
        \/ (to_purchase item = false
            /\ ~ In item (ShoppingList.get_items_to_purchase self))).
Proof.
  assert (E : ShoppingList.get_items_to_purchase self
              = filter to_purchase (ShoppingList.get_all_items self))
    by apply items_to_purchase_filter.
  split; [exact E|]. rewrite E. split.
  - intros item. apply filter_In.
  - intros item Hin. destruct (to_purchase item) eqn:F.
    + left. split; [reflexivity|]. apply filter_In. auto.
    + right. split; [reflexivity|]. intros H. apply filter_In in H.
      destruct H as [_ H]. congruence.
Qed.

(** *** Deleting *)

Lemma find_others_same (i : Z) (l : list Sqlite.row) :
  find (Sqlite.has_id i) (Sqlite.others i l) = None.
Proof.
  unfold Sqlite.others. induction l as [|r l IH]; simpl; [reflexivity|].
  destruct (Sqlite.has_id i r) eqn:E; simpl; [exact IH|].
  now rewrite E.
Qed.

Lemma find_others_other (i j : Z) (l : list Sqlite.row) :
  j <> i ->
  find (Sqlite.has_id j) (Sqlite.others i l) = find (Sqlite.has_id j) l.
Proof.
  intros Hji. unfold Sqlite.others.
  induction l as [|r l IH]; simpl; [reflexivity|].
  destruct (Sqlite.has_id i r) eqn:E; simpl.
  - assert (Sqlite.has_id j r = false) as ->; [|exact IH].
    unfold Sqlite.has_id in *. lia.
  - now rewrite IH.
Qed.

Lemma others_absent (i : Z) (l : list Sqlite.row) :
  find (Sqlite.has_id i) l = None -> Sqlite.others i l = l.
Proof.
  unfold Sqlite.others. induction l as [|r l IH]; simpl; [reflexivity|].
  destruct (Sqlite.has_id i r) eqn:E; [discriminate|].
  intros H. simpl. now rewrite IH.
Qed.

Lemma in_others (i : Z) (r : Sqlite.row) (l : list Sqlite.row) :
  In r (Sqlite.others i l) <-> In r l /\ Sqlite.rowid r <> i.
Proof.
  unfold Sqlite.others. rewrite filter_In. unfold Sqlite.has_id.
  split; intros [H1 H2]; split; auto; lia.
Qed.

(** C7. For an id of the table's integer type, [delete_item] returns
    normally; afterwards [get_item_by_id] finds nothing under the id and
    neither view lists an item with it, while every other id is looked up
    as before. Where the id was absent the store is the one before the
    call, and a second call on the result returns normally and changes
    nothing. *)
Theorem delete_item_removes_and_is_idempotent
    (self : ShoppingList.t) (item_id : Z) :
  Sqlite.fits_int64 item_id = true ->
  exists self',
    ShoppingList.delete_item self item_id = (self', Returns tt)
    /\ ShoppingList.get_item_by_id self' item_id = Returns None
    /\ (forall item, In item (ShoppingList.get_all_items self') ->
                     id item <> Some item_id)
    /\ (forall item, In item (ShoppingList.get_items_to_purchase self') ->
                     id item <> Some item_id)
    /\ (forall item, In item (ShoppingList.get_all_items self) ->
                     id item <> Some item_id ->
                     In item (ShoppingList.get_all_items self'))
    /\ (forall j, j <> item_id ->
                  ShoppingList.get_item_by_id self' j
                  = ShoppingList.get_item_by_id self j)
    /\ (ShoppingList.get_item_by_id self item_id = Returns None -> self' = self)
    /\ ShoppingList.delete_item self' item_id = (self', Returns tt).
Proof.
  intros Hfit. exists (Sqlite.delete self item_id).
  unfold ShoppingList.delete_item, ShoppingList.get_item_by_id. rewrite Hfit.
  assert (Hall : forall item,
             In item (ShoppingList.get_all_items (Sqlite.delete self item_id)) ->
             id item <> Some item_id).
  { intros item Hin. unfold ShoppingList.get_all_items in Hin.
    apply in_map_iff in Hin. destruct Hin as (r & <- & Hr).
    apply in_others in Hr. simpl. intros [= E]. tauto. }
  repeat split.
  - unfold Sqlite.select_by_id. simpl. now rewrite find_others_same.
  - exact Hall.
  - intros item Hin. apply Hall.
    rewrite items_to_purchase_filter in Hin. apply filter_In in Hin. tauto.
  - intros item Hin Hid. unfold ShoppingList.get_all_items in *.
    apply in_map_iff in Hin. destruct Hin as (r & <- & Hr).
    apply in_map. apply in_others. split; [exact Hr|].
    simpl in Hid. congruence.
  - intros j Hj. unfold Sqlite.select_by_id. simpl.
    now rewrite find_others_other.
  - unfold Sqlite.select_by_id. intros [= H].
    destruct (find (Sqlite.has_id item_id) (Sqlite.rows self)) eqn:E;
      [discriminate|].
    unfold Sqlite.delete. rewrite (others_absent _ _ E). now destruct self.
  - f_equal. unfold Sqlite.delete. simpl.
    rewrite (others_absent item_id (Sqlite.others item_id (Sqlite.rows self)))
      by apply find_others_same.
    reflexivity.
Qed.

Lemma delete_item_milk :
  exists self',
    ShoppingList.delete_item milk_store 7 = (self', Returns tt)
    /\ ShoppingList.get_item_by_id self' 7 = Returns None.
Proof.
  destruct (delete_item_removes_and_is_idempotent milk_store 7)
    as (self' & H1 & H2 & _).
  - reflexivity.
  - exists self'. split; assumption.
Defined.

(** C7 as stated fails for an id outside SQLite's integers: 2**63 cannot
    be bound to the statement, and [delete_item] ends in [OverflowError]
    where the claim has a call that is not an error. Nothing is
    deleted. *)
Lemma delete_item_outside_int64 :
  ShoppingList.delete_item pantry (2 ^ 63) = (pantry, Raises OverflowError)
  /\ ShoppingList.delete_item pantry (- 2 ^ 63 - 1)
     = (pantry, Raises OverflowError).
Proof.
  split; vm_compute; reflexivity.
Qed.

(** *** Inserting *)

Lemma barcode_taken_in (s : string) (l : list Sqlite.row) :
  existsb (Sqlite.has_barcode s) l = true <-> In s (barcodes l).
Proof.
  unfold barcodes. rewrite existsb_exists, in_flat_map.
  split; intros (r & Hr & H); exists r; split; auto;
    unfold Sqlite.has_barcode in *; destruct (Sqlite.c_barcode r) as [s'|].
  - apply String.eqb_eq in H. subst. now left.
  - discriminate.
  - destruct H as [->|[]]. apply String.eqb_refl.
  - destruct H.
Qed.

Lemma new_rowid_room (t : Sqlite.table) :
  room t 1 -> Sqlite.new_rowid t = Some (Sqlite.largest_rowid t + 1).
Proof.
  unfold room, Sqlite.new_rowid. intros H.
  destruct (Z.leb_spec Sqlite.MAX_ROWID (Sqlite.largest_rowid t)); [lia|reflexivity].
Qed.

Lemma or_None_text (s : string) :
  s <> "" -> ShoppingList.or_None (Some s) = Some s.
Proof. destruct s; [congruence | reflexivity]. Qed.

(** C3. With an item of barcode [s] in the store, [s] not empty,
    [add_item] of another item with barcode [s] raises and the store is
    the one before the call, contents and rowid counter alike. The
    exception is the constraint violation, [sqlite3.IntegrityError],
    whenever the statement gets as far as the constraint: the quantity is
    an integer SQLite can hold and a rowid is left to give out. *)
Theorem duplicate_barcode_rejected
    (self : ShoppingList.t) (existing item : Item) (s : string) :
  In existing (ShoppingList.get_all_items self) ->
  barcode existing = Some s ->
  barcode item = Some s ->
  s <> "" ->
  exists e,
    ShoppingList.add_item self item = (self, Raises e)
    /\ ShoppingList.get_all_items (fst (ShoppingList.add_item self item))
       = ShoppingList.get_all_items self
    /\ (Sqlite.fits_int64 (quantity item) = true -> room self 1 ->
        e = IntegrityError).
Proof.
  intros Hin Hex Hit Hs.
  assert (Htaken : Sqlite.barcode_taken (ShoppingList.or_None (barcode item))
                     (Sqlite.rows self) = true).
  { rewrite Hit, (or_None_text s Hs). simpl. apply barcode_taken_in.
    unfold ShoppingList.get_all_items in Hin. apply in_map_iff in Hin.
    destruct Hin as (r & <- & Hr). simpl in Hex.
    unfold barcodes. apply in_flat_map. exists r. split; [exact Hr|].
    rewrite Hex. now left. }
  unfold ShoppingList.add_item, Sqlite.insert.
  destruct (Sqlite.fits_int64 (quantity item)).
  - destruct (Sqlite.new_rowid self) as [i|] eqn:En.
    + rewrite Htaken. exists IntegrityError. auto.
    + exists OperationalError. repeat split; [].
      intros _ Hroom. rewrite (new_rowid_room _ Hroom) in En. discriminate.
  - exists OverflowError. repeat split; []. discriminate.
Qed.

Lemma duplicate_barcode_rejected_pantry :
  ShoppingList.add_item pantry
    {| id := None; quantity := 1; description := "Rye bread";
       barcode := Some "4006381"; last_price := None; to_purchase := true |}
  = (pantry, Raises IntegrityError).
Proof.
  destruct (duplicate_barcode_rejected pantry
              {| id := Some 2; quantity := 2; description := "Bread";
                 barcode := Some "4006381"; last_price := None;
                 to_purchase := true |}
              {| id := None; quantity := 1; description := "Rye bread";
                 barcode := Some "4006381"; last_price := None;
                 to_purchase := true |}
              "4006381")
    as (e & H & _ & He).
  - simpl. auto.
  - reflexivity.
  - reflexivity.
  - discriminate.
  - rewrite H. rewrite He; [reflexivity | reflexivity | ].
    unfold room. vm_compute. discriminate.
Defined.

(** C3 as stated fails: the failure is not always the constraint
    violation. Bread has the barcode 4006381. A second item with that
    barcode and the quantity 2**63, which the form accepts, ends in
    [OverflowError]: the quantity cannot be bound, and the constraint is
    never looked at. And once the largest rowid is in use (Bread moved to
    id 2**63-1 by [update_item]), a second item with that barcode ends in
    [sqlite3.OperationalError], no rowid being left. The table is as
    before in both cases. *)
Lemma duplicate_barcode_other_errors :
  ShoppingList.add_item pantry
    {| id := None; quantity := 2 ^ 63; description := "Rye bread";
       barcode := Some "4006381"; last_price := None; to_purchase := true |}
  = (pantry, Raises OverflowError)
  /\ ShoppingList.update_item pantry 2
       [("id", ShoppingList.VInt (2 ^ 63 - 1))]
     = Some (full_pantry, Returns tt)
  /\ ShoppingList.add_item full_pantry
       {| id := None; quantity := 1; description := "Rye bread";
          barcode := Some "4006381"; last_price := None; to_purchase := true |}
     = (full_pantry, Raises OperationalError).
Proof.
  split; [|split]; vm_compute; reflexivity.
Qed.

(** The invariant of a table that is written out, by computation. *)
Ltac closed_well_formed :=
  unfold well_formed; simpl;
  split; [repeat constructor
         | split; [repeat constructor; simpl; tauto
                  | split; [lia | repeat constructor]]].

(** Sortedness and the place of a new line. *)

Lemma sorted_below_last (zs : list Z) :
  StronglySorted Z.lt zs -> forall z, In z zs -> z <= last zs 0.
Proof.
  induction 1 as [|a zs Hs IH Hall]; intros z Hin; [destruct Hin|].
  destruct zs as [|b zs'].
  - destruct Hin as [<-|[]]. simpl. lia.
  - change (last (a :: b :: zs') 0) with (last (b :: zs') 0).
    destruct Hin as [<-|Hin]; [|now apply IH].
    rewrite Forall_forall in Hall.
    assert (a < last (b :: zs') 0); [|lia].
    apply Hall. destruct (exists_last (l := b :: zs')) as (l' & x & E);
      [discriminate|].
    rewrite E at 1. rewrite E, last_last. apply in_or_app. right. now left.
Qed.

Lemma place_above (r : Sqlite.row) (l : list Sqlite.row) :
  (forall x, In x l -> Sqlite.rowid x < Sqlite.rowid r) ->
  Sqlite.place r l = (l ++ [r])%list.
Proof.
  induction l as [|x l IH]; simpl; intros H; [reflexivity|].
  destruct (Z.ltb_spec (Sqlite.rowid r) (Sqlite.rowid x)) as [Hlt|_].
  - specialize (H x (or_introl eq_refl)). lia.
  - now rewrite IH by auto.
Qed.

Lemma sorted_snoc (zs : list Z) (k : Z) :
  StronglySorted Z.lt zs -> (forall z, In z zs -> z < k) ->
  StronglySorted Z.lt (zs ++ [k]).
Proof.
  induction 1 as [|a zs Hs IH Hall]; intros Hk; simpl.
  - constructor; constructor.
  - constructor.
    + apply IH. intros z Hz. apply Hk. now right.
    + apply Forall_app. split; [exact Hall|].
      constructor; [|constructor]. apply Hk. now left.
Qed.

Lemma largest_rowid_bounds (t : Sqlite.table) :
  well_formed t ->
  0 <= Sqlite.largest_rowid t
  /\ forall x, In x (Sqlite.rows t) -> Sqlite.rowid x <= Sqlite.largest_rowid t.
Proof.
  intros (Hs & _ & Hseq & _). unfold Sqlite.largest_rowid. split; [lia|].
  intros x Hx.
  pose proof (sorted_below_last _ Hs (Sqlite.rowid x) (in_map _ _ _ Hx)). lia.
Qed.

Lemma barcodes_app (l1 l2 : list Sqlite.row) :
  barcodes (l1 ++ l2) = (barcodes l1 ++ barcodes l2)%list.
Proof. unfold barcodes. apply flat_map_app. Qed.

Lemma fits_int64_rowid (z : Z) :
  0 <= z <= Sqlite.MAX_ROWID -> Sqlite.fits_int64 z = true.
Proof.
  unfold Sqlite.fits_int64, Sqlite.MAX_ROWID. intros H.
  apply andb_true_intro. split; apply Z.leb_le; lia.
Qed.

(** One successful [add_item], spelled out. *)
Lemma add_item_stores (self : ShoppingList.t) (item : Item) :
  well_formed self -> room self 1 ->
  Sqlite.fits_int64 (quantity item) = true ->
  NoDup (barcodes (Sqlite.rows self ++ [stored 0 item])) ->
  let i := Sqlite.largest_rowid self + 1 in
  let self' := {| Sqlite.rows := (Sqlite.rows self ++ [stored i item])%list;
                  Sqlite.sequence := i |} in
  ShoppingList.add_item self item = (self', Returns i)
  /\ well_formed self'
  /\ Sqlite.largest_rowid self' = i.
Proof.
  intros Hwf Hroom Hfit Hnd i self'.
  destruct (largest_rowid_bounds self Hwf) as [H0 Hle].
  assert (Hfree : Sqlite.barcode_taken (ShoppingList.or_None (barcode item))
                    (Sqlite.rows self) = false).
  { destruct (ShoppingList.or_None (barcode item)) as [s|] eqn:Eb; [|reflexivity].
    simpl. destruct (existsb (Sqlite.has_barcode s) (Sqlite.rows self)) eqn:E;
      [|reflexivity].
    apply barcode_taken_in in E. rewrite barcodes_app in Hnd.
    unfold barcodes at 2 in Hnd. simpl in Hnd. rewrite Eb in Hnd. simpl in Hnd.
    apply NoDup_remove_2 in Hnd. rewrite app_nil_r in Hnd. contradiction. }
  assert (Hplace : Sqlite.place (stored i item) (Sqlite.rows self)
                   = (Sqlite.rows self ++ [stored i item])%list).
  { apply place_above. intros x Hx. specialize (Hle x Hx). simpl. subst i. lia. }
  split; [|split].
  - unfold ShoppingList.add_item, Sqlite.insert.
    rewrite Hfit, (new_rowid_room _ Hroom), Hfree.
    fold i. unfold self'. rewrite <- Hplace. reflexivity.
  - destruct Hwf as (Hs & _ & Hseq & Hrange). unfold well_formed, self'. simpl.
    split; [|split; [|split]].
    + rewrite map_app. simpl. apply sorted_snoc; [exact Hs|].
      intros z Hz. apply in_map_iff in Hz. destruct Hz as (x & <- & Hx).
      specialize (Hle x Hx). subst i. lia.
    + rewrite barcodes_app in *. exact Hnd.
    + subst i. lia.
    + apply Forall_app. split; [exact Hrange|]. constructor; [|constructor].
      split; [|exact Hfit]. simpl. apply fits_int64_rowid.
      unfold room in Hroom. subst i. lia.
  - unfold Sqlite.largest_rowid, self'. simpl.
    rewrite map_app. simpl. rewrite last_last. lia.
Qed.

(** *** Sequences of creations *)

Lemma barcodes_cons (r : Sqlite.row) (l : list Sqlite.row) :
  barcodes (r :: l)
  = (match Sqlite.c_barcode r with Some s => [s] | None => [] end ++ barcodes l)%list.
Proof. reflexivity. Qed.

Lemma barcodes_stored_from (k k' : Z) (items : list Item) :
  barcodes (stored_from k items) = barcodes (stored_from k' items).
Proof.
  revert k k'. induction items as [|item rest IH]; intros k k'; [reflexivity|].
  simpl. unfold barcodes in *. simpl. now rewrite (IH (k + 1) (k' + 1)).
Qed.

Lemma stored_from_rowids (items : list Item) :
  forall k r, In r (stored_from k items) ->
  k < Sqlite.rowid r <= k + Z.of_nat (length items).
Proof.
  induction items as [|item rest IH]; intros k r Hin; [destruct Hin|].
  simpl length. destruct Hin as [<-|Hin].
  - simpl. lia.
  - specialize (IH (k + 1) r Hin). lia.
Qed.

Lemma stored_from_each (P : Item -> Z -> Prop) (items : list Item) :
  forall k,
  (forall item i, In item items -> In (stored i item) (stored_from k items) ->
                  P item i) ->
  Forall2 P items (map Sqlite.rowid (stored_from k items)).
Proof.
  induction items as [|item rest IH]; intros k H; simpl; constructor.
  - apply H; now left.
  - apply IH. intros it i Hit Hin. apply H; now right.
Qed.

Lemma find_sorted (l : list Sqlite.row) (r : Sqlite.row) :
  StronglySorted Z.lt (map Sqlite.rowid l) -> In r l ->
  find (Sqlite.has_id (Sqlite.rowid r)) l = Some r.
Proof.
  induction l as [|x l IH]; intros Hs Hin; [destruct Hin|].
  simpl in Hs. apply StronglySorted_inv in Hs. destruct Hs as [Hs Hall].
  simpl. unfold Sqlite.has_id at 1. destruct Hin as [->|Hin].
  - now rewrite Z.eqb_refl.
  - rewrite Forall_forall in Hall.
    specialize (Hall _ (in_map Sqlite.rowid _ _ Hin)).
    destruct (Z.eqb_spec (Sqlite.rowid x) (Sqlite.rowid r)); [lia|]. auto.
Qed.

(** Creations that all go through: the store afterwards is the store
    before with one line more per item, in order, under the next rowids. *)
Lemma create_all_stores (items : list Item) :
  forall self : ShoppingList.t,
  well_formed self ->
  room self (Z.of_nat (length items)) ->
  Forall (fun item => Sqlite.fits_int64 (quantity item) = true) items ->
  NoDup (barcodes (Sqlite.rows self ++ stored_from 0 items)) ->
  exists self',
    create_all self items
      = (self', Returns (map Sqlite.rowid
                           (stored_from (Sqlite.largest_rowid self) items)))
    /\ Sqlite.rows self'
       = (Sqlite.rows self ++ stored_from (Sqlite.largest_rowid self) items)%list
    /\ well_formed self'
    /\ Sqlite.largest_rowid self'
       = Sqlite.largest_rowid self + Z.of_nat (length items).
Proof.
  induction items as [|item rest IH]; intros self Hwf Hroom Hfit Hnd.
  - exists self. simpl. rewrite app_nil_r.
    split; [reflexivity|]. split; [reflexivity|]. split; [exact Hwf | lia].
  - simpl length in *. inversion Hfit as [|? ? Hq Hrest]; subst.
    assert (Hroom1 : room self 1) by (unfold room in *; lia).
    assert (Hnd1 : NoDup (barcodes (Sqlite.rows self ++ [stored 0 item]))).
    { cbn [stored_from] in Hnd. rewrite barcodes_app in *.
      rewrite !barcodes_cons in *. rewrite app_assoc in Hnd. apply NoDup_app_remove_r in Hnd.
      unfold barcodes at 2. simpl. rewrite app_nil_r. exact Hnd. }
    destruct (add_item_stores self item Hwf Hroom1 Hq Hnd1) as (Hadd & Hwf1 & Hl1).
    set (i := Sqlite.largest_rowid self + 1) in *.
    set (self1 := {| Sqlite.rows := (Sqlite.rows self ++ [stored i item])%list;
                     Sqlite.sequence := i |}) in *.
    destruct (IH self1 Hwf1) as (self' & Hc & Hrows & Hwf' & Hl'); auto.
    + unfold room in *. rewrite Hl1. lia.
    + unfold self1. cbn [stored_from Sqlite.rows] in *. rewrite <- app_assoc.
      rewrite barcodes_app in *. simpl app. rewrite !barcodes_cons in *.
      now rewrite (barcodes_stored_from 0 (0 + 1)).
    + exists self'. simpl. rewrite Hadd, Hc, Hl1. fold i.
      split; [reflexivity|]. split; [|split; [exact Hwf'|]].
      * rewrite Hrows, Hl1. unfold self1. simpl. now rewrite <- app_assoc.
      * rewrite Hl', Hl1. lia.
Qed.

(** C10. [add_item] stores an empty barcode as NULL. So, for items whose
    barcode is empty or absent (and whose quantity is an integer SQLite
    holds), a creation never ends in a constraint violation, whatever the
    store holds. And such items are created one after the other without
    any of the calls raising, however many there are, as long as rowids
    are left; each of them is afterwards returned by [get_item_by_id]
    under its id, and listed by [get_all_items], with the barcode
    [None]. *)
Theorem empty_barcode_stored_as_absent
    (self : ShoppingList.t) (items : list Item) :
  Forall (fun item => barcode item = None \/ barcode item = Some "") items ->
  Forall (fun item => Sqlite.fits_int64 (quantity item) = true) items ->
  (forall (any : ShoppingList.t) item, In item items ->
     snd (ShoppingList.add_item any item) <> Raises IntegrityError)
  /\ (well_formed self ->
      room self (Z.of_nat (length items)) ->
      exists self' ids,
        create_all self items = (self', Returns ids)
        /\ Forall2 (fun item i =>
                      exists it,
                        ShoppingList.get_item_by_id self' i = Returns (Some it)
                        /\ In it (ShoppingList.get_all_items self')
                        /\ barcode it = None
                        /\ barcode it <> Some ""
                        /\ description it = description item
                        /\ quantity it = quantity item) items ids).
Proof.
  intros Hall Hfit.
  assert (Hnone : forall item, In item items ->
                    ShoppingList.or_None (barcode item) = None).
  { rewrite Forall_forall in Hall. intros item Hin.
    destruct (Hall item Hin) as [-> | ->]; reflexivity. }
  split.
  - intros any item Hin. unfold ShoppingList.add_item, Sqlite.insert.
    rewrite (Hnone item Hin).
    destruct (Sqlite.fits_int64 (quantity item)); [|discriminate].
    destruct (Sqlite.new_rowid any); discriminate.
  - intros Hwf Hroom.
    assert (Hb : forall k, barcodes (stored_from k items) = []).
    { clear - Hnone. induction items as [|item rest IH]; intros k; [reflexivity|].
      cbn [stored_from]. rewrite barcodes_cons. simpl.
      rewrite (Hnone item) by now left. simpl.
      apply IH. intros it Hit. apply Hnone. now right. }
    destruct (create_all_stores items self Hwf Hroom Hfit)
      as (self' & Hc & Hrows & Hwf' & Hl').
    { rewrite barcodes_app, Hb, app_nil_r. apply Hwf. }
    exists self', (map Sqlite.rowid (stored_from (Sqlite.largest_rowid self) items)).
    split; [exact Hc|].
    apply stored_from_each. intros item i Hitem Hin.
    exists (ShoppingList.Item_of_row (stored i item)).
    assert (Hin' : In (stored i item) (Sqlite.rows self'))
      by (rewrite Hrows; apply in_or_app; now right).
    split; [|split; [|split; [|split]]].
    + unfold ShoppingList.get_item_by_id, Sqlite.select_by_id.
      apply stored_from_rowids in Hin. simpl in Hin.
      destruct (largest_rowid_bounds self Hwf) as [H0 _].
      rewrite fits_int64_rowid by (unfold room in Hroom; lia).
      pose proof (find_sorted _ _ (proj1 Hwf') Hin') as Hf. simpl in Hf.
      now rewrite Hf.
    + unfold ShoppingList.get_all_items, Sqlite.select_all. now apply in_map.
    + simpl. now apply Hnone.
    + simpl. rewrite (Hnone item Hitem). discriminate.
    + split; reflexivity.
Qed.

Lemma empty_barcode_stored_as_absent_pantry :
  exists self' ids,
    create_all pantry
      [ {| id := None; quantity := 1; description := "Salt";
           barcode := Some ""; last_price := None; to_purchase := true |};
        {| id := None; quantity := 2; description := "Rice";
           barcode := None; last_price := None; to_purchase := true |} ]
    = (self', Returns ids).
Proof.
  destruct (empty_barcode_stored_as_absent pantry
    [ {| id := None; quantity := 1; description := "Salt";
         barcode := Some ""; last_price := None; to_purchase := true |};
      {| id := None; quantity := 2; description := "Rice";
         barcode := None; last_price := None; to_purchase := true |} ])
    as (_ & H).
  - constructor; [right; reflexivity|].
    constructor; [left; reflexivity | constructor].
  - repeat constructor.
  - destruct H as (self' & ids & H & _).
    + closed_well_formed.
    + unfold room. vm_compute. discriminate.
    + exists self', ids. exact H.
Defined.

(** *** Updating *)

Lemma find_place_same (r : Sqlite.row) (l : list Sqlite.row) :
  existsb (Sqlite.has_id (Sqlite.rowid r)) l = false ->
  find (Sqlite.has_id (Sqlite.rowid r)) (Sqlite.place r l) = Some r.
Proof.
  induction l as [|x l IH]; simpl; intros H.
  - unfold Sqlite.has_id. now rewrite Z.eqb_refl.
  - apply orb_false_elim in H. destruct H as [Hx Hl].
    destruct (Sqlite.rowid r <? Sqlite.rowid x); simpl.
    + unfold Sqlite.has_id at 1. now rewrite Z.eqb_refl.
    + rewrite Hx. auto.
Qed.

Lemma find_place_other (j : Z) (r : Sqlite.row) (l : list Sqlite.row) :
  j <> Sqlite.rowid r ->
  find (Sqlite.has_id j) (Sqlite.place r l) = find (Sqlite.has_id j) l.
Proof.
  intros Hj.
  assert (Hr : Sqlite.has_id j r = false) by (unfold Sqlite.has_id; lia).
  induction l as [|x l IH]; simpl.
  - now rewrite Hr.
  - destruct (Sqlite.rowid r <? Sqlite.rowid x); simpl.
    + now rewrite Hr.
    + now rewrite IH.
Qed.

Lemma others_place (r : Sqlite.row) (l : list Sqlite.row) :
  Sqlite.others (Sqlite.rowid r) (Sqlite.place r l)
  = Sqlite.others (Sqlite.rowid r) l.
Proof.
  assert (Hr : Sqlite.has_id (Sqlite.rowid r) r = true)
    by (unfold Sqlite.has_id; apply Z.eqb_refl).
  unfold Sqlite.others. induction l as [|x l IH]; simpl.
  - now rewrite Hr.
  - destruct (Sqlite.rowid r <? Sqlite.rowid x); simpl.
    + now rewrite Hr.
    + now rewrite IH.
Qed.


Lemma exists_others_same (i : Z) (l : list Sqlite.row) :
  existsb (Sqlite.has_id i) (Sqlite.others i l) = false.
Proof.
  unfold Sqlite.others. induction l as [|x l IH]; simpl; [reflexivity|].
  destruct (Sqlite.has_id i x) eqn:E; simpl; [exact IH|]. now rewrite E.
Qed.

Lemma selected_has_id (t : Sqlite.table) (i : Z) (r : Sqlite.row) :
  Sqlite.select_by_id t i = Some r -> In r (Sqlite.rows t) /\ Sqlite.rowid r = i.
Proof.
  unfold Sqlite.select_by_id. intros H. apply find_some in H.
  unfold Sqlite.has_id in H. destruct H. split; [assumption | lia].
Qed.

(** No other line has the barcode of a line of a well-formed table. *)
Lemma barcode_free_among_others (l : list Sqlite.row) (i : Z) (r : Sqlite.row) :
  NoDup (barcodes l) -> find (Sqlite.has_id i) l = Some r ->
  Sqlite.barcode_taken (Sqlite.c_barcode r) (Sqlite.others i l) = false.
Proof.
  unfold Sqlite.barcode_taken.
  destruct (Sqlite.c_barcode r) as [s|] eqn:Eb; [|reflexivity].
  intros Hnd Hf.
  destruct (existsb (Sqlite.has_barcode s) (Sqlite.others i l)) eqn:E; [|reflexivity].
  exfalso. apply barcode_taken_in in E. revert Hnd Hf E.
  induction l as [|x l IH]; [discriminate|].
  rewrite barcodes_cons. unfold Sqlite.others. cbn [find filter].
  destruct (Sqlite.has_id i x) eqn:Ex; cbn [negb]; intros Hnd Hf E.
  - injection Hf as ->. rewrite Eb in Hnd. simpl in Hnd.
    apply NoDup_cons_iff in Hnd. destruct Hnd as [Hnot _]. apply Hnot.
    unfold barcodes in *. apply in_flat_map in E. destruct E as (y & Hy & Hs).
    apply filter_In in Hy. apply in_flat_map. exists y. tauto.
  - rewrite barcodes_cons in E. apply in_app_or in E. destruct E as [E|E].
    + destruct (Sqlite.c_barcode x) as [s'|] eqn:Ex'; [|destruct E].
      destruct E as [->|[]]. simpl in Hnd. apply NoDup_cons_iff in Hnd.
      destruct Hnd as [Hnot _]. apply Hnot.
      apply find_some in Hf. destruct Hf as [Hin _].
      unfold barcodes. apply in_flat_map. exists r. rewrite Eb. split; [assumption|now left].
    + apply IH; auto. apply NoDup_app_remove_l in Hnd. exact Hnd.
Qed.

(** What an UPDATE does, by cases. *)
Lemma update_cases (t : Sqlite.table) (i : Z) (f : Sqlite.row -> Sqlite.row) :
  (Sqlite.select_by_id t i = None /\ Sqlite.update t i f = (t, Returns tt))
  \/ (exists r, Sqlite.select_by_id t i = Some r
        /\ Sqlite.update t i f = (t, Raises IntegrityError)
        /\ (existsb (Sqlite.has_id (Sqlite.rowid (f r))) (Sqlite.others i (Sqlite.rows t))
            || Sqlite.barcode_taken (Sqlite.c_barcode (f r))
                 (Sqlite.others i (Sqlite.rows t))) = true)
  \/ (exists r, Sqlite.select_by_id t i = Some r
        /\ Sqlite.update t i f
           = ({| Sqlite.rows := Sqlite.place (f r) (Sqlite.others i (Sqlite.rows t));
                 Sqlite.sequence := Sqlite.sequence t |}, Returns tt)
        /\ existsb (Sqlite.has_id (Sqlite.rowid (f r)))
             (Sqlite.others i (Sqlite.rows t)) = false
        /\ Sqlite.barcode_taken (Sqlite.c_barcode (f r))
             (Sqlite.others i (Sqlite.rows t)) = false).
Proof.
  unfold Sqlite.update. destruct (Sqlite.select_by_id t i) as [r|]; [|now left].
  right.
  destruct (existsb _ _ || Sqlite.barcode_taken _ _) eqn:E.
  - left. exists r. auto.
  - right. exists r. apply orb_false_elim in E. destruct E. auto.
Qed.




Lemma columns_unknown (kwargs : list (string * ShoppingList.value))
    (key : string) (v : ShoppingList.value) :
  In (key, v) kwargs -> ShoppingList.column_named key = None ->
  ShoppingList.columns kwargs = None.
Proof.
  induction kwargs as [|[k v'] rest IH]; simpl; intros Hin Hk; [destruct Hin|].
  destruct Hin as [[= -> ->]|Hin].
  - now rewrite Hk.
  - rewrite (IH Hin Hk). now destruct (ShoppingList.column_named k).
Qed.

(** [update_item] either is outside the embedding, or raises with the
    store as it was, or runs the UPDATE with the change its keywords
    spell. *)
Lemma update_item_cases (self : ShoppingList.t) (item_id : Z)
    (kwargs : list (string * ShoppingList.value)) :
  ShoppingList.update_item self item_id kwargs = None
  \/ (exists e, ShoppingList.update_item self item_id kwargs = Some (self, Raises e))
  \/ (exists cs f,
        ShoppingList.columns kwargs = Some cs
        /\ ShoppingList.set_clause cs = Some f
        /\ forallb (fun kv => ShoppingList.binds (snd kv)) kwargs = true
        /\ Sqlite.fits_int64 item_id = true
        /\ ShoppingList.update_item self item_id kwargs
           = Some (Sqlite.update self item_id f)).
Proof.
  unfold ShoppingList.update_item.
  destruct (existsb _ kwargs); [right; left; eauto|].
  destruct (forallb _ kwargs); simpl; [|now left].
  destruct kwargs as [|kv rest] eqn:Ek; [right; left; eauto|]. rewrite <- Ek.
  destruct (Sqlite.MAX_COLUMN <? length kwargs)%nat; [right; left; eauto|].
  destruct (ShoppingList.columns kwargs) as [cs|] eqn:Ec; [|right; left; eauto].
  destruct (ShoppingList.set_clause cs) as [f|] eqn:Ef; [|now left].
  destruct (forallb _ kwargs) eqn:Eb; simpl; [|right; left; eauto].
  destruct (Sqlite.fits_int64 item_id); [|right; left; eauto].
  right. right. exists cs, f. auto.
Qed.

(** The call that gets as far as the UPDATE. *)
Lemma update_item_runs (self : ShoppingList.t) (item_id : Z)
    (kwargs : list (string * ShoppingList.value))
    (cs : list (ShoppingList.column * ShoppingList.value))
    (f : Sqlite.row -> Sqlite.row) :
  existsb (fun kv => ShoppingList.parameter_name (fst kv)) kwargs = false ->
  forallb (fun kv => Py.isidentifier (fst kv)) kwargs = true ->
  kwargs <> [] ->
  (length kwargs <= Sqlite.MAX_COLUMN)%nat ->
  ShoppingList.columns kwargs = Some cs ->
  ShoppingList.set_clause cs = Some f ->
  forallb (fun kv => ShoppingList.binds (snd kv)) kwargs = true ->
  Sqlite.fits_int64 item_id = true ->
  ShoppingList.update_item self item_id kwargs
  = Some (Sqlite.update self item_id f).
Proof.
  intros Hpar Hids Hne Hlen Hcs Hf Hbinds Hfit. unfold ShoppingList.update_item.
  rewrite Hpar, Hids, Hcs, Hf, Hbinds, Hfit. cbn [negb andb].
  destruct (Nat.ltb_spec Sqlite.MAX_COLUMN (length kwargs)) as [H|_]; [lia|].
  destruct kwargs; [contradiction|reflexivity].
Qed.

(** ** The invariant is kept

    The empty table is well formed, and each method of the store leaves a
    well-formed table well formed, whether it returns or raises. *)

Lemma well_formed_empty : well_formed Sqlite.empty.
Proof. closed_well_formed. Qed.

Lemma in_place (x r : Sqlite.row) (l : list Sqlite.row) :
  In x (Sqlite.place r l) <-> x = r \/ In x l.
Proof.
  induction l as [|y l IH]; simpl.
  - intuition congruence.
  - destruct (Sqlite.rowid r <? Sqlite.rowid y); simpl; rewrite ?IH;
      intuition congruence.
Qed.

Lemma in_range_others (i : Z) (l : list Sqlite.row) :
  Forall in_range l -> Forall in_range (Sqlite.others i l).
Proof.
  intros H. apply (incl_Forall (l1 := l)); [|exact H].
  apply incl_filter.
Qed.

Lemma in_range_place (r : Sqlite.row) (l : list Sqlite.row) :
  in_range r -> Forall in_range l -> Forall in_range (Sqlite.place r l).
Proof.
  intros Hr Hl. rewrite Forall_forall in *. intros x Hx.
  apply in_place in Hx. destruct Hx as [->|Hx]; auto.
Qed.

(** Bound values keep the integers of a line in range. *)
Lemma assignment_in_range (c : ShoppingList.column) (v : ShoppingList.value)
    (g : Sqlite.row -> Sqlite.row) (r : Sqlite.row) :
  ShoppingList.assignment c v = Some g -> ShoppingList.binds v = true ->
  in_range r -> in_range (g r).
Proof.
  intros Hg Hv [Hi Hq].
  destruct c, v; simpl in Hg; try discriminate; injection Hg as <-;
    split; simpl; assumption.
Qed.

Lemma set_clause_in_range (cs : list (ShoppingList.column * ShoppingList.value)) :
  forall (f : Sqlite.row -> Sqlite.row) (r : Sqlite.row),
  ShoppingList.set_clause cs = Some f ->
  forallb (fun cv => ShoppingList.binds (snd cv)) cs = true ->
  in_range r -> in_range (f r).
Proof.
  induction cs as [|[c v] cs IH]; simpl; intros f r Hf Hb Hr.
  - now injection Hf as <-.
  - destruct (ShoppingList.assignment c v) as [g|] eqn:Eg; [|discriminate].
    destruct (ShoppingList.set_clause cs) as [h|] eqn:Eh; [|discriminate].
    injection Hf as <-. apply andb_prop in Hb. destruct Hb as [Hv Hb].
    apply (IH h); auto. now apply (assignment_in_range c v).
Qed.

Lemma columns_binds (kwargs : list (string * ShoppingList.value)) :
  forall cs, ShoppingList.columns kwargs = Some cs ->
  forallb (fun cv => ShoppingList.binds (snd cv)) cs
  = forallb (fun kv => ShoppingList.binds (snd kv)) kwargs.
Proof.
  induction kwargs as [|[key v] rest IH]; simpl; intros cs Hcs.
  - now injection Hcs as <-.
  - destruct (ShoppingList.column_named key); [|discriminate].
    destruct (ShoppingList.columns rest) as [cs'|]; [|discriminate].
    injection Hcs as <-. simpl. now rewrite (IH cs' eq_refl).
Qed.

Lemma sorted_others (i : Z) (l : list Sqlite.row) :
  StronglySorted Z.lt (map Sqlite.rowid l) ->
  StronglySorted Z.lt (map Sqlite.rowid (Sqlite.others i l)).
Proof.
  unfold Sqlite.others. induction l as [|x l IH]; simpl; intros Hs; [constructor|].
  apply StronglySorted_inv in Hs. destruct Hs as [Hs Hall].
  destruct (negb (Sqlite.has_id i x)); simpl; [|auto].
  constructor; [auto|].
  rewrite Forall_forall in *. intros z Hz. apply Hall.
  apply in_map_iff in Hz. destruct Hz as (y & <- & Hy).
  apply filter_In in Hy. apply in_map. tauto.
Qed.

Lemma sorted_place (r : Sqlite.row) (l : list Sqlite.row) :
  StronglySorted Z.lt (map Sqlite.rowid l) ->
  existsb (Sqlite.has_id (Sqlite.rowid r)) l = false ->
  StronglySorted Z.lt (map Sqlite.rowid (Sqlite.place r l)).
Proof.
  induction l as [|x l IH]; simpl; intros Hs Hex.
  - constructor; constructor.
  - apply orb_false_elim in Hex. destruct Hex as [Hx Hl].
    unfold Sqlite.has_id in Hx.
    pose proof (StronglySorted_inv Hs) as [Hs' Hall].
    rewrite Forall_forall in Hall.
    destruct (Z.ltb_spec (Sqlite.rowid r) (Sqlite.rowid x)) as [Hlt|Hge]; simpl.
    + constructor; [exact Hs|]. constructor; [exact Hlt|].
      apply Forall_forall. intros z Hz. specialize (Hall z Hz). lia.
    + constructor; [auto|]. apply Forall_forall. intros z Hz.
      apply in_map_iff in Hz. destruct Hz as (y & <- & Hy).
      apply in_place in Hy. destruct Hy as [->|Hy]; [lia|].
      apply Hall. now apply in_map.
Qed.

Lemma barcodes_place (r : Sqlite.row) (l : list Sqlite.row) :
  Permutation (barcodes (Sqlite.place r l)) (barcodes (r :: l)).
Proof.
  induction l as [|x l IH]; simpl; [reflexivity|].
  destruct (Sqlite.rowid r <? Sqlite.rowid x); [reflexivity|].
  rewrite !barcodes_cons in *. rewrite IH.
  rewrite !app_assoc. apply Permutation_app_tail, Permutation_app_comm.
Qed.

Lemma nodup_barcodes_others (i : Z) (l : list Sqlite.row) :
  NoDup (barcodes l) -> NoDup (barcodes (Sqlite.others i l)).
Proof.
  unfold Sqlite.others. induction l as [|x l IH]; [auto|].
  rewrite barcodes_cons. cbn [filter]. intros Hnd.
  pose proof (NoDup_app_remove_l _ _ Hnd) as Hl.
  destruct (negb (Sqlite.has_id i x)); [|auto].
  rewrite barcodes_cons.
  destruct (Sqlite.c_barcode x) as [s|]; simpl in *; [|auto].
  apply NoDup_cons_iff in Hnd. destruct Hnd as [Hnot _].
  constructor; [|auto].
  intros Hin. apply Hnot. unfold barcodes in *.
  apply in_flat_map in Hin. destruct Hin as (y & Hy & Hs).
  apply filter_In in Hy. apply in_flat_map. exists y. tauto.
Qed.

Lemma nodup_barcodes_place (r : Sqlite.row) (l : list Sqlite.row) :
  NoDup (barcodes l) ->
  Sqlite.barcode_taken (Sqlite.c_barcode r) l = false ->
  NoDup (barcodes (Sqlite.place r l)).
Proof.
  intros Hnd Hfree.
  apply (Permutation_NoDup (Permutation_sym (barcodes_place r l))).
  rewrite barcodes_cons. unfold Sqlite.barcode_taken in Hfree.
  destruct (Sqlite.c_barcode r) as [s|]; simpl; [|exact Hnd].
  constructor; [|exact Hnd].
  intros Hin. apply barcode_taken_in in Hin. congruence.
Qed.

Lemma well_formed_kept (self : ShoppingList.t) :
  well_formed self ->
  (forall item, well_formed (fst (ShoppingList.add_item self item)))
  /\ (forall item_id, well_formed (fst (ShoppingList.delete_item self item_id)))
  /\ (forall item_id kwargs r,
        ShoppingList.update_item self item_id kwargs = Some r ->
        well_formed (fst r)).
Proof.
  intros Hwf. pose proof Hwf as (Hs & Hnd & Hseq & Hrange). split; [|split].
  - intros item. unfold ShoppingList.add_item, Sqlite.insert.
    destruct (Sqlite.fits_int64 (quantity item)) eqn:Hq; [|exact Hwf].
    destruct (Sqlite.new_rowid self) as [i|] eqn:En; [|exact Hwf].
    destruct (Sqlite.barcode_taken _ _) eqn:Eb; [exact Hwf|].
    unfold Sqlite.new_rowid in En.
    destruct (Z.leb_spec Sqlite.MAX_ROWID (Sqlite.largest_rowid self));
      [discriminate|].
    injection En as <-.
    destruct (largest_rowid_bounds self Hwf) as [H0 Hle].
    unfold well_formed. simpl. split; [|split; [|split]].
    + apply sorted_place; [exact Hs|]. simpl.
      destruct (existsb _ _) eqn:E; [|reflexivity].
      apply existsb_exists in E. destruct E as (x & Hx & E).
      unfold Sqlite.has_id in E. specialize (Hle x Hx). lia.
    + now apply nodup_barcodes_place.
    + lia.
    + apply in_range_place; [|exact Hrange].
      split; [|exact Hq]. simpl. apply fits_int64_rowid. lia.
  - intros item_id. unfold ShoppingList.delete_item.
    destruct (Sqlite.fits_int64 item_id); [|exact Hwf].
    unfold well_formed. simpl. split; [|split; [|split]].
    + now apply sorted_others.
    + now apply nodup_barcodes_others.
    + exact Hseq.
    + now apply in_range_others.
  - intros item_id kwargs r Hup.
    destruct (update_item_cases self item_id kwargs)
      as [H|[(e & H)|(cs & f & Hcs & Hf & Hb & _ & H)]]; rewrite H in Hup.
    + discriminate.
    + now injection Hup as <-.
    + injection Hup as <-.
      destruct (update_cases self item_id f)
        as [[_ H']|[(r0 & _ & H' & _)|(r0 & Hr0 & H' & Hid & Hbar)]]; rewrite H'.
      * exact Hwf.
      * exact Hwf.
      * unfold well_formed. simpl. split; [|split; [|split]].
        -- apply sorted_place; [now apply sorted_others | exact Hid].
        -- apply nodup_barcodes_place; [now apply nodup_barcodes_others | exact Hbar].
        -- exact Hseq.
        -- apply in_range_place; [|now apply in_range_others].
           apply (set_clause_in_range cs f r0 Hf).
           ++ now rewrite (columns_binds kwargs cs Hcs).
           ++ rewrite Forall_forall in Hrange. apply Hrange.
              now apply (selected_has_id self item_id r0).
Qed.

(** ** The window *)

Lemma row_text_stored (r : Sqlite.row) :
  in_range r ->
  exists s, ShoppingListGUI.row_text (ShoppingList.Item_of_row r) = Returns s.
Proof.
  intros [Hi Hq]. unfold ShoppingListGUI.row_text. simpl.
  rewrite (format_int_fits 2 _ Hi), (format_int_fits 8 _ Hq). eauto.
Qed.

Lemma insert_rows_returns (l : list Sqlite.row) :
  Forall in_range l ->
  forall box,
  snd (ShoppingListGUI.insert_rows box (map ShoppingList.Item_of_row l)) = Returns tt.
Proof.
  induction 1 as [|r l Hr _ IH]; intros box; simpl; [reflexivity|].
  destruct (row_text_stored r Hr) as (s & ->). apply IH.
Qed.

(** Redrawing the list of a well-formed store never raises: every item
    fetched has its id, and its integers are under the cap on digits. *)
Lemma update_list_returns (self : ShoppingListGUI.t) :
  well_formed (ShoppingListGUI.shopping_list self) ->
  snd (ShoppingListGUI.update_list self) = Returns tt.
Proof.
  intros (_ & _ & _ & Hrange).
  unfold ShoppingListGUI.update_list,
    ShoppingList.get_all_items, ShoppingList.get_items_to_purchase.
  destruct (ShoppingListGUI.show_all_items self).
  - pose proof (insert_rows_returns _ Hrange []) as H.
    unfold Sqlite.select_all.
    destruct (ShoppingListGUI.insert_rows _ _). exact H.
  - assert (Hr : Forall in_range
                   (Sqlite.select_to_purchase (ShoppingListGUI.shopping_list self))).
    { apply (incl_Forall (l1 := Sqlite.rows (ShoppingListGUI.shopping_list self)));
        [apply incl_filter | exact Hrange]. }
    pose proof (insert_rows_returns _ Hr []) as H.
    destruct (ShoppingListGUI.insert_rows _ _). exact H.
Qed.

Lemma int_nonempty (s : string) (z : Z) : Py.int s = Some z -> Py.truthy s = true.
Proof. destruct s; [discriminate | reflexivity]. Qed.

Lemma truthy_nonempty (s : string) : s <> "" -> Py.truthy s = true.
Proof. destruct s; [congruence | reflexivity]. Qed.

(** [add_item] past its two checks. *)
Lemma add_item_valid (self : ShoppingListGUI.t) (q : Z) :
  ShoppingListGUI.description_entry self <> "" ->
  Py.int (ShoppingListGUI.quantity_entry self) = Some q ->
  ShoppingListGUI.add_item self
  = match ShoppingList.add_item (ShoppingListGUI.shopping_list self)
            (ShoppingListGUI.form_item q (ShoppingListGUI.description_entry self)
               (ShoppingListGUI.barcode_entry self)) with
    | (sl, Raises e) => (ShoppingListGUI.with_store self sl, ShoppingListGUI.Uncaught e)
    | (sl, Returns _) =>
        match ShoppingListGUI.update_list (ShoppingListGUI.with_store self sl) with
        | (self', Raises e) => (self', ShoppingListGUI.Uncaught e)
        | (self', Returns _) => (ShoppingListGUI.clear_entries self', ShoppingListGUI.Done)
        end
    end.
Proof.
  intros Hd Hq. unfold ShoppingListGUI.add_item.
  now rewrite (truthy_nonempty _ Hd), (int_nonempty _ _ Hq), Hq.
Qed.

(** [add_item] past its two checks, on a well-formed store. *)
Lemma add_item_valid_well_formed (self : ShoppingListGUI.t) (q : Z) :
  well_formed (ShoppingListGUI.shopping_list self) ->
  ShoppingListGUI.description_entry self <> "" ->
  Py.int (ShoppingListGUI.quantity_entry self) = Some q ->
  ShoppingListGUI.add_item self
  = match ShoppingList.add_item (ShoppingListGUI.shopping_list self)
            (ShoppingListGUI.form_item q (ShoppingListGUI.description_entry self)
               (ShoppingListGUI.barcode_entry self)) with
    | (sl, Raises e) => (ShoppingListGUI.with_store self sl, ShoppingListGUI.Uncaught e)
    | (sl, Returns _) =>
        (ShoppingListGUI.clear_entries
           (fst (ShoppingListGUI.update_list (ShoppingListGUI.with_store self sl))),
         ShoppingListGUI.Done)
    end.
Proof.
  intros Hwf Hd Hq. rewrite (add_item_valid self q Hd Hq).
  pose proof (proj1 (well_formed_kept _ Hwf)
                (ShoppingListGUI.form_item q (ShoppingListGUI.description_entry self)
                   (ShoppingListGUI.barcode_entry self))) as Hwf'.
  destruct (ShoppingList.add_item _ _) as [sl [i|e]]; [|reflexivity].
  simpl in Hwf'.
  pose proof (update_list_returns (ShoppingListGUI.with_store self sl) Hwf') as H.
  destruct (ShoppingListGUI.update_list _) as [self' o]. simpl in H. now subst o.
Qed.

(** C4. With an empty description, or a quantity text that [int] does not
    accept, [add_item] shows an error box and returns with the window and
    the store as they were. Otherwise, and only then, it calls the
    store's [add_item], with the item made of the three entries: the
    store afterwards is what that call leaves, no error box is shown, and
    (the store being well formed) the handler completes exactly when the
    call does not raise. *)
Theorem add_item_validates (self : ShoppingListGUI.t) :
  (ShoppingListGUI.description_entry self = ""
   \/ Py.int (ShoppingListGUI.quantity_entry self) = None ->
   exists message,
     ShoppingListGUI.add_item self
     = (self, ShoppingListGUI.ShowError "Error" message))
  /\ (ShoppingListGUI.description_entry self <> "" ->
      forall q, Py.int (ShoppingListGUI.quantity_entry self) = Some q ->
      let created :=
        ShoppingList.add_item (ShoppingListGUI.shopping_list self)
          (ShoppingListGUI.form_item q (ShoppingListGUI.description_entry self)
             (ShoppingListGUI.barcode_entry self)) in
      ShoppingListGUI.shopping_list (fst (ShoppingListGUI.add_item self))
      = fst created
      /\ (forall title message,
            snd (ShoppingListGUI.add_item self)
            <> ShoppingListGUI.ShowError title message)
      /\ (well_formed (ShoppingListGUI.shopping_list self) ->
          (snd (ShoppingListGUI.add_item self) = ShoppingListGUI.Done
           <-> raised (snd created) = false))).
Proof.
  split.
  - intros H. unfold ShoppingListGUI.add_item.
    destruct (ShoppingListGUI.description_entry self) as [|c d] eqn:Ed.
    + simpl. eauto.
    + destruct H as [H|H]; [discriminate|].
      destruct (ShoppingListGUI.quantity_entry self) as [|c' q'] eqn:Eq.
      * simpl. eauto.
      * simpl negb. simpl orb. cbv iota. rewrite H. eauto.
  - intros Hd q Hq created. split; [|split].
    + rewrite (add_item_valid self q Hd Hq). fold created.
      destruct created as [sl [i|e]]; [|reflexivity].
      pose proof (update_list_store (ShoppingListGUI.with_store self sl)) as Hs.
      destruct (ShoppingListGUI.update_list _) as [self' [u|e]]; exact Hs.
    + intros title message. rewrite (add_item_valid self q Hd Hq). fold created.
      destruct created as [sl [i|e]]; [|discriminate].
      destruct (ShoppingListGUI.update_list _) as [self' [u|e]]; discriminate.
    + intros Hwf. rewrite (add_item_valid_well_formed self q Hwf Hd Hq).
      fold created. destruct created as [sl [i|e]]; simpl;
        split; try reflexivity; discriminate.
Qed.

Lemma add_item_validates_eggs :
  exists message,
    ShoppingListGUI.add_item (ShoppingListGUI.with_entries pantry_window "Eggs" "abc" "")
    = (ShoppingListGUI.with_entries pantry_window "Eggs" "abc" "",
       ShoppingListGUI.ShowError "Error" message).
Proof.
  apply (add_item_validates (ShoppingListGUI.with_entries pantry_window "Eggs" "abc" "")).
  right. reflexivity.
Defined.

(** *** Adding through the form *)

Lemma with_store_store (self : ShoppingListGUI.t) (sl : ShoppingList.t) :
  ShoppingListGUI.shopping_list (ShoppingListGUI.with_store self sl) = sl.
Proof. reflexivity. Qed.

(** The form used for a list of inputs that pass its checks does what
    [create_all] does with the items typed. *)
Lemma add_all_creates (inputs : list (string * string * string)) :
  forall (self : ShoppingListGUI.t) (st' : ShoppingList.t) (ids : list Z),
  well_formed (ShoppingListGUI.shopping_list self) ->
  Forall (fun input => let '(d, q, b) := input in
                       d <> "" /\ exists z, Py.int q = Some z) inputs ->
  create_all (ShoppingListGUI.shopping_list self) (map typed_item inputs)
  = (st', Returns ids) ->
  exists self',
    ShoppingListGUI.add_all self inputs = (self', ShoppingListGUI.Done)
    /\ ShoppingListGUI.shopping_list self' = st'.
Proof.
  induction inputs as [|[[d q] b] rest IH]; intros self st' ids Hwf Hv Hc.
  - simpl in *. injection Hc as <- _. eauto.
  - inversion Hv as [|? ? Hhd Hrest]; subst. destruct Hhd as (Hd & z & Hz).
    cbn [map create_all] in Hc. cbn [ShoppingListGUI.add_all ShoppingListGUI.fill_and_add].
    rewrite (add_item_valid_well_formed (ShoppingListGUI.with_entries self d q b)
               z Hwf Hd Hz).
    cbn [ShoppingListGUI.shopping_list ShoppingListGUI.with_entries
         ShoppingListGUI.description_entry ShoppingListGUI.barcode_entry].
    unfold typed_item in Hc at 1. rewrite Hz in Hc.
    pose proof (proj1 (well_formed_kept _ Hwf) (ShoppingListGUI.form_item z d b))
      as Hwf1.
    destruct (ShoppingList.add_item _ _) as [sl [i|e]]; [|discriminate].
    destruct (create_all sl (map typed_item rest)) as [st'' [ids'|e]] eqn:Ec;
      [|discriminate].
    injection Hc as <- _.
    apply (IH _ st'' ids'); [|exact Hrest|].
    + cbn [ShoppingListGUI.clear_entries ShoppingListGUI.with_entries
           ShoppingListGUI.shopping_list].
      rewrite update_list_store. exact Hwf1.
    + cbn [ShoppingListGUI.clear_entries ShoppingListGUI.with_entries
           ShoppingListGUI.shopping_list].
      rewrite update_list_store. exact Ec.
Qed.

Lemma barcodes_typed (inputs : list (string * string * string)) (k : Z) :
  barcodes (stored_from k (map typed_item inputs))
  = filter Py.truthy (map (fun input => snd input) inputs).
Proof.
  revert k. induction inputs as [|[[d q] b] rest IH]; intros k; [reflexivity|].
  cbn [map stored_from]. rewrite barcodes_cons, IH. simpl.
  destruct (Py.truthy b); reflexivity.
Qed.

Lemma length_stored_from (items : list Item) (k : Z) :
  length (stored_from k items) = length items.
Proof.
  revert k. induction items as [|item rest IH]; intros k; simpl; auto.
Qed.

Lemma ids_stored_from (items : list Item) (k : Z) :
  map id (map ShoppingList.Item_of_row (stored_from k items))
  = map (fun n => Some (k + Z.of_nat n)) (seq 1 (length items)).
Proof.
  revert k. induction items as [|item rest IH]; intros k; [reflexivity|].
  cbn [stored_from map length seq]. f_equal.
  rewrite IH, <- (seq_shift (length rest) 1), map_map.
  apply map_ext. intros n. f_equal. lia.
Qed.

(** C6. From an empty store, one that lists no item, whether it is the
    fresh table or one whose items were deleted, the form is used [N]
    times with inputs that pass its checks (a description, a quantity
    text [int] accepts and SQLite can hold) and whose barcodes, where
    given, differ. Every one of the [N] calls completes, and
    [get_all_items] then returns [N] items, the k-th made of the k-th
    input: its description, the integer its quantity text stands for, its
    barcode ([None] where the entry was left empty), no price, the flag
    set; the ids are the [N] integers that follow the largest id the
    table has given out (1 to [N] for the fresh table), hence present
    and distinct. *)
Theorem created_items_are_listed
    (self : ShoppingListGUI.t) (inputs : list (string * string * string)) :
  well_formed (ShoppingListGUI.shopping_list self) ->
  ShoppingList.get_all_items (ShoppingListGUI.shopping_list self) = [] ->
  Forall (fun input => let '(d, q, b) := input in
            d <> ""
            /\ exists z, Py.int q = Some z /\ Sqlite.fits_int64 z = true) inputs ->
  NoDup (filter Py.truthy (map (fun input => snd input) inputs)) ->
  room (ShoppingListGUI.shopping_list self) (Z.of_nat (length inputs)) ->
  exists self',
    ShoppingListGUI.add_all self inputs = (self', ShoppingListGUI.Done)
    /\ length (ShoppingList.get_all_items (ShoppingListGUI.shopping_list self'))
       = length inputs
    /\ Forall2 (fun input item =>
                  let '(d, q, b) := input in
                  description item = d
                  /\ Py.int q = Some (quantity item)
                  /\ barcode item = (if Py.truthy b then Some b else None)
                  /\ last_price item = None
                  /\ to_purchase item = true)
               inputs
               (ShoppingList.get_all_items (ShoppingListGUI.shopping_list self'))
    /\ map id (ShoppingList.get_all_items (ShoppingListGUI.shopping_list self'))
       = map (fun n => Some (Sqlite.sequence (ShoppingListGUI.shopping_list self)
                             + Z.of_nat n))
             (seq 1 (length inputs))
    /\ NoDup (map id (ShoppingList.get_all_items
                        (ShoppingListGUI.shopping_list self'))).
Proof.
  intros Hwf Hempty Hv Hnd Hroom.
  set (store := ShoppingListGUI.shopping_list self) in *.
  assert (Hrows0 : Sqlite.rows store = []).
  { unfold ShoppingList.get_all_items, Sqlite.select_all in Hempty.
    now apply map_eq_nil in Hempty. }
  assert (Hlargest : Sqlite.largest_rowid store = Sqlite.sequence store).
  { destruct Hwf as (_ & _ & Hseq & _). unfold Sqlite.largest_rowid.
    rewrite Hrows0. cbn [map last]. lia. }
  destruct (create_all_stores (map typed_item inputs) store)
    as (st' & Hc & Hrows & _ & _).
  - exact Hwf.
  - now rewrite length_map.
  - apply Forall_map. eapply Forall_impl; [|exact Hv].
    intros [[d q] b] (_ & z & Hz & Hfit). simpl. now rewrite Hz.
  - rewrite Hrows0. cbn [app]. now rewrite barcodes_typed.
  - assert (Hv' : Forall (fun input => let '(d, q, b) := input in
                            d <> "" /\ exists z, Py.int q = Some z) inputs).
    { eapply Forall_impl; [|exact Hv]. intros [[d q] b] (Hd & z & Hz & _). eauto. }
    destruct (add_all_creates inputs self st' _ Hwf Hv' Hc) as (self' & Hadd & Hst).
    exists self'. rewrite Hst. split; [exact Hadd|].
    unfold ShoppingList.get_all_items, Sqlite.select_all.
    rewrite Hrows, Hrows0, Hlargest. cbn [app].
    assert (Hids : map id (map ShoppingList.Item_of_row
                             (stored_from (Sqlite.sequence store)
                                (map typed_item inputs)))
                   = map (fun n => Some (Sqlite.sequence store + Z.of_nat n))
                         (seq 1 (length inputs))).
    { now rewrite ids_stored_from, length_map. }
    split; [|split; [|split]].
    + now rewrite length_map, length_stored_from, length_map.
    + clear - Hv. generalize (Sqlite.sequence store) as k.
      induction inputs as [|[[d q] b] rest IH]; intros k; [constructor|].
      inversion Hv as [|? ? Hhd Hrest]; subst. destruct Hhd as (Hd & z & Hz & Hfit).
      cbn [map stored_from]. constructor; [|apply IH; exact Hrest].
      simpl. rewrite Hz. repeat split.
    + exact Hids.
    + rewrite Hids. apply Finite.Injective_map_NoDup; [|apply seq_NoDup].
      intros a b [= E]. lia.
Qed.

Lemma created_items_are_listed_three :
  (exists self',
     ShoppingListGUI.add_all (fst (ShoppingListGUI.init Sqlite.empty))
       [("Milk", "3", ""); ("Bread", " 2 ", "4006381"); ("Eggs", "12", "")]
     = (self', ShoppingListGUI.Done)
     /\ map id (ShoppingList.get_all_items (ShoppingListGUI.shopping_list self'))
        = [Some 1; Some 2; Some 3])
  /\ (exists self',
        ShoppingListGUI.add_all
          (fst (ShoppingListGUI.init
                  (fst (ShoppingList.delete_item
                          (fst (ShoppingList.add_item Sqlite.empty milk)) 1))))
          [("Milk", "3", ""); ("Bread", " 2 ", "4006381"); ("Eggs", "12", "")]
        = (self', ShoppingListGUI.Done)
        /\ map id (ShoppingList.get_all_items (ShoppingListGUI.shopping_list self'))
           = [Some 2; Some 3; Some 4]).
Proof.
  split.
  - destruct (created_items_are_listed (fst (ShoppingListGUI.init Sqlite.empty))
                [("Milk", "3", ""); ("Bread", " 2 ", "4006381"); ("Eggs", "12", "")])
      as (self' & Hadd & _ & _ & Hids & _).
    + closed_well_formed.
    + reflexivity.
    + repeat constructor; try discriminate; eexists; split; reflexivity.
    + simpl. repeat constructor. simpl. tauto.
    + vm_compute. discriminate.
    + exists self'. split; [exact Hadd | exact Hids].
  - destruct (created_items_are_listed
                (fst (ShoppingListGUI.init
                        (fst (ShoppingList.delete_item
                                (fst (ShoppingList.add_item Sqlite.empty milk)) 1))))
                [("Milk", "3", ""); ("Bread", " 2 ", "4006381"); ("Eggs", "12", "")])
      as (self' & Hadd & _ & _ & Hids & _).
    + closed_well_formed.
    + reflexivity.
    + repeat constructor; try discriminate; eexists; split; reflexivity.
    + simpl. repeat constructor. simpl. tauto.
    + vm_compute. discriminate.
    + exists self'. split; [exact Hadd | exact Hids].
Defined.

(** ** What an update changes *)

Lemma toggle_keyword (self : ShoppingList.t) (item_id : Z) (b : bool) :
  Sqlite.fits_int64 item_id = true ->
  ShoppingList.update_item self item_id [("to_purchase", ShoppingList.VBool b)]
  = Some (Sqlite.update self item_id (fun r => ShoppingList.set_to_purchase b r)).
Proof.
  intros Hfit. unfold ShoppingList.update_item.
  change (forallb (fun kv => Py.isidentifier (fst kv))
            [("to_purchase", ShoppingList.VBool b)]) with true.
  change (ShoppingList.columns [("to_purchase", ShoppingList.VBool b)])
    with (Some [(ShoppingList.Cto_purchase, ShoppingList.VBool b)]).
  cbn [negb ShoppingList.set_clause ShoppingList.assignment forallb snd
       ShoppingList.binds andb].
  now rewrite Hfit.
Qed.



Lemma typed_keywords (kwargs : list (string * ShoppingList.value)) :
  Forall (fun kv => exists c f,
            ShoppingList.column_named (fst kv) = Some c
            /\ ShoppingList.assignment c (snd kv) = Some f) kwargs ->
  exists cs f,
    ShoppingList.columns kwargs = Some cs /\ ShoppingList.set_clause cs = Some f.
Proof.
  induction 1 as [|[key v] rest (c & g & Hc & Hg) _ (cs & f & Hcs & Hf)]; simpl.
  - exists [], (fun r => r). split; reflexivity.
  - simpl in Hc, Hg. rewrite Hc, Hcs.
    exists ((c, v) :: cs). simpl. rewrite Hg, Hf. eauto.
Qed.

Lemma parameter_name_no_column (key : string) :
  ShoppingList.parameter_name key = true ->
  ShoppingList.column_named key = None.
Proof.
  unfold ShoppingList.parameter_name. intros H. apply orb_true_iff in H.
  destruct H as [H|H]; apply String.eqb_eq in H; subst key; reflexivity.
Qed.

Lemma no_parameter_names (kwargs : list (string * ShoppingList.value)) :
  (forall key v, In (key, v) kwargs -> key <> "self" /\ key <> "item_id") ->
  existsb (fun kv => ShoppingList.parameter_name (fst kv)) kwargs = false.
Proof.
  intros H. destruct (existsb _ kwargs) eqn:E; [|reflexivity].
  apply existsb_exists in E. destruct E as ([key v] & Hin & Hp).
  destruct (H key v Hin) as [Hs Hi]. cbn [fst] in Hp.
  unfold ShoppingList.parameter_name in Hp. apply orb_true_iff in Hp.
  destruct Hp as [Hp|Hp]; apply String.eqb_eq in Hp; contradiction.
Qed.

Lemma columns_no_parameter_names (kwargs : list (string * ShoppingList.value))
    (cs : list (ShoppingList.column * ShoppingList.value)) :
  ShoppingList.columns kwargs = Some cs ->
  existsb (fun kv => ShoppingList.parameter_name (fst kv)) kwargs = false.
Proof.
  intros Hcs. destruct (existsb _ kwargs) eqn:E; [|reflexivity].
  apply existsb_exists in E. destruct E as ([key v] & Hin & Hp).
  cbn [fst] in Hp.
  rewrite (columns_unknown kwargs key v Hin (parameter_name_no_column key Hp)) in Hcs.
  discriminate.
Qed.

(** C2, as the code has it. There is no NotFound: for an id that is not
    in the store, [update_item] with keywords that name columns (by
    identifiers, at least one and at most 2000 of them, with values of
    the columns' types that SQLite can hold) returns normally, and the
    store is as before. A keyword that is an identifier and names no
    column of the table makes [update_item] raise
    [sqlite3.OperationalError], whatever the id, with the store as
    before, unless a keyword is named like a parameter of the method; the
    names of the columns are those [column_named] knows, [id] among
    them. A keyword [self] or [item_id] makes the call a [TypeError],
    with the store as before. *)
Theorem update_item_missing_id_and_unknown_key
    (self : ShoppingList.t) (item_id : Z)
    (kwargs : list (string * ShoppingList.value)) :
  (forallb (fun kv => Py.isidentifier (fst kv)) kwargs = true ->
   ShoppingList.get_item_by_id self item_id = Returns None ->
   kwargs <> [] ->
   (length kwargs <= 2000)%nat ->
   Forall (fun kv => ShoppingList.binds (snd kv) = true
                     /\ exists c f,
                          ShoppingList.column_named (fst kv) = Some c
                          /\ ShoppingList.assignment c (snd kv) = Some f) kwargs ->
   ShoppingList.update_item self item_id kwargs = Some (self, Returns tt))
  /\ (forallb (fun kv => Py.isidentifier (fst kv)) kwargs = true ->
      (forall key v, In (key, v) kwargs -> key <> "self" /\ key <> "item_id") ->
      (exists key v, In (key, v) kwargs
                     /\ ShoppingList.column_named key = None) ->
      ShoppingList.update_item self item_id kwargs
      = Some (self, Raises OperationalError))
  /\ ((exists v, In ("self", v) kwargs \/ In ("item_id", v) kwargs) ->
      ShoppingList.update_item self item_id kwargs
      = Some (self, Raises TypeError)).
Proof.
  split; [|split].
  - intros Hident Habsent Hne Hlen Hall.
    destruct (typed_keywords kwargs) as (cs & f & Hcs & Hf).
    { eapply Forall_impl; [|exact Hall]. simpl. tauto. }
    assert (Hbinds : forallb (fun kv => ShoppingList.binds (snd kv)) kwargs = true).
    { apply forallb_forall. rewrite Forall_forall in Hall.
      intros kv' Hin. now apply Hall. }
    unfold ShoppingList.get_item_by_id in Habsent.
    destruct (Sqlite.fits_int64 item_id) eqn:Hfit; [|discriminate].
    injection Habsent as Habsent.
    destruct (Sqlite.select_by_id self item_id) eqn:Es; [discriminate|].
    rewrite (update_item_runs self item_id kwargs cs f
               (columns_no_parameter_names kwargs cs Hcs)
               Hident Hne Hlen Hcs Hf Hbinds Hfit).
    unfold Sqlite.update. now rewrite Es.
  - intros Hident Hnames (key & v & Hin & Hkey).
    unfold ShoppingList.update_item.
    rewrite (no_parameter_names kwargs Hnames), Hident. cbn [negb].
    destruct kwargs as [|kv rest] eqn:Ek; [destruct Hin|]. rewrite <- Ek in *.
    destruct (Sqlite.MAX_COLUMN <? length kwargs)%nat; [reflexivity|].
    now rewrite (columns_unknown kwargs key v Hin Hkey).
  - intros (v & Hin). unfold ShoppingList.update_item.
    assert (E : existsb (fun kv => ShoppingList.parameter_name (fst kv)) kwargs
                = true).
    { apply existsb_exists. destruct Hin as [Hin|Hin].
      - exists ("self", v). split; [exact Hin | reflexivity].
      - exists ("item_id", v). split; [exact Hin | reflexivity]. }
    now rewrite E.
Qed.

Lemma update_item_unknown_key_pantry :
  ShoppingList.update_item pantry 99 [("Quantity", ShoppingList.VInt 4)]
  = Some (pantry, Returns tt)
  /\ ShoppingList.update_item pantry 1 [("price", ShoppingList.VFloat 1.5%float)]
     = Some (pantry, Raises OperationalError)
  /\ ShoppingList.update_item pantry 1 [("item_id", ShoppingList.VInt 2)]
     = Some (pantry, Raises TypeError).
Proof.
  split; [|split].
  - apply (update_item_missing_id_and_unknown_key pantry 99
             [("Quantity", ShoppingList.VInt 4)]).
    + reflexivity.
    + reflexivity.
    + discriminate.
    + simpl. lia.
    + constructor; [|constructor]. split; [reflexivity|].
      exists ShoppingList.Cquantity, (ShoppingList.set_quantity 4).
      split; reflexivity.
  - apply (update_item_missing_id_and_unknown_key pantry 1
             [("price", ShoppingList.VFloat 1.5%float)]).
    + reflexivity.
    + intros key v [[= <- <-]|[]]. split; discriminate.
    + exists "price", (ShoppingList.VFloat 1.5%float).
      split; [now left | reflexivity].
  - apply (update_item_missing_id_and_unknown_key pantry 1
             [("item_id", ShoppingList.VInt 2)]).
    exists (ShoppingList.VInt 2). right. now left.
Defined.

(** C2 as stated fails twice over. Nothing is stored under id 99, yet
    [update_item] on it returns normally and changes nothing, where the
    claim has a NotFound error. And the keyword [id], which is not one of
    the five attributes the claim lists, is accepted: the line moves from
    id 1 to id 5. *)
Lemma update_item_missing_id_silent :
  ShoppingList.get_item_by_id pantry 99 = Returns None
  /\ ShoppingList.update_item pantry 99 [("to_purchase", ShoppingList.VBool false)]
     = Some (pantry, Returns tt)
  /\ (exists self',
        ShoppingList.update_item pantry 1 [("id", ShoppingList.VInt 5)]
        = Some (self', Returns tt)
        /\ ShoppingList.get_item_by_id self' 1 = Returns None
        /\ option_map description
             (match ShoppingList.get_item_by_id self' 5 with
              | Returns (Some item) => Some item
              | _ => None
              end) = Some "Milk").
Proof.
  split; [reflexivity|]. split; [reflexivity|].
  eexists. split; [reflexivity|]. split; reflexivity.
Qed.

(** * Further properties of the store *)

Lemma table_eta (t : Sqlite.table) :
  {| Sqlite.rows := Sqlite.rows t; Sqlite.sequence := Sqlite.sequence t |} = t.
Proof. now destruct t. Qed.

(** A call of [add_item] that returns, spelled out. *)
Lemma add_item_returns (self self' : ShoppingList.t) (item : Item) (i : Z) :
  ShoppingList.add_item self item = (self', Returns i) ->
  i = Sqlite.largest_rowid self + 1
  /\ i <= Sqlite.MAX_ROWID
  /\ Sqlite.fits_int64 (quantity item) = true
  /\ Sqlite.barcode_taken (ShoppingList.or_None (barcode item)) (Sqlite.rows self)
     = false
  /\ self' = {| Sqlite.rows := Sqlite.place (stored i item) (Sqlite.rows self);
                Sqlite.sequence := i |}.
Proof.
  unfold ShoppingList.add_item, Sqlite.insert, Sqlite.new_rowid.
  destruct (Sqlite.fits_int64 (quantity item)); [|discriminate].
  destruct (Z.leb_spec Sqlite.MAX_ROWID (Sqlite.largest_rowid self));
    [discriminate|].
  destruct (Sqlite.barcode_taken _ _); [discriminate|].
  intros [= <- <-]. repeat split; try reflexivity. lia.
Qed.

Lemma add_item_appends (self self' : ShoppingList.t) (item : Item) (i : Z) :
  well_formed self ->
  ShoppingList.add_item self item = (self', Returns i) ->
  Sqlite.rows self' = (Sqlite.rows self ++ [stored i item])%list
  /\ (forall x, In x (Sqlite.rows self) -> Sqlite.rowid x < i)
  /\ Sqlite.fits_int64 i = true.
Proof.
  intros Hwf Hadd.
  destruct (add_item_returns _ _ _ _ Hadd) as (Hi & Hmax & _ & _ & ->).
  destruct (largest_rowid_bounds self Hwf) as [H0 Hle].
  assert (Hlt : forall x, In x (Sqlite.rows self) -> Sqlite.rowid x < i)
    by (intros x Hx; specialize (Hle x Hx); lia).
  simpl. split; [|split; [exact Hlt|]].
  - apply place_above. exact Hlt.
  - apply fits_int64_rowid. lia.
Qed.

Lemma find_app_absent (i : Z) (l : list Sqlite.row) (r : Sqlite.row) :
  (forall x, In x l -> Sqlite.rowid x <> i) ->
  find (Sqlite.has_id i) (l ++ [r]) = find (Sqlite.has_id i) [r].
Proof.
  induction l as [|x l IH]; intros H; [reflexivity|].
  simpl. unfold Sqlite.has_id at 1.
  destruct (Z.eqb_spec (Sqlite.rowid x) i) as [E|_].
  - exfalso. apply (H x); [now left | exact E].
  - apply IH. intros y Hy. apply H. now right.
Qed.

Lemma find_app_other (j : Z) (l : list Sqlite.row) (r : Sqlite.row) :
  j <> Sqlite.rowid r ->
  find (Sqlite.has_id j) (l ++ [r]) = find (Sqlite.has_id j) l.
Proof.
  intros Hj. induction l as [|x l IH]; simpl.
  - unfold Sqlite.has_id. destruct (Z.eqb_spec (Sqlite.rowid r) j); [congruence|reflexivity].
  - destruct (Sqlite.has_id j x); [reflexivity | exact IH].
Qed.

(** X1. What [add_item] stores is what [get_item_by_id] then returns
    under the id returned: the quantity, description and flag of the item
    passed, its barcode with the empty text turned into [None], its price
    with NaN turned into [None] and a zero of either sign turned into
    [+0.0], and the new id whatever id the item passed carried. The new
    item is the last of [get_all_items], after the items there were, and
    every other id is looked up as before. *)
Theorem add_item_then_get
    (self self' : ShoppingList.t) (item : Item) (i : Z) :
  well_formed self ->
  ShoppingList.add_item self item = (self', Returns i) ->
  let created :=
    {| id := Some i;
       quantity := quantity item;
       description := description item;
       barcode := match barcode item with
                  | Some "" => None
                  | b => b
                  end;
       last_price := match last_price item with
                     | Some p => if PrimFloat.is_nan p then None
                                 else if PrimFloat.is_zero p
                                      then Some PrimFloat.zero
                                      else Some p
                     | None => None
                     end;
       to_purchase := to_purchase item |} in
  ShoppingList.get_item_by_id self' i = Returns (Some created)
  /\ ShoppingList.get_all_items self'
     = (ShoppingList.get_all_items self ++ [created])%list
  /\ (forall j, j <> i ->
        ShoppingList.get_item_by_id self' j = ShoppingList.get_item_by_id self j).
Proof.
  intros Hwf Hadd created.
  destruct (add_item_appends _ _ _ _ Hwf Hadd) as (Hrows & Hlt & Hfit).
  assert (Hc : ShoppingList.Item_of_row (stored i item) = created).
  { unfold created, ShoppingList.Item_of_row, stored. simpl. f_equal.
    destruct (barcode item) as [[|c s]|]; reflexivity. }
  unfold ShoppingList.get_item_by_id, ShoppingList.get_all_items,
    Sqlite.select_by_id, Sqlite.select_all.
  rewrite Hrows, Hfit. split; [|split].
  - rewrite find_app_absent by (intros x Hx; specialize (Hlt x Hx); lia).
    simpl. unfold Sqlite.has_id. simpl. rewrite Z.eqb_refl. simpl. now rewrite Hc.
  - rewrite map_app. simpl. now rewrite Hc.
  - intros j Hj. rewrite find_app_other by (simpl; congruence). reflexivity.
Qed.

Lemma add_item_then_get_pantry :
  ShoppingList.get_item_by_id
    (fst (ShoppingList.add_item pantry
            {| id := Some 1; quantity := 6; description := "Tea";
               barcode := Some ""; last_price := Some PrimFloat.nan;
               to_purchase := false |})) 4
  = Returns (Some {| id := Some 4; quantity := 6; description := "Tea";
                     barcode := None; last_price := None;
                     to_purchase := false |})
  /\ ShoppingList.get_item_by_id
       (fst (ShoppingList.add_item pantry
               {| id := None; quantity := 1; description := "Salt";
                  barcode := Some "8001"; last_price := Some PrimFloat.neg_zero;
                  to_purchase := true |})) 4
     = Returns (Some {| id := Some 4; quantity := 1; description := "Salt";
                        barcode := Some "8001";
                        last_price := Some PrimFloat.zero;
                        to_purchase := true |}).
Proof.
  split.
  - apply (add_item_then_get pantry _
             {| id := Some 1; quantity := 6; description := "Tea";
                barcode := Some ""; last_price := Some PrimFloat.nan;
                to_purchase := false |} 4).
    + closed_well_formed.
    + reflexivity.
  - apply (add_item_then_get pantry _
             {| id := None; quantity := 1; description := "Salt";
                barcode := Some "8001"; last_price := Some PrimFloat.neg_zero;
                to_purchase := true |} 4).
    + closed_well_formed.
    + reflexivity.
Defined.

Lemma delete_item_sequence (self : ShoppingList.t) (j : Z) :
  Sqlite.sequence (fst (ShoppingList.delete_item self j)) = Sqlite.sequence self.
Proof.
  unfold ShoppingList.delete_item. now destruct (Sqlite.fits_int64 j).
Qed.

Lemma deletes_sequence (ids : list Z) :
  forall self : ShoppingList.t,
  Sqlite.sequence
    (fold_left (fun s j => fst (ShoppingList.delete_item s j)) ids self)
  = Sqlite.sequence self.
Proof.
  induction ids as [|j ids IH]; intros self; simpl; [reflexivity|].
  now rewrite IH, delete_item_sequence.
Qed.

Lemma others_place_above (r : Sqlite.row) (l : list Sqlite.row) :
  (forall x, In x l -> Sqlite.rowid x < Sqlite.rowid r) ->
  Sqlite.others (Sqlite.rowid r) (Sqlite.place r l) = l.
Proof.
  intros H. rewrite others_place. apply others_absent.
  destruct (find (Sqlite.has_id (Sqlite.rowid r)) l) as [x|] eqn:E; [|reflexivity].
  apply find_some in E. destruct E as [Hx E]. unfold Sqlite.has_id in E.
  specialize (H x Hx). lia.
Qed.

(** X2. An id is not given out twice. [add_item] returns an id above
    every id in the table; once it has returned [i], whatever items are
    deleted afterwards, the next id [add_item] returns is above [i]. In
    particular, deleting the new item at once gives back the list of items
    there was before, but the item created next gets [i + 1], not [i]. *)
Theorem add_item_never_reuses_id
    (self self' : ShoppingList.t) (item : Item) (i : Z) :
  well_formed self ->
  ShoppingList.add_item self item = (self', Returns i) ->
  (forall it, In it (ShoppingList.get_all_items self) ->
     exists j, id it = Some j /\ j < i)
  /\ (forall (ids : list Z) (next : Item) (self'' : ShoppingList.t) (k : Z),
        ShoppingList.add_item
          (fold_left (fun s j => fst (ShoppingList.delete_item s j)) ids self')
          next = (self'', Returns k) ->
        i < k)
  /\ ShoppingList.get_all_items (fst (ShoppingList.delete_item self' i))
     = ShoppingList.get_all_items self
  /\ (forall (next : Item) (self'' : ShoppingList.t) (k : Z),
        ShoppingList.add_item (fst (ShoppingList.delete_item self' i)) next
        = (self'', Returns k) ->
        k = i + 1).
Proof.
  intros Hwf Hadd.
  destruct (add_item_appends _ _ _ _ Hwf Hadd) as (Hrows & Hlt & Hfit).
  destruct (add_item_returns _ _ _ _ Hadd) as (Hi & Hmax & _ & _ & Hself').
  assert (Hseq : Sqlite.sequence self' = i) by (subst self'; reflexivity).
  split; [|split; [|split]].
  - intros it Hin. unfold ShoppingList.get_all_items in Hin.
    apply in_map_iff in Hin. destruct Hin as (x & <- & Hx).
    exists (Sqlite.rowid x). split; [reflexivity | now apply Hlt].
  - intros ids next self'' k Hnext.
    destruct (add_item_returns _ _ _ _ Hnext) as (Hk & _).
    pose proof (deletes_sequence ids self') as Hs. rewrite Hseq in Hs.
    unfold Sqlite.largest_rowid in Hk. lia.
  - unfold ShoppingList.delete_item. rewrite Hfit.
    unfold ShoppingList.get_all_items, Sqlite.select_all, Sqlite.delete. simpl.
    subst self'. simpl.
    change i with (Sqlite.rowid (stored i item)) at 1.
    rewrite others_place_above; [reflexivity|]. exact Hlt.
  - intros next self'' k Hnext.
    destruct (add_item_returns _ _ _ _ Hnext) as (Hk & _).
    unfold ShoppingList.delete_item in Hk. rewrite Hfit in Hk.
    unfold Sqlite.largest_rowid, Sqlite.delete in Hk. simpl in Hk.
    rewrite Hseq in Hk.
    assert (Hrest : Sqlite.others i (Sqlite.rows self') = Sqlite.rows self).
    { subst self'. simpl. change i with (Sqlite.rowid (stored i item)) at 1.
      now apply others_place_above. }
    rewrite Hrest in Hk.
    destruct (largest_rowid_bounds self Hwf) as [H0 Hle].
    assert (Hlast : last (map Sqlite.rowid (Sqlite.rows self)) 0 < i).
    { unfold Sqlite.largest_rowid in Hi. lia. }
    lia.
Qed.

Lemma add_item_never_reuses_id_pantry :
  ShoppingList.get_all_items
    (fst (ShoppingList.delete_item
            (fst (ShoppingList.add_item pantry
                    (ShoppingListGUI.form_item 6 "Tea" ""))) 4))
  = ShoppingList.get_all_items pantry
  /\ fst (ShoppingList.add_item
            (fst (ShoppingList.delete_item
                    (fst (ShoppingList.add_item pantry
                            (ShoppingListGUI.form_item 6 "Tea" ""))) 4))
            (ShoppingListGUI.form_item 1 "Salt" ""))
     <> pantry.
Proof.
  destruct (add_item_never_reuses_id pantry
              (fst (ShoppingList.add_item pantry (ShoppingListGUI.form_item 6 "Tea" "")))
              (ShoppingListGUI.form_item 6 "Tea" "") 4)
    as (_ & _ & H & _).
  - closed_well_formed.
  - reflexivity.
  - split; [exact H | discriminate].
Defined.

Lemma reachable_well_formed (self : ShoppingList.t) :
  reachable self -> well_formed self.
Proof.
  induction 1 as [|self item _ IH|self item_id _ IH|self item_id kwargs r _ IH Hup].
  - apply well_formed_empty.
  - now apply (well_formed_kept self IH).
  - now apply (well_formed_kept self IH).
  - now apply (proj2 (proj2 (well_formed_kept self IH)) item_id kwargs r).
Qed.





(** * Further properties of [update_item] *)

Lemma barcode_keyword (self : ShoppingList.t) (item_id : Z) (s : string) :
  Sqlite.fits_int64 item_id = true ->
  ShoppingList.update_item self item_id [("barcode", ShoppingList.VStr s)]
  = Some (Sqlite.update self item_id
            (fun r => ShoppingList.set_barcode (Some s) r)).
Proof.
  intros Hfit. unfold ShoppingList.update_item.
  change (forallb (fun kv => Py.isidentifier (fst kv))
            [("barcode", ShoppingList.VStr s)]) with true.
  change (ShoppingList.columns [("barcode", ShoppingList.VStr s)])
    with (Some [(ShoppingList.Cbarcode, ShoppingList.VStr s)]).
  cbn [negb ShoppingList.set_clause ShoppingList.assignment forallb snd
       ShoppingList.binds andb].
  now rewrite Hfit.
Qed.


(** The line behind an item that a lookup returns. *)
Lemma get_item_by_id_row (self : ShoppingList.t) (i : Z) (a : Item) :
  ShoppingList.get_item_by_id self i = Returns (Some a) ->
  Sqlite.fits_int64 i = true
  /\ exists r, Sqlite.select_by_id self i = Some r
               /\ a = ShoppingList.Item_of_row r
               /\ In r (Sqlite.rows self) /\ Sqlite.rowid r = i.
Proof.
  unfold ShoppingList.get_item_by_id.
  destruct (Sqlite.fits_int64 i); [|discriminate].
  destruct (Sqlite.select_by_id self i) as [r|] eqn:E; [|discriminate].
  intros [= <-]. split; [reflexivity|]. exists r.
  destruct (selected_has_id _ _ _ E). auto.
Qed.

Lemma listed_row (self : ShoppingList.t) (b : Item) :
  In b (ShoppingList.get_all_items self) ->
  exists r, In r (Sqlite.rows self) /\ b = ShoppingList.Item_of_row r.
Proof.
  unfold ShoppingList.get_all_items. intros H. apply in_map_iff in H.
  destruct H as (r & <- & Hr). eauto.
Qed.

Lemma update_item_rejects_taken_barcode_core
    (self : ShoppingList.t) (i : Z) (r rb : Sqlite.row) (s : string) :
  Sqlite.fits_int64 i = true ->
  Sqlite.select_by_id self i = Some r ->
  In rb (Sqlite.rows self) ->
  Sqlite.rowid rb <> i ->
  Sqlite.c_barcode rb = Some s ->
  ShoppingList.update_item self i [("barcode", ShoppingList.VStr s)]
  = Some (self, Raises IntegrityError).
Proof.
  intros Hfit Hsel Hrb Hid Hs.
  rewrite (barcode_keyword self i s Hfit). f_equal.
  unfold Sqlite.update. rewrite Hsel. simpl Sqlite.c_barcode.
  assert (Htaken : existsb (Sqlite.has_barcode s)
                     (Sqlite.others i (Sqlite.rows self)) = true).
  { apply existsb_exists. exists rb. split.
    - apply in_others. split; [exact Hrb | exact Hid].
    - unfold Sqlite.has_barcode. rewrite Hs. apply String.eqb_refl. }
  unfold Sqlite.barcode_taken. rewrite Htaken. now rewrite orb_true_r.
Qed.

(** X4. The barcode of another item cannot be taken by an update: where
    an item [a] is stored under [i] and a different item holds the barcode
    [s], [update_item] on [i] with [barcode = s] raises
    [sqlite3.IntegrityError] and the store is as before. The empty text
    is a barcode like any other here. *)
Theorem update_item_rejects_taken_barcode
    (self : ShoppingList.t) (i : Z) (a b : Item) (s : string) :
  ShoppingList.get_item_by_id self i = Returns (Some a) ->
  In b (ShoppingList.get_all_items self) ->
  id b <> Some i ->
  barcode b = Some s ->
  ShoppingList.update_item self i [("barcode", ShoppingList.VStr s)]
  = Some (self, Raises IntegrityError).
Proof.
  intros Ha Hb Hid Hs.
  destruct (get_item_by_id_row _ _ _ Ha) as (Hfit & r & Hsel & _).
  destruct (listed_row _ _ Hb) as (rb & Hrb & ->). simpl in Hid, Hs.
  apply (update_item_rejects_taken_barcode_core self i r rb s); auto.
  congruence.
Qed.

Lemma update_item_rejects_taken_barcode_pantry :
  ShoppingList.update_item pantry 1 [("barcode", ShoppingList.VStr "4006381")]
  = Some (pantry, Raises IntegrityError).
Proof.
  apply (update_item_rejects_taken_barcode pantry 1
           {| id := Some 1; quantity := 3; description := "Milk";
              barcode := None; last_price := None; to_purchase := true |}
           {| id := Some 2; quantity := 2; description := "Bread";
              barcode := Some "4006381"; last_price := None;
              to_purchase := true |}
           "4006381").
  - reflexivity.
  - simpl. auto.
  - discriminate.
  - reflexivity.
Defined.

Lemma not_taken (s : string) (l : list Sqlite.row) :
  ~ In s (barcodes l) -> existsb (Sqlite.has_barcode s) l = false.
Proof.
  intros H. destruct (existsb (Sqlite.has_barcode s) l) eqn:E; [|reflexivity].
  apply barcode_taken_in in E. contradiction.
Qed.

Lemma barcodes_others_incl (i : Z) (s : string) (l : list Sqlite.row) :
  In s (barcodes (Sqlite.others i l)) -> In s (barcodes l).
Proof.
  unfold barcodes. rewrite !in_flat_map. intros (x & Hx & Hs).
  apply in_others in Hx. exists x. tauto.
Qed.

(** X5. [update_item] does not turn the empty barcode into [None] the way
    [add_item] does. In a store where no item has the empty text as its
    barcode, [update_item] with [barcode = ""] on an item returns, and
    the item is then returned with the barcode [Some ""], not [None];
    from then on the same update on any other item raises
    [sqlite3.IntegrityError] and changes nothing. *)
Theorem update_item_keeps_empty_barcode
    (self : ShoppingList.t) (i j : Z) (a b : Item) :
  ShoppingList.get_item_by_id self i = Returns (Some a) ->
  ShoppingList.get_item_by_id self j = Returns (Some b) ->
  i <> j ->
  (forall c, In c (ShoppingList.get_all_items self) -> barcode c <> Some "") ->
  exists self',
    ShoppingList.update_item self i [("barcode", ShoppingList.VStr "")]
    = Some (self', Returns tt)
    /\ ShoppingList.get_item_by_id self' i
       = Returns (Some {| id := id a; quantity := quantity a;
                          description := description a;
                          barcode := Some "";
                          last_price := last_price a;
                          to_purchase := to_purchase a |})
    /\ ShoppingList.get_item_by_id self' j = Returns (Some b)
    /\ ShoppingList.update_item self' j [("barcode", ShoppingList.VStr "")]
       = Some (self', Raises IntegrityError).
Proof.
  intros Ha Hb Hij Hnone.
  destruct (get_item_by_id_row _ _ _ Ha) as (Hfi & ra & Hsa & -> & Hra & Hia).
  destruct (get_item_by_id_row _ _ _ Hb) as (Hfj & rb & Hsb & -> & Hrb & Hjb).
  assert (Hfree : ~ In "" (barcodes (Sqlite.others i (Sqlite.rows self)))).
  { intros Hin. apply barcodes_others_incl in Hin.
    unfold barcodes in Hin. apply in_flat_map in Hin.
    destruct Hin as (x & Hx & Hs).
    apply (Hnone (ShoppingList.Item_of_row x)).
    - unfold ShoppingList.get_all_items. now apply in_map.
    - simpl. destruct (Sqlite.c_barcode x) as [s|]; [|destruct Hs].
      destruct Hs as [->|[]]. reflexivity. }
  set (ra' := ShoppingList.set_barcode (Some "") ra).
  assert (Hra' : Sqlite.rowid ra' = i) by exact Hia.
  set (self' := {| Sqlite.rows := Sqlite.place ra' (Sqlite.others i (Sqlite.rows self));
                   Sqlite.sequence := Sqlite.sequence self |}).
  assert (Hup : ShoppingList.update_item self i [("barcode", ShoppingList.VStr "")]
                = Some (self', Returns tt)).
  { rewrite (barcode_keyword self i "" Hfi). f_equal.
    unfold Sqlite.update. rewrite Hsa. fold ra'. rewrite Hra'.
    rewrite exists_others_same. simpl Sqlite.c_barcode.
    unfold Sqlite.barcode_taken. rewrite (not_taken "" _ Hfree). reflexivity. }
  assert (Hgi : Sqlite.select_by_id self' i = Some ra').
  { unfold Sqlite.select_by_id, self'. cbn [Sqlite.rows].
    rewrite <- Hra' at 1. apply find_place_same.
    rewrite Hra'. apply exists_others_same. }
  assert (Hgj : Sqlite.select_by_id self' j = Some rb).
  { unfold Sqlite.select_by_id, self'. cbn [Sqlite.rows].
    rewrite find_place_other by congruence.
    rewrite find_others_other by congruence. exact Hsb. }
  exists self'. split; [exact Hup|]. split; [|split].
  - unfold ShoppingList.get_item_by_id. rewrite Hfi, Hgi. reflexivity.
  - unfold ShoppingList.get_item_by_id. rewrite Hfj, Hgj. reflexivity.
  - apply (update_item_rejects_taken_barcode_core self' j rb ra' "").
    + exact Hfj.
    + exact Hgj.
    + destruct (selected_has_id _ _ _ Hgi) as [H _]. exact H.
    + congruence.
    + reflexivity.
Qed.

Lemma update_item_keeps_empty_barcode_pantry :
  exists self',
    ShoppingList.update_item pantry 1 [("barcode", ShoppingList.VStr "")]
    = Some (self', Returns tt)
    /\ ShoppingList.get_item_by_id self' 1
       = Returns (Some {| id := Some 1; quantity := 3; description := "Milk";
                          barcode := Some ""; last_price := None;
                          to_purchase := true |})
    /\ ShoppingList.get_item_by_id self' 3
       = Returns (Some {| id := Some 3; quantity := 12; description := "Eggs";
                          barcode := None; last_price := None;
                          to_purchase := false |})
    /\ ShoppingList.update_item self' 3 [("barcode", ShoppingList.VStr "")]
       = Some (self', Raises IntegrityError).
Proof.
  apply (update_item_keeps_empty_barcode pantry 1 3
           {| id := Some 1; quantity := 3; description := "Milk";
              barcode := None; last_price := None; to_purchase := true |}
           {| id := Some 3; quantity := 12; description := "Eggs";
              barcode := None; last_price := None; to_purchase := false |}).
  - reflexivity.
  - reflexivity.
  - discriminate.
  - intros c Hc. simpl in Hc.
    destruct Hc as [<-|[<-|[<-|[]]]]; discriminate.
Defined.

(** * Moving an item to another id, and toggling twice *)




(** Above every line: nothing to leave out, nothing to replace. *)
Lemma others_below (i : Z) (l : list Sqlite.row) :
  Forall (Z.lt i) (map Sqlite.rowid l) -> Sqlite.others i l = l.
Proof.
  induction l as [|x l IH]; simpl; [reflexivity|].
  intros H. inversion H as [|? ? Hx Hl]; subst.
  unfold Sqlite.has_id at 1.
  destruct (Z.eqb_spec (Sqlite.rowid x) i) as [E|_]; [lia|].
  simpl. f_equal. apply IH, Hl.
Qed.

Lemma place_below (r : Sqlite.row) (l : list Sqlite.row) :
  Forall (Z.lt (Sqlite.rowid r)) (map Sqlite.rowid l) -> Sqlite.place r l = r :: l.
Proof.
  destruct l as [|x l]; simpl; [reflexivity|].
  intros H. inversion H as [|? ? Hx Hl]; subst.
  destruct (Z.ltb_spec (Sqlite.rowid r) (Sqlite.rowid x)); [reflexivity|lia].
Qed.

(** In a table in rowid order, writing a line back under the rowid it
    was read from puts it at the place it had. *)
Lemma place_others_same (l : list Sqlite.row) (r r' : Sqlite.row) :
  StronglySorted Z.lt (map Sqlite.rowid l) ->
  find (Sqlite.has_id (Sqlite.rowid r')) l = Some r ->
  Sqlite.place r' (Sqlite.others (Sqlite.rowid r') l)
  = map (fun x => if Sqlite.has_id (Sqlite.rowid r') x then r' else x) l.
Proof.
  induction l as [|x l IH]; [discriminate|].
  intros Hs Hf. simpl in Hs. inversion Hs as [|? ? Hsl Hx]; subst.
  cbn [find] in Hf. cbn [Sqlite.others filter map]. fold (Sqlite.others (Sqlite.rowid r') l).
  destruct (Sqlite.has_id (Sqlite.rowid r') x) eqn:E.
  - cbn [negb]. unfold Sqlite.has_id in E. apply Z.eqb_eq in E.
    rewrite <- E. fold (Sqlite.has_id (Sqlite.rowid x)).
    rewrite (others_below _ _ Hx).
    assert (Hm : map (fun y => if Sqlite.has_id (Sqlite.rowid x) y then r' else y) l = l).
    { clear - Hx. induction l as [|y l IH]; simpl; [reflexivity|].
      inversion Hx as [|? ? Hy Hl]; subst.
      unfold Sqlite.has_id at 1.
      destruct (Z.eqb_spec (Sqlite.rowid y) (Sqlite.rowid x)); [lia|].
      f_equal. apply IH, Hl. }
    rewrite Hm. apply place_below. rewrite <- E. exact Hx.
  - cbn [negb Sqlite.place].
    assert (Hin : In r l) by (apply find_some in Hf; tauto).
    assert (Hid : Sqlite.rowid r = Sqlite.rowid r').
    { apply find_some in Hf. destruct Hf as [_ Hf].
      unfold Sqlite.has_id in Hf. now apply Z.eqb_eq in Hf. }
    assert (Hlt : Sqlite.rowid x < Sqlite.rowid r').
    { rewrite <- Hid. rewrite Forall_forall in Hx. apply Hx.
      now apply in_map. }
    destruct (Z.ltb_spec (Sqlite.rowid r') (Sqlite.rowid x)); [lia|].
    f_equal. apply IH; assumption.
Qed.

Lemma map_unchanged {A : Type} (f : A -> A) (l : list A) :
  (forall x, In x l -> f x = x) -> map f l = l.
Proof.
  induction l as [|x l IH]; simpl; intros H; [reflexivity|].
  rewrite (H x) by auto. f_equal. apply IH. auto.
Qed.

(** Written back unchanged, the table is the same. *)
Lemma place_others_back (l : list Sqlite.row) (r : Sqlite.row) :
  StronglySorted Z.lt (map Sqlite.rowid l) ->
  find (Sqlite.has_id (Sqlite.rowid r)) l = Some r ->
  Sqlite.place r (Sqlite.others (Sqlite.rowid r) l) = l.
Proof.
  intros Hs Hf. rewrite (place_others_same l r r Hs Hf).
  apply map_unchanged. intros x Hx.
  destruct (Sqlite.has_id (Sqlite.rowid r) x) eqn:E; [|reflexivity].
  unfold Sqlite.has_id in E. apply Z.eqb_eq in E.
  pose proof (find_sorted l x Hs Hx) as Hfx. rewrite E in Hfx. congruence.
Qed.



(** * Toggling twice, and looking up what is listed *)

Lemma Item_of_row_injective (x y : Sqlite.row) :
  ShoppingList.Item_of_row x = ShoppingList.Item_of_row y -> x = y.
Proof.
  destruct x, y. unfold ShoppingList.Item_of_row. simpl.
  intros H. injection H as -> -> -> -> -> ->. reflexivity.
Qed.

Lemma others_twice (i : Z) (l : list Sqlite.row) :
  Sqlite.others i (Sqlite.others i l) = Sqlite.others i l.
Proof. apply others_absent, find_others_same. Qed.

(** The store after the toggle of the line [r] stored under [i]. *)
Lemma toggle_returns (self : ShoppingList.t) (i : Z) (r : Sqlite.row) :
  NoDup (barcodes (Sqlite.rows self)) ->
  Sqlite.fits_int64 i = true ->
  Sqlite.select_by_id self i = Some r ->
  ShoppingListGUI.toggle self i
  = Some ({| Sqlite.rows :=
               Sqlite.place
                 (ShoppingList.set_to_purchase (negb (Sqlite.c_to_purchase r)) r)
                 (Sqlite.others i (Sqlite.rows self));
             Sqlite.sequence := Sqlite.sequence self |}, Returns tt).
Proof.
  intros Hnodup Hfit Hsel.
  unfold ShoppingListGUI.toggle, ShoppingList.get_item_by_id.
  rewrite Hfit, Hsel. cbn [option_map].
  rewrite (toggle_keyword self i _ Hfit). f_equal.
  unfold Sqlite.update. rewrite Hsel.
  cbn [ShoppingList.Item_of_row to_purchase].
  change (Sqlite.rowid (ShoppingList.set_to_purchase
                          (negb (Sqlite.c_to_purchase r)) r))
    with (Sqlite.rowid r).
  change (Sqlite.c_barcode (ShoppingList.set_to_purchase
                              (negb (Sqlite.c_to_purchase r)) r))
    with (Sqlite.c_barcode r).
  destruct (selected_has_id _ _ _ Hsel) as [_ Hid].
  rewrite Hid, exists_others_same.
  rewrite (barcode_free_among_others _ _ _ Hnodup Hsel). reflexivity.
Qed.

(** X7. The toggle, [get_item_by_id] followed by [update_item] with the
    flag negated, keeps the place of the item and is undone by a second
    toggle. For an item stored under [i] in a well-formed store, the
    toggle returns; [get_all_items] then lists the same ids in the same
    order; the item with the flag negated is among the items to purchase
    exactly when the flag was not set before; and the toggle of [i] on
    the result returns and gives back the store the first one started
    from. *)
Theorem toggle_twice_restores (self : ShoppingList.t) (i : Z) (a : Item) :
  well_formed self ->
  ShoppingList.get_item_by_id self i = Returns (Some a) ->
  exists self',
    ShoppingListGUI.toggle self i = Some (self', Returns tt)
    /\ map id (ShoppingList.get_all_items self')
       = map id (ShoppingList.get_all_items self)
    /\ (In {| id := id a; quantity := quantity a;
              description := description a; barcode := barcode a;
              last_price := last_price a;
              to_purchase := negb (to_purchase a) |}
           (ShoppingList.get_items_to_purchase self')
        <-> to_purchase a = false)
    /\ ShoppingListGUI.toggle self' i = Some (self, Returns tt).
Proof.
  intros (Hsorted & Hnodup & _ & _) Ha.
  destruct (get_item_by_id_row _ _ _ Ha) as (Hfi & r & Hsel & -> & Hr & Hid).
  set (r' := ShoppingList.set_to_purchase (negb (Sqlite.c_to_purchase r)) r).
  assert (Hid' : Sqlite.rowid r' = i) by exact Hid.
  set (self' := {| Sqlite.rows := Sqlite.place r' (Sqlite.others i (Sqlite.rows self));
                   Sqlite.sequence := Sqlite.sequence self |}).
  assert (Hsel' : Sqlite.select_by_id self' i = Some r').
  { unfold Sqlite.select_by_id, self'. cbn [Sqlite.rows].
    rewrite <- Hid' at 1. apply find_place_same.
    rewrite Hid'. apply exists_others_same. }
  assert (Hrows : Sqlite.rows self'
                  = map (fun x => if Sqlite.has_id i x then r' else x)
                        (Sqlite.rows self)).
  { unfold self'. cbn [Sqlite.rows]. rewrite <- Hid'.
    apply (place_others_same _ r r' Hsorted). rewrite Hid'. exact Hsel. }
  exists self'. split; [|split; [|split]].
  - apply toggle_returns; assumption.
  - unfold ShoppingList.get_all_items, Sqlite.select_all.
    rewrite Hrows, !map_map. apply map_ext_in. intros x _.
    cbn [ShoppingList.Item_of_row id].
    destruct (Sqlite.has_id i x) eqn:E; [|reflexivity].
    unfold Sqlite.has_id in E. apply Z.eqb_eq in E. congruence.
  - change {| id := id (ShoppingList.Item_of_row r);
              quantity := quantity (ShoppingList.Item_of_row r);
              description := description (ShoppingList.Item_of_row r);
              barcode := barcode (ShoppingList.Item_of_row r);
              last_price := last_price (ShoppingList.Item_of_row r);
              to_purchase := negb (to_purchase (ShoppingList.Item_of_row r)) |}
      with (ShoppingList.Item_of_row r').
    cbn [ShoppingList.Item_of_row to_purchase].
    unfold ShoppingList.get_items_to_purchase, Sqlite.select_to_purchase.
    rewrite in_map_iff. split.
    + intros (x & Hx & Hin). apply Item_of_row_injective in Hx. subst x.
      apply filter_In in Hin. destruct Hin as [_ Hflag].
      change (Sqlite.c_to_purchase r')
        with (negb (Sqlite.c_to_purchase r)) in Hflag.
      now apply negb_true_iff.
    + intros Hflag. exists r'. split; [reflexivity|].
      apply filter_In. split.
      * destruct (selected_has_id _ _ _ Hsel') as [H _]. exact H.
      * change (Sqlite.c_to_purchase r') with (negb (Sqlite.c_to_purchase r)).
        now apply negb_true_iff.
  - assert (Hnodup' : NoDup (barcodes (Sqlite.rows self'))).
    { unfold self'. cbn [Sqlite.rows]. apply nodup_barcodes_place.
      - apply nodup_barcodes_others, Hnodup.
      - exact (barcode_free_among_others _ _ _ Hnodup Hsel). }
    rewrite (toggle_returns self' i r' Hnodup' Hfi Hsel'). f_equal. f_equal.
    assert (Hback : ShoppingList.set_to_purchase (negb (Sqlite.c_to_purchase r')) r' = r).
    { unfold r'. destruct r. unfold ShoppingList.set_to_purchase. simpl.
      now rewrite negb_involutive. }
    rewrite Hback. unfold self'. cbn [Sqlite.rows Sqlite.sequence].
    rewrite <- Hid' at 1. rewrite others_place, Hid', others_twice.
    rewrite <- Hid. rewrite place_others_back.
    + apply table_eta.
    + exact Hsorted.
    + rewrite Hid. exact Hsel.
Qed.

Lemma toggle_twice_restores_pantry :
  exists self',
    ShoppingListGUI.toggle pantry 3 = Some (self', Returns tt)
    /\ map id (ShoppingList.get_all_items self') = [Some 1; Some 2; Some 3]
    /\ (In {| id := Some 3; quantity := 12; description := "Eggs";
              barcode := None; last_price := None; to_purchase := true |}
           (ShoppingList.get_items_to_purchase self')
        <-> false = false)
    /\ ShoppingListGUI.toggle self' 3 = Some (pantry, Returns tt).
Proof.
  apply (toggle_twice_restores pantry 3
           {| id := Some 3; quantity := 12; description := "Eggs";
              barcode := None; last_price := None; to_purchase := false |}).
  - closed_well_formed.
  - reflexivity.
Defined.

(** X8. A lookup agrees with the listing. In a store that calls of
    [add_item], [delete_item] and [update_item] made from the empty one,
    and for an id SQLite holds, [get_item_by_id] returns an item exactly
    when [get_all_items] lists that item with that id, and returns [None]
    exactly when no listed item has the id. *)
Theorem get_item_by_id_agrees_with_listing (self : ShoppingList.t) (i : Z) :
  reachable self ->
  Sqlite.fits_int64 i = true ->
  (forall a,
     ShoppingList.get_item_by_id self i = Returns (Some a)
     <-> In a (ShoppingList.get_all_items self) /\ id a = Some i)
  /\ (ShoppingList.get_item_by_id self i = Returns None
      <-> forall a, In a (ShoppingList.get_all_items self) -> id a <> Some i).
Proof.
  intros Hreach Hfit.
  destruct (reachable_well_formed self Hreach) as (Hsorted & _).
  assert (Hlisted : forall a,
             In a (ShoppingList.get_all_items self) -> id a = Some i ->
             ShoppingList.get_item_by_id self i = Returns (Some a)).
  { intros a Hin Hid. destruct (listed_row _ _ Hin) as (r & Hr & ->).
    simpl in Hid. injection Hid as Hid.
    unfold ShoppingList.get_item_by_id, Sqlite.select_by_id.
    rewrite Hfit, <- Hid, (find_sorted _ r Hsorted Hr). reflexivity. }
  split.
  - intros a. split.
    + intros Ha.
      destruct (get_item_by_id_row _ _ _ Ha) as (_ & r & _ & -> & Hr & Hid).
      split.
      * unfold ShoppingList.get_all_items. now apply in_map.
      * simpl. now rewrite Hid.
    + intros [Hin Hid]. now apply Hlisted.
  - split.
    + intros Hnone a Hin Hid. rewrite (Hlisted a Hin Hid) in Hnone. discriminate.
    + intros Hnot. unfold ShoppingList.get_item_by_id. rewrite Hfit.
      destruct (Sqlite.select_by_id self i) as [r|] eqn:E; [|reflexivity].
      destruct (selected_has_id _ _ _ E) as [Hr Hid].
      exfalso. apply (Hnot (ShoppingList.Item_of_row r)).
      * unfold ShoppingList.get_all_items. now apply in_map.
      * simpl. now rewrite Hid.
Qed.

Lemma get_item_by_id_agrees_with_listing_milk :
  ShoppingList.get_item_by_id
    (fst (ShoppingList.add_item Sqlite.empty (ShoppingListGUI.form_item 3 "Milk" "")))
    2 = Returns None
  <-> forall a,
        In a (ShoppingList.get_all_items
                (fst (ShoppingList.add_item Sqlite.empty
                        (ShoppingListGUI.form_item 3 "Milk" "")))) ->
        id a <> Some 2.
Proof.
  apply (get_item_by_id_agrees_with_listing
           (fst (ShoppingList.add_item Sqlite.empty
                   (ShoppingListGUI.form_item 3 "Milk" ""))) 2).
  - apply reach_add, reach_empty.
  - reflexivity.
Defined.

(** * The window *)

Lemma insert_rows_lines (l : list Sqlite.row) :
  Forall in_range l ->
  forall box, exists lines,
    ShoppingListGUI.insert_rows box (map ShoppingList.Item_of_row l)
    = ((box ++ lines)%list, Returns tt)
    /\ Forall2 (fun item line => ShoppingListGUI.row_text item = Returns line)
               (map ShoppingList.Item_of_row l) lines.
Proof.
  induction 1 as [|r l Hr Hl IH]; intros box.
  - exists []. simpl. rewrite app_nil_r. split; constructor.
  - destruct (row_text_stored r Hr) as [s Hs].
    destruct (IH (box ++ [s])%list) as (lines & E & F).
    exists (s :: lines). cbn [map ShoppingListGUI.insert_rows].
    rewrite Hs, E, <- app_assoc. split; [reflexivity|].
    constructor; assumption.
Qed.

Lemma view_items_rows (self : ShoppingListGUI.t) :
  well_formed (ShoppingListGUI.shopping_list self) ->
  exists l, view_items self = map ShoppingList.Item_of_row l /\ Forall in_range l.
Proof.
  intros (_ & _ & _ & Hrange). unfold view_items.
  destruct (ShoppingListGUI.show_all_items self).
  - exists (Sqlite.rows (ShoppingListGUI.shopping_list self)). auto.
  - exists (filter Sqlite.c_to_purchase
              (Sqlite.rows (ShoppingListGUI.shopping_list self))).
    split; [reflexivity|].
    rewrite Forall_forall in *. intros x Hx. apply filter_In in Hx.
    apply Hrange. tauto.
Qed.

(** [update_list] over a well-formed store: it returns, and the list box
    on show gets the lines of the items of the view. *)
Lemma update_list_lines (self : ShoppingListGUI.t) :
  well_formed (ShoppingListGUI.shopping_list self) ->
  exists lines,
    ShoppingListGUI.update_list self
    = (ShoppingListGUI.with_current_listbox self lines, Returns tt)
    /\ Forall2 (fun item line => ShoppingListGUI.row_text item = Returns line)
               (view_items self) lines.
Proof.
  intros Hwf. destruct (view_items_rows self Hwf) as (l & Hl & Hrange).
  destruct (insert_rows_lines l Hrange []) as (lines & E & F).
  exists lines. rewrite Hl. split; [|exact F].
  unfold ShoppingListGUI.update_list. fold (view_items self).
  rewrite Hl, E. reflexivity.
Qed.

Lemma current_listbox_set (self : ShoppingListGUI.t) (box : list string) :
  ShoppingListGUI.current_listbox (ShoppingListGUI.with_current_listbox self box)
  = box.
Proof.
  unfold ShoppingListGUI.current_listbox, ShoppingListGUI.with_current_listbox.
  cbn. destruct (ShoppingListGUI.show_all_items self); reflexivity.
Qed.

Lemma hidden_listbox_set (self : ShoppingListGUI.t) (box : list string) :
  hidden_listbox (ShoppingListGUI.with_current_listbox self box)
  = hidden_listbox self.
Proof.
  unfold hidden_listbox, ShoppingListGUI.with_current_listbox.
  cbn. destruct (ShoppingListGUI.show_all_items self); reflexivity.
Qed.

Lemma with_current_listbox_twice (self : ShoppingListGUI.t) (box box' : list string) :
  ShoppingListGUI.with_current_listbox
    (ShoppingListGUI.with_current_listbox self box) box'
  = ShoppingListGUI.with_current_listbox self box'.
Proof.
  unfold ShoppingListGUI.with_current_listbox. cbn.
  destruct (ShoppingListGUI.show_all_items self); reflexivity.
Qed.

Lemma lines_unique (items : list Item) (b1 b2 : list string) :
  Forall2 (fun item line => ShoppingListGUI.row_text item = Returns line) items b1 ->
  Forall2 (fun item line => ShoppingListGUI.row_text item = Returns line) items b2 ->
  b1 = b2.
Proof.
  intros H. revert b2. induction H as [|x y l l' Hxy _ IH]; intros b2 H2.
  - now inversion H2.
  - inversion H2 as [|? y' ? l2 Hxy' Hl2]; subst.
    f_equal; [congruence | now apply IH].
Qed.

Lemma update_list_in_sync (self : ShoppingListGUI.t) :
  well_formed (ShoppingListGUI.shopping_list self) ->
  in_sync (fst (ShoppingListGUI.update_list self)).
Proof.
  intros Hwf. destruct (update_list_lines self Hwf) as (lines & E & F).
  rewrite E. unfold in_sync. cbn [fst]. rewrite current_listbox_set. exact F.
Qed.

(** X9. [update_list] redraws the list box on show and nothing else.
    Over a well-formed store it returns; the list box on show then holds
    one line per item of the view on show, in the order of the view,
    whatever it held before; the other list box, the store, the view flag
    and the entries are as before; and a second call changes nothing. *)
Theorem update_list_redraws (self : ShoppingListGUI.t) :
  well_formed (ShoppingListGUI.shopping_list self) ->
  exists self',
    ShoppingListGUI.update_list self = (self', Returns tt)
    /\ Forall2 (fun item line => ShoppingListGUI.row_text item = Returns line)
               (view_items self) (ShoppingListGUI.current_listbox self')
    /\ hidden_listbox self' = hidden_listbox self
    /\ ShoppingListGUI.shopping_list self' = ShoppingListGUI.shopping_list self
    /\ ShoppingListGUI.show_all_items self' = ShoppingListGUI.show_all_items self
    /\ ShoppingListGUI.description_entry self' = ShoppingListGUI.description_entry self
    /\ ShoppingListGUI.quantity_entry self' = ShoppingListGUI.quantity_entry self
    /\ ShoppingListGUI.barcode_entry self' = ShoppingListGUI.barcode_entry self
    /\ ShoppingListGUI.update_list self' = (self', Returns tt).
Proof.
  intros Hwf. destruct (update_list_lines self Hwf) as (lines & E & F).
  exists (ShoppingListGUI.with_current_listbox self lines).
  split; [exact E|]. split; [now rewrite current_listbox_set|].
  split; [apply hidden_listbox_set|].
  repeat (split; [reflexivity|]).
  destruct (update_list_lines (ShoppingListGUI.with_current_listbox self lines) Hwf)
    as (lines' & E' & F').
  rewrite E', with_current_listbox_twice. f_equal. f_equal.
  apply (lines_unique (view_items self)); assumption.
Qed.

Lemma update_list_redraws_pantry :
  exists self',
    ShoppingListGUI.update_list
      {| ShoppingListGUI.shopping_list := pantry;
         ShoppingListGUI.show_all_items := false;
         ShoppingListGUI.item_listbox_all := [];
         ShoppingListGUI.item_listbox_to_purchase := ["a stale line"];
         ShoppingListGUI.description_entry := "Rice";
         ShoppingListGUI.quantity_entry := "";
         ShoppingListGUI.barcode_entry := "" |}
    = (self', Returns tt)
    /\ length (ShoppingListGUI.current_listbox self') = 2%nat
    /\ ShoppingListGUI.update_list self' = (self', Returns tt).
Proof.
  destruct (update_list_redraws
              {| ShoppingListGUI.shopping_list := pantry;
                 ShoppingListGUI.show_all_items := false;
                 ShoppingListGUI.item_listbox_all := [];
                 ShoppingListGUI.item_listbox_to_purchase := ["a stale line"];
                 ShoppingListGUI.description_entry := "Rice";
                 ShoppingListGUI.quantity_entry := "";
                 ShoppingListGUI.barcode_entry := "" |})
    as (self' & E & F & _ & _ & _ & _ & _ & _ & Hagain).
  - cbn [ShoppingListGUI.shopping_list]. closed_well_formed.
  - exists self'. split; [exact E|]. split; [|exact Hagain].
    apply Forall2_length in F. rewrite <- F. reflexivity.
Defined.

Lemma forall2_in_right {A B : Type} (R : A -> B -> Prop)
    (l1 : list A) (l2 : list B) (y : B) :
  Forall2 R l1 l2 -> In y l2 -> exists x, In x l1 /\ R x y.
Proof.
  induction 1 as [|a b l1 l2 Hab _ IH]; intros Hin; [destruct Hin|].
  destruct Hin as [<-|Hin].
  - exists a. split; [now left | exact Hab].
  - destruct (IH Hin) as (x & Hx & Hr). exists x. split; [now right | exact Hr].
Qed.

(** No line of a list box in step with its view, and no index beyond its
    lines, gives an id. *)
Lemma in_sync_selected_id (self : ShoppingListGUI.t) (index : nat) :
  in_sync self -> ShoppingListGUI.selected_id self index = None.
Proof.
  intros Hsync. unfold ShoppingListGUI.selected_id.
  destruct (nth_in_or_default index (ShoppingListGUI.current_listbox self) "")
    as [Hin | ->]; [|reflexivity].
  unfold in_sync in Hsync.
  destruct (forall2_in_right _ _ _ _ Hsync Hin) as (item & _ & Hitem).
  exact (row_text_not_parsed item _ Hitem).
Qed.

(** X10. In a window whose list box shows the lines of its view, "Delete
    Item" and "Toggle Purchase" never reach the store. Without a
    selection each shows its error box; with any selection, [int] raises
    [ValueError] on the text taken from the selected line, which has no
    colon, and the exception leaves the handler. Either way the window
    and the store are as before: nothing is deleted, no flag changes. *)
Theorem buttons_never_reach_the_store
    (self : ShoppingListGUI.t) (selection : list nat) :
  in_sync self ->
  ShoppingListGUI.delete_item self selection
  = (self, match selection with
           | [] => ShoppingListGUI.ShowError "Error"
                     "Please select an item to delete."
           | _ :: _ => ShoppingListGUI.Uncaught ValueError
           end)
  /\ ShoppingListGUI.toggle_purchase self selection
     = Some (self, match selection with
                   | [] => ShoppingListGUI.ShowError "Error"
                             "Please select an item to toggle purchase status."
                   | _ :: _ => ShoppingListGUI.Uncaught ValueError
                   end).
Proof.
  intros Hsync. destruct selection as [|index rest]; [split; reflexivity|].
  unfold ShoppingListGUI.delete_item, ShoppingListGUI.toggle_purchase.
  rewrite (in_sync_selected_id self index Hsync). split; reflexivity.
Qed.

Lemma buttons_never_reach_the_store_pantry :
  ShoppingListGUI.delete_item pantry_window [1%nat]
  = (pantry_window, ShoppingListGUI.Uncaught ValueError)
  /\ ShoppingListGUI.toggle_purchase pantry_window [1%nat]
     = Some (pantry_window, ShoppingListGUI.Uncaught ValueError).
Proof.
  apply (buttons_never_reach_the_store pantry_window [1%nat]).
  unfold in_sync. vm_compute. repeat constructor.
Defined.

(** * What the events of the window do *)

Lemma add_item_raises (self self' : ShoppingList.t) (item : Item) (e : exn) :
  ShoppingList.add_item self item = (self', Raises e) -> self' = self.
Proof.
  unfold ShoppingList.add_item, Sqlite.insert.
  destruct (Sqlite.fits_int64 (quantity item)); [|now intros [= <-]].
  destruct (Sqlite.new_rowid self); [|now intros [= <-]].
  destruct (Sqlite.barcode_taken _ _); [now intros [= <-]|discriminate].
Qed.

Lemma filter_flagged_snoc (l : list Sqlite.row) (r : Sqlite.row) :
  Sqlite.c_to_purchase r = true ->
  filter Sqlite.c_to_purchase (l ++ [r]) = (filter Sqlite.c_to_purchase l ++ [r])%list.
Proof. intros H. rewrite filter_app. simpl. now rewrite H. Qed.

(** The form, filled with a text and a quantity [int] reads, over a
    well-formed store: what the store's [add_item] does decides. *)
Lemma fill_and_add_cases (self : ShoppingListGUI.t) (d q b : string) :
  well_formed (ShoppingListGUI.shopping_list self) ->
  (exists message,
     ShoppingListGUI.fill_and_add self (d, q, b)
     = (ShoppingListGUI.with_entries self d q b,
        ShoppingListGUI.ShowError "Error" message)
     /\ (d = "" \/ Py.int q = None))
  \/ (exists z e,
        Py.int q = Some z /\ d <> ""
        /\ ShoppingList.add_item (ShoppingListGUI.shopping_list self)
             (ShoppingListGUI.form_item z d b)
           = (ShoppingListGUI.shopping_list self, Raises e)
        /\ ShoppingListGUI.fill_and_add self (d, q, b)
           = (ShoppingListGUI.with_entries self d q b, ShoppingListGUI.Uncaught e))
  \/ (exists z sl i lines,
        Py.int q = Some z /\ d <> ""
        /\ ShoppingList.add_item (ShoppingListGUI.shopping_list self)
             (ShoppingListGUI.form_item z d b)
           = (sl, Returns i)
        /\ ShoppingListGUI.fill_and_add self (d, q, b)
           = (ShoppingListGUI.clear_entries
                (ShoppingListGUI.with_current_listbox
                   (ShoppingListGUI.with_store self sl) lines),
              ShoppingListGUI.Done)
        /\ Forall2 (fun item line => ShoppingListGUI.row_text item = Returns line)
                   (view_items (ShoppingListGUI.with_store self sl)) lines).
Proof.
  intros Hwf.
  unfold ShoppingListGUI.fill_and_add, ShoppingListGUI.add_item.
  cbn [ShoppingListGUI.with_entries ShoppingListGUI.description_entry
       ShoppingListGUI.quantity_entry ShoppingListGUI.barcode_entry
       ShoppingListGUI.shopping_list].
  destruct d as [|c d'] eqn:Ed.
  { left. eexists. split; [reflexivity | now left]. }
  rewrite <- Ed. assert (Hd : d <> "") by (rewrite Ed; discriminate).
  replace (Py.truthy d) with true by (now rewrite Ed).
  cbn [negb orb].
  destruct (Py.truthy q) eqn:Eq.
  2:{ left. eexists. split; [reflexivity|]. right.
      destruct (Py.int q) as [z|] eqn:Ez; [|reflexivity].
      apply int_nonempty in Ez. congruence. }
  cbn [negb].
  destruct (Py.int q) as [z|] eqn:Ez.
  2:{ left. eexists. split; [reflexivity | now right]. }
  right.
  destruct (ShoppingList.add_item (ShoppingListGUI.shopping_list self)
              (ShoppingListGUI.form_item z d b)) as [sl [i|e]] eqn:Eadd.
  - right.
    assert (Hwf' : well_formed sl).
    { pose proof (proj1 (well_formed_kept _ Hwf) (ShoppingListGUI.form_item z d b)) as H.
      now rewrite Eadd in H. }
    destruct (update_list_lines
                (ShoppingListGUI.with_store (ShoppingListGUI.with_entries self d q b) sl))
      as (lines & E & F); [exact Hwf'|].
    rewrite E. exists z, sl, i, lines.
    split; [reflexivity|]. split; [exact Hd|]. split; [exact Eadd|].
    split; [reflexivity | exact F].
  - left. pose proof (add_item_raises _ _ _ _ Eadd) as ->.
    exists z, e.
    split; [reflexivity|]. split; [exact Hd|]. split; [exact Eadd | reflexivity].
Qed.

Lemma add_item_succeeds (self : ShoppingList.t) (item : Item) :
  room self 1 ->
  Sqlite.fits_int64 (quantity item) = true ->
  Sqlite.barcode_taken (ShoppingList.or_None (barcode item)) (Sqlite.rows self)
  = false ->
  ShoppingList.add_item self item
  = ({| Sqlite.rows :=
          Sqlite.place (stored (Sqlite.largest_rowid self + 1) item)
                       (Sqlite.rows self);
        Sqlite.sequence := Sqlite.largest_rowid self + 1 |},
     Returns (Sqlite.largest_rowid self + 1)).
Proof.
  intros Hroom Hfit Hfree. unfold ShoppingList.add_item, Sqlite.insert.
  rewrite Hfit, (new_rowid_room _ Hroom), Hfree. reflexivity.
Qed.

(** The views after an item with the flag set was appended. *)
Lemma view_items_appended (self : ShoppingListGUI.t) (sl : ShoppingList.t)
    (r : Sqlite.row) :
  Sqlite.rows sl = (Sqlite.rows (ShoppingListGUI.shopping_list self) ++ [r])%list ->
  Sqlite.c_to_purchase r = true ->
  view_items (ShoppingListGUI.with_store self sl)
  = (view_items self ++ [ShoppingList.Item_of_row r])%list.
Proof.
  intros Hrows Hflag. unfold view_items.
  cbn [ShoppingListGUI.with_store ShoppingListGUI.show_all_items
       ShoppingListGUI.shopping_list].
  unfold ShoppingList.get_all_items, ShoppingList.get_items_to_purchase,
    Sqlite.select_all, Sqlite.select_to_purchase.
  rewrite Hrows, (filter_flagged_snoc _ _ Hflag), !map_app.
  destruct (ShoppingListGUI.show_all_items self); reflexivity.
Qed.

(** One event on a window over a well-formed store whose list box shows
    the lines of its view. *)
Lemma handle_step (self : ShoppingListGUI.t) (e : event) :
  well_formed (ShoppingListGUI.shopping_list self) ->
  in_sync self ->
  exists self' r added,
    handle self e = Some (self', r)
    /\ well_formed (ShoppingListGUI.shopping_list self')
    /\ in_sync self'
    /\ ShoppingList.get_all_items (ShoppingListGUI.shopping_list self')
       = (ShoppingList.get_all_items (ShoppingListGUI.shopping_list self)
          ++ added)%list
    /\ match e with
       | PressAdd d q b =>
           added = []
           \/ exists i z, added = [form_created i z d b] /\ Py.int q = Some z
                          /\ r = ShoppingListGUI.Done
       | _ => added = []
       end.
Proof.
  intros Hwf Hsync. destruct e as [d q b|selection|selection| |].
  - cbn [handle].
    destruct (fill_and_add_cases self d q b Hwf)
      as [(message & E & _)
         |[(z & e & _ & _ & _ & E)
          |(z & sl & i & lines & Hz & _ & Eadd & E & F)]].
    + rewrite E. eexists _, _, []. rewrite app_nil_r.
      split; [reflexivity|]. split; [exact Hwf|]. split; [exact Hsync|].
      split; [reflexivity | auto].
    + rewrite E. eexists _, _, []. rewrite app_nil_r.
      split; [reflexivity|]. split; [exact Hwf|]. split; [exact Hsync|].
      split; [reflexivity | auto].
    + destruct (add_item_appends _ _ _ _ Hwf Eadd) as (Hrows & _ & _).
      exists (ShoppingListGUI.clear_entries
                (ShoppingListGUI.with_current_listbox
                   (ShoppingListGUI.with_store self sl) lines)),
        ShoppingListGUI.Done, [form_created i z d b].
      rewrite E. split; [reflexivity|]. split; [|split; [|split]].
      * pose proof (proj1 (well_formed_kept _ Hwf)
                      (ShoppingListGUI.form_item z d b)) as H.
        rewrite Eadd in H. exact H.
      * unfold in_sync.
        change (Forall2 (fun item line => ShoppingListGUI.row_text item = Returns line)
                  (view_items (ShoppingListGUI.with_store self sl))
                  (ShoppingListGUI.current_listbox
                     (ShoppingListGUI.with_current_listbox
                        (ShoppingListGUI.with_store self sl) lines))).
        rewrite current_listbox_set. exact F.
      * change (ShoppingList.get_all_items sl
                = (ShoppingList.get_all_items (ShoppingListGUI.shopping_list self)
                   ++ [form_created i z d b])%list).
        unfold ShoppingList.get_all_items, Sqlite.select_all.
        rewrite Hrows, map_app. reflexivity.
      * right. exists i, z. auto.
  - cbn [handle]. unfold ShoppingListGUI.delete_item.
    exists self. destruct selection as [|index rest].
    + eexists _, []. rewrite app_nil_r.
      split; [reflexivity|]. split; [exact Hwf|]. split; [exact Hsync|].
      split; [reflexivity | auto].
    + rewrite (in_sync_selected_id self index Hsync).
      eexists _, []. rewrite app_nil_r.
      split; [reflexivity|]. split; [exact Hwf|]. split; [exact Hsync|].
      split; [reflexivity | auto].
  - cbn [handle]. unfold ShoppingListGUI.toggle_purchase.
    exists self. destruct selection as [|index rest].
    + eexists _, []. rewrite app_nil_r.
      split; [reflexivity|]. split; [exact Hwf|]. split; [exact Hsync|].
      split; [reflexivity | auto].
    + rewrite (in_sync_selected_id self index Hsync).
      eexists _, []. rewrite app_nil_r.
      split; [reflexivity|]. split; [exact Hwf|]. split; [exact Hsync|].
      split; [reflexivity | auto].
  - cbn [handle]. unfold ShoppingListGUI.show_to_purchase_view.
    destruct (update_list_lines (ShoppingListGUI.with_view self false) Hwf)
      as (lines & E & F).
    rewrite E. eexists _, _, []. rewrite app_nil_r.
    split; [reflexivity|]. split; [exact Hwf|]. split; [|split; reflexivity].
    unfold in_sync. rewrite current_listbox_set. exact F.
  - cbn [handle]. unfold ShoppingListGUI.show_all_items_view.
    destruct (update_list_lines (ShoppingListGUI.with_view self true) Hwf)
      as (lines & E & F).
    rewrite E. eexists _, _, []. rewrite app_nil_r.
    split; [reflexivity|]. split; [exact Hwf|]. split; [|split; reflexivity].
    unfold in_sync. rewrite current_listbox_set. exact F.
Qed.

Lemma shown_invariant (self : ShoppingListGUI.t) :
  shown self ->
  well_formed (ShoppingListGUI.shopping_list self) /\ in_sync self.
Proof.
  induction 1 as [db Hdb|self e self' r _ [Hwf Hsync] He].
  - unfold ShoppingListGUI.init, ShoppingListGUI.show_to_purchase_view.
    split.
    + rewrite update_list_store. exact Hdb.
    + apply update_list_in_sync. exact Hdb.
  - destruct (handle_step self e Hwf Hsync) as (s & r' & added & E & Hwf' & Hs' & _).
    rewrite E in He. injection He as <- _. auto.
Qed.

(** X11. The list box on show is always in step with the store. In every
    window the program shows (the one [__init__] leaves over a
    well-formed database, and every one that follows by "Add Item",
    "Delete Item", "Toggle Purchase" and the two menu entries, whatever
    is typed or selected), the store is well formed and the list box on
    show holds the lines of the items of the view on show, one per item
    and in order; and every event is handled within this embedding. *)
Theorem shown_window_in_sync (self : ShoppingListGUI.t) :
  shown self ->
  well_formed (ShoppingListGUI.shopping_list self)
  /\ Forall2 (fun item line => ShoppingListGUI.row_text item = Returns line)
             (if ShoppingListGUI.show_all_items self
              then ShoppingList.get_all_items (ShoppingListGUI.shopping_list self)
              else ShoppingList.get_items_to_purchase
                     (ShoppingListGUI.shopping_list self))
             (ShoppingListGUI.current_listbox self)
  /\ forall e, exists self' r, handle self e = Some (self', r).
Proof.
  intros Hshown. destruct (shown_invariant self Hshown) as [Hwf Hsync].
  split; [exact Hwf|]. split; [exact Hsync|].
  intros e. destruct (handle_step self e Hwf Hsync) as (s & r & _ & E & _).
  eauto.
Qed.

(** X12. Through the window the store only grows. An event on a window
    the program shows leaves [get_all_items] as it was, except "Add Item",
    which may append one item: the one made of the entries, with the flag
    set and no price. No event removes an item or changes one; in
    particular "Delete Item" and "Toggle Purchase" leave every item as it
    was. *)
Theorem window_only_appends
    (self self' : ShoppingListGUI.t) (e : event) (r : ShoppingListGUI.reply) :
  shown self ->
  handle self e = Some (self', r) ->
  match e with
  | PressAdd d q b =>
      ShoppingList.get_all_items (ShoppingListGUI.shopping_list self')
      = ShoppingList.get_all_items (ShoppingListGUI.shopping_list self)
      \/ exists i z,
           Py.int q = Some z /\ r = ShoppingListGUI.Done
           /\ ShoppingList.get_all_items (ShoppingListGUI.shopping_list self')
              = (ShoppingList.get_all_items (ShoppingListGUI.shopping_list self)
                 ++ [{| id := Some i; quantity := z; description := d;
                        barcode := if Py.truthy b then Some b else None;
                        last_price := None; to_purchase := true |}])%list
  | _ =>
      ShoppingList.get_all_items (ShoppingListGUI.shopping_list self')
      = ShoppingList.get_all_items (ShoppingListGUI.shopping_list self)
  end.
Proof.
  intros Hshown He. destruct (shown_invariant self Hshown) as [Hwf Hsync].
  destruct (handle_step self e Hwf Hsync) as (s & r' & added & E & _ & _ & Hall & Hadded).
  rewrite E in He. injection He as <- <-.
  destruct e as [d q b|selection|selection| |];
    try (subst added; now rewrite app_nil_r in Hall).
  destruct Hadded as [->|(i & z & -> & Hz & Hr)].
  - left. now rewrite app_nil_r in Hall.
  - right. exists i, z. auto.
Qed.

Lemma shown_window_in_sync_pantry :
  well_formed (ShoppingListGUI.shopping_list (fst (ShoppingListGUI.init pantry)))
  /\ Forall2 (fun item line => ShoppingListGUI.row_text item = Returns line)
             (if ShoppingListGUI.show_all_items (fst (ShoppingListGUI.init pantry))
              then ShoppingList.get_all_items
                     (ShoppingListGUI.shopping_list (fst (ShoppingListGUI.init pantry)))
              else ShoppingList.get_items_to_purchase
                     (ShoppingListGUI.shopping_list (fst (ShoppingListGUI.init pantry))))
             (ShoppingListGUI.current_listbox (fst (ShoppingListGUI.init pantry)))
  /\ forall e, exists self' r,
       handle (fst (ShoppingListGUI.init pantry)) e = Some (self', r).
Proof.
  apply (shown_window_in_sync (fst (ShoppingListGUI.init pantry))).
  apply shown_init. closed_well_formed.
Defined.

Lemma window_only_appends_pantry :
  ShoppingList.get_all_items
    (ShoppingListGUI.shopping_list
       (fst (ShoppingListGUI.delete_item (fst (ShoppingListGUI.init pantry))
               [0%nat])))
  = ShoppingList.get_all_items
      (ShoppingListGUI.shopping_list (fst (ShoppingListGUI.init pantry))).
Proof.
  apply (window_only_appends
           (fst (ShoppingListGUI.init pantry))
           (fst (ShoppingListGUI.delete_item (fst (ShoppingListGUI.init pantry))
                   [0%nat]))
           (PressDelete [0%nat])
           (snd (ShoppingListGUI.delete_item (fst (ShoppingListGUI.init pantry))
                   [0%nat]))).
  - apply shown_init. closed_well_formed.
  - cbn [handle]. now rewrite <- surjective_pairing.
Defined.

Lemma barcode_listed (l : list Sqlite.row) (s : string) :
  In s (barcodes l) ->
  exists r, In r l /\ Sqlite.c_barcode r = Some s.
Proof.
  unfold barcodes. rewrite in_flat_map. intros (r & Hr & Hs).
  exists r. split; [exact Hr|].
  destruct (Sqlite.c_barcode r) as [s'|]; [|destruct Hs].
  destruct Hs as [->|[]]. reflexivity.
Qed.

Lemma forall2_app_left {A B : Type} (R : A -> B -> Prop)
    (l1 l2 : list A) (l : list B) :
  Forall2 R (l1 ++ l2) l ->
  exists l1' l2', Forall2 R l1 l1' /\ Forall2 R l2 l2' /\ l = (l1' ++ l2')%list.
Proof.
  revert l. induction l1 as [|a l1 IH]; intros l H.
  - exists [], l. repeat split; [constructor | exact H].
  - inversion H as [|? b ? l' Hab Hrest]; subst.
    destruct (IH l' Hrest) as (l1' & l2' & H1 & H2 & ->).
    exists (b :: l1'), l2'. repeat split; [constructor; assumption | exact H2].
Qed.

Lemma forall2_singleton {A B : Type} (R : A -> B -> Prop) (a : A) (l : list B) :
  Forall2 R [a] l -> exists b, l = [b] /\ R a b.
Proof.
  intros H. inversion H as [|? b ? l' Hab Hrest]; subst.
  inversion Hrest; subst. eauto.
Qed.

(** X13. "Add Item" appends a line. In a window whose list box shows the
    lines of its view, over a well-formed store with a rowid left, the
    form filled with a description, a quantity text [int] reads as an
    integer SQLite holds, and a barcode that is empty or that no item
    has: the handler completes; the item is stored under the next id,
    with the flag set, no price, and the barcode [None] where the entry
    was empty; its line is appended to the list box on show, in either
    view, the lines above it unchanged; the other list box is not
    redrawn; and the three entries are emptied. *)
Theorem form_adds_a_line
    (self : ShoppingListGUI.t) (d q b : string) (z : Z) :
  well_formed (ShoppingListGUI.shopping_list self) ->
  in_sync self ->
  room (ShoppingListGUI.shopping_list self) 1 ->
  d <> "" ->
  Py.int q = Some z ->
  Sqlite.fits_int64 z = true ->
  (b = "" \/ forall item,
               In item (ShoppingList.get_all_items
                          (ShoppingListGUI.shopping_list self)) ->
               barcode item <> Some b) ->
  let new := form_created (Sqlite.largest_rowid (ShoppingListGUI.shopping_list self) + 1)
                     z d b in
  exists self' line,
    ShoppingListGUI.fill_and_add self (d, q, b) = (self', ShoppingListGUI.Done)
    /\ ShoppingList.get_all_items (ShoppingListGUI.shopping_list self')
       = (ShoppingList.get_all_items (ShoppingListGUI.shopping_list self)
          ++ [new])%list
    /\ ShoppingListGUI.row_text new = Returns line
    /\ ShoppingListGUI.current_listbox self'
       = (ShoppingListGUI.current_listbox self ++ [line])%list
    /\ hidden_listbox self' = hidden_listbox self
    /\ ShoppingListGUI.show_all_items self' = ShoppingListGUI.show_all_items self
    /\ ShoppingListGUI.description_entry self' = ""
    /\ ShoppingListGUI.quantity_entry self' = ""
    /\ ShoppingListGUI.barcode_entry self' = "".
Proof.
  intros Hwf Hsync Hroom Hd Hz Hfit Hb new.
  set (store := ShoppingListGUI.shopping_list self) in *.
  set (item := ShoppingListGUI.form_item z d b).
  assert (Hfree : Sqlite.barcode_taken (ShoppingList.or_None (barcode item))
                    (Sqlite.rows store) = false).
  { cbn [item ShoppingListGUI.form_item barcode ShoppingList.or_None].
    destruct b as [|c b']; [reflexivity|]. cbn [Py.truthy Sqlite.barcode_taken].
    destruct Hb as [Hb|Hb]; [discriminate|].
    apply not_taken. intros Hin.
    destruct (barcode_listed _ _ Hin) as (r & Hr & Hs).
    apply (Hb (ShoppingList.Item_of_row r)).
    - unfold ShoppingList.get_all_items. now apply in_map.
    - exact Hs. }
  pose proof (add_item_succeeds store item Hroom Hfit Hfree) as Eadd.
  destruct (add_item_appends _ _ _ _ Hwf Eadd) as (Hrows & _ & _).
  destruct (fill_and_add_cases self d q b Hwf)
    as [(message & _ & [Hno|Hno])
       |[(z' & e & Hz' & _ & Eraise & _)
        |(z' & sl & i & lines & Hz' & _ & Eadd' & E & F)]].
  - contradiction.
  - congruence.
  - assert (z' = z) by congruence. subst z'. fold store item in Eraise.
    rewrite Eadd in Eraise. discriminate.
  - assert (z' = z) by congruence. subst z'.
    fold store item in Eadd'. rewrite Eadd in Eadd'.
    injection Eadd' as Hsl Hi.
    assert (Hrows' : Sqlite.rows sl
                     = (Sqlite.rows store ++ [stored i item])%list).
    { rewrite <- Hsl, <- Hi. exact Hrows. }
    rewrite (view_items_appended self sl (stored i item) Hrows' eq_refl) in F.
    destruct (forall2_app_left _ _ _ _ F) as (above & last & Habove & Hlast & ->).
    destruct (forall2_singleton _ _ _ Hlast) as (line & -> & Hline).
    pose proof (lines_unique _ _ _ Habove Hsync) as ->.
    exists (ShoppingListGUI.clear_entries
              (ShoppingListGUI.with_current_listbox
                 (ShoppingListGUI.with_store self sl)
                 (ShoppingListGUI.current_listbox self ++ [line])%list)),
      line.
    split; [exact E|]. split; [|split; [|split; [|split]]].
    + change (ShoppingList.get_all_items sl
              = (ShoppingList.get_all_items store ++ [new])%list).
      unfold ShoppingList.get_all_items, Sqlite.select_all.
      rewrite Hrows', map_app. rewrite <- Hi. reflexivity.
    + rewrite <- Hi in Hline. exact Hline.
    + change (ShoppingListGUI.current_listbox
                (ShoppingListGUI.with_current_listbox
                   (ShoppingListGUI.with_store self sl)
                   (ShoppingListGUI.current_listbox self ++ [line])%list)
              = (ShoppingListGUI.current_listbox self ++ [line])%list).
      apply current_listbox_set.
    + change (hidden_listbox
                (ShoppingListGUI.with_current_listbox
                   (ShoppingListGUI.with_store self sl)
                   (ShoppingListGUI.current_listbox self ++ [line])%list)
              = hidden_listbox (ShoppingListGUI.with_store self sl)).
      apply hidden_listbox_set.
    + repeat split.
Qed.

Lemma form_adds_a_line_pantry :
  exists self',
    ShoppingListGUI.fill_and_add pantry_window ("Rice", "2", "")
    = (self', ShoppingListGUI.Done)
    /\ ShoppingList.get_all_items (ShoppingListGUI.shopping_list self')
       = (ShoppingList.get_all_items pantry
          ++ [{| id := Some 4; quantity := 2; description := "Rice";
                 barcode := None; last_price := None;
                 to_purchase := true |}])%list
    /\ ShoppingListGUI.description_entry self' = "".
Proof.
  destruct (form_adds_a_line pantry_window "Rice" "2" "" 2)
    as (self' & line & E & Hall & _ & _ & _ & _ & Hd & _).
  - change (ShoppingListGUI.shopping_list pantry_window) with pantry.
    closed_well_formed.
  - unfold in_sync. vm_compute. repeat constructor.
  - vm_compute. discriminate.
  - discriminate.
  - reflexivity.
  - reflexivity.
  - now left.
  - exists self'. split; [exact E|]. split; [|exact Hd].
    rewrite Hall. reflexivity.
Defined.

(** X14. A barcode that an item already has, typed into the form, is not
    reported by an error box. With a description, a quantity text [int]
    reads as an integer SQLite holds and a rowid left, [add_item] of the
    window ends in [sqlite3.IntegrityError] leaving the handler: nothing
    is stored, the list box is not redrawn, and the entries keep what was
    typed. *)
Theorem form_does_not_catch_taken_barcode
    (self : ShoppingListGUI.t) (d q b : string) (z : Z) (existing : Item) :
  room (ShoppingListGUI.shopping_list self) 1 ->
  d <> "" ->
  Py.int q = Some z ->
  Sqlite.fits_int64 z = true ->
  b <> "" ->
  In existing (ShoppingList.get_all_items (ShoppingListGUI.shopping_list self)) ->
  barcode existing = Some b ->
  ShoppingListGUI.fill_and_add self (d, q, b)
  = (ShoppingListGUI.with_entries self d q b,
     ShoppingListGUI.Uncaught IntegrityError).
Proof.
  intros Hroom Hd Hz Hfit Hb Hin Hbar.
  unfold ShoppingListGUI.fill_and_add.
  rewrite (add_item_valid (ShoppingListGUI.with_entries self d q b) z Hd Hz).
  cbn [ShoppingListGUI.with_entries ShoppingListGUI.description_entry
       ShoppingListGUI.barcode_entry ShoppingListGUI.shopping_list].
  assert (Eadd : ShoppingList.add_item (ShoppingListGUI.shopping_list self)
                   (ShoppingListGUI.form_item z d b)
                 = (ShoppingListGUI.shopping_list self, Raises IntegrityError)).
  { unfold ShoppingList.add_item, Sqlite.insert.
    cbn [ShoppingListGUI.form_item quantity barcode].
    rewrite Hfit, (new_rowid_room _ Hroom), (or_None_text b Hb).
    destruct (listed_row _ _ Hin) as (r & Hr & ->). simpl in Hbar.
    assert (Htaken : Sqlite.barcode_taken (Some b)
                       (Sqlite.rows (ShoppingListGUI.shopping_list self)) = true).
    { apply existsb_exists. exists r. split; [exact Hr|].
      unfold Sqlite.has_barcode. rewrite Hbar. apply String.eqb_refl. }
    now rewrite Htaken. }
  rewrite Eadd. reflexivity.
Qed.

Lemma form_does_not_catch_taken_barcode_pantry :
  ShoppingListGUI.fill_and_add pantry_window ("Rolls", "6", "4006381")
  = (ShoppingListGUI.with_entries pantry_window "Rolls" "6" "4006381",
     ShoppingListGUI.Uncaught IntegrityError).
Proof.
  apply (form_does_not_catch_taken_barcode pantry_window "Rolls" "6" "4006381" 6
           {| id := Some 2; quantity := 2; description := "Bread";
              barcode := Some "4006381"; last_price := None;
              to_purchase := true |}).
  - vm_compute. discriminate.
  - discriminate.
  - reflexivity.
  - reflexivity.
  - discriminate.
  - change (ShoppingListGUI.shopping_list pantry_window) with pantry.
    simpl. auto.
  - reflexivity.
Defined.

(** * Two updates in a row *)

Lemma assignment_keeps_key (c : ShoppingList.column) (v : ShoppingList.value)
    (g : Sqlite.row -> Sqlite.row) (r : Sqlite.row) :
  ShoppingList.assignment c v = Some g ->
  c <> ShoppingList.Cid -> c <> ShoppingList.Cbarcode ->
  Sqlite.rowid (g r) = Sqlite.rowid r
  /\ Sqlite.c_barcode (g r) = Sqlite.c_barcode r.
Proof.
  intros Hg Hid Hbar.
  destruct c, v; try discriminate; try congruence;
    injection Hg as <-; split; reflexivity.
Qed.

Lemma plain_keywords_typed (kwargs : list (string * ShoppingList.value)) :
  forallb plain_keyword kwargs = true ->
  exists cs f,
    ShoppingList.columns kwargs = Some cs
    /\ ShoppingList.set_clause cs = Some f
    /\ forallb (fun kv => Py.isidentifier (fst kv)) kwargs = true
    /\ forallb (fun kv => ShoppingList.binds (snd kv)) kwargs = true
    /\ forall r, Sqlite.rowid (f r) = Sqlite.rowid r
                 /\ Sqlite.c_barcode (f r) = Sqlite.c_barcode r.
Proof.
  induction kwargs as [|[key v] rest IH]; intros H.
  - exists [], (fun r => r). repeat split.
  - cbn [forallb] in H. apply andb_true_iff in H. destruct H as [Hkv Hrest].
    destruct (IH Hrest) as (cs & f & Hcs & Hf & Hids & Hbinds & Hkeeps).
    unfold plain_keyword in Hkv. cbn [fst snd] in Hkv.
    apply andb_true_iff in Hkv. destruct Hkv as [Hkv Hcol].
    apply andb_true_iff in Hkv. destruct Hkv as [Hid Hbind].
    destruct (ShoppingList.column_named key) as [c|] eqn:Ec; [|discriminate].
    destruct (ShoppingList.assignment c v) as [g|] eqn:Eg;
      [|destruct c; discriminate].
    assert (Hc : c <> ShoppingList.Cid /\ c <> ShoppingList.Cbarcode)
      by (destruct c; split; discriminate).
    exists ((c, v) :: cs), (fun r => f (g r)).
    cbn [ShoppingList.columns ShoppingList.set_clause forallb fst snd].
    rewrite Ec, Hcs, Eg, Hf, Hid, Hbind, Hids, Hbinds.
    repeat (split; [reflexivity|]).
    intros r. destruct (Hkeeps (g r)) as [H1 H2].
    destruct (assignment_keeps_key c v g r Eg (proj1 Hc) (proj2 Hc)) as [H3 H4].
    split; congruence.
Qed.

Lemma columns_app (k1 k2 : list (string * ShoppingList.value))
    (cs1 cs2 : list (ShoppingList.column * ShoppingList.value)) :
  ShoppingList.columns k1 = Some cs1 ->
  ShoppingList.columns k2 = Some cs2 ->
  ShoppingList.columns (k1 ++ k2) = Some (cs1 ++ cs2)%list.
Proof.
  revert cs1. induction k1 as [|[key v] k1 IH]; intros cs1 H1 H2.
  - injection H1 as <-. exact H2.
  - cbn [ShoppingList.columns app] in *.
    destruct (ShoppingList.column_named key) as [c|]; [|discriminate].
    destruct (ShoppingList.columns k1) as [cs|]; [|discriminate].
    injection H1 as <-. now rewrite (IH cs eq_refl H2).
Qed.

Lemma set_clause_app (cs1 cs2 : list (ShoppingList.column * ShoppingList.value))
    (f1 f2 : Sqlite.row -> Sqlite.row) :
  ShoppingList.set_clause cs1 = Some f1 ->
  ShoppingList.set_clause cs2 = Some f2 ->
  exists f, ShoppingList.set_clause (cs1 ++ cs2) = Some f
            /\ forall r, f r = f2 (f1 r).
Proof.
  revert f1. induction cs1 as [|[c v] cs1 IH]; intros f1 H1 H2.
  - injection H1 as <-. exists f2. auto.
  - cbn [ShoppingList.set_clause app] in *.
    destruct (ShoppingList.assignment c v) as [g|]; [|discriminate].
    destruct (ShoppingList.set_clause cs1) as [h|]; [|discriminate].
    injection H1 as <-.
    destruct (IH h eq_refl H2) as (f & -> & Hf).
    exists (fun r => f (g r)). split; [reflexivity|]. intros r. apply Hf.
Qed.

(** An update that keeps the rowid and the barcode of a line there is
    meets no constraint. *)
Lemma update_keeps_key (t : Sqlite.table) (i : Z) (r : Sqlite.row)
    (f : Sqlite.row -> Sqlite.row) :
  NoDup (barcodes (Sqlite.rows t)) ->
  Sqlite.select_by_id t i = Some r ->
  Sqlite.rowid (f r) = Sqlite.rowid r ->
  Sqlite.c_barcode (f r) = Sqlite.c_barcode r ->
  Sqlite.update t i f
  = ({| Sqlite.rows := Sqlite.place (f r) (Sqlite.others i (Sqlite.rows t));
        Sqlite.sequence := Sqlite.sequence t |}, Returns tt).
Proof.
  intros Hnodup Hsel Hid Hbar. unfold Sqlite.update. rewrite Hsel.
  cbv zeta. rewrite Hid, Hbar.
  destruct (selected_has_id _ _ _ Hsel) as [_ ->].
  rewrite exists_others_same.
  rewrite (barcode_free_among_others _ _ _ Hnodup Hsel). reflexivity.
Qed.

(** X15. Two updates in a row are one update. For an item in a
    well-formed store, [update_item] with keywords that write quantity,
    description, last_price or to_purchase (values of the columns' types
    that SQLite holds; at most 2000 keywords, the most SQLite takes in
    one SET list) never raises; and a call with the keywords [k1]
    followed by a call with the keywords [k2] on the same id leaves the
    store that one call with the keywords of [k1] followed by those of
    [k2] leaves, where that call can be written: the keywords of the two
    calls are different names, no more than 2000 together. *)
Theorem update_item_twice_is_once
    (self : ShoppingList.t) (i : Z) (a : Item)
    (k1 k2 : list (string * ShoppingList.value)) :
  well_formed self ->
  ShoppingList.get_item_by_id self i = Returns (Some a) ->
  k1 <> [] -> k2 <> [] ->
  forallb plain_keyword k1 = true ->
  forallb plain_keyword k2 = true ->
  NoDup (map fst (k1 ++ k2)) ->
  (length k1 + length k2 <= 2000)%nat ->
  exists s1 s2,
    ShoppingList.update_item self i k1 = Some (s1, Returns tt)
    /\ ShoppingList.update_item s1 i k2 = Some (s2, Returns tt)
    /\ ShoppingList.update_item self i (k1 ++ k2) = Some (s2, Returns tt).
Proof.
  intros (_ & Hnodup & _ & _) Ha Hne1 Hne2 Hk1 Hk2 _ Hlen.
  change 2000%nat with Sqlite.MAX_COLUMN in Hlen.
  destruct (get_item_by_id_row _ _ _ Ha) as (Hfit & r & Hsel & _ & _ & Hid).
  destruct (plain_keywords_typed k1 Hk1) as (cs1 & f1 & Hcs1 & Hf1 & Hi1 & Hb1 & Hkeep1).
  destruct (plain_keywords_typed k2 Hk2) as (cs2 & f2 & Hcs2 & Hf2 & Hi2 & Hb2 & Hkeep2).
  destruct (set_clause_app cs1 cs2 f1 f2 Hf1 Hf2) as (f & Hf & Hff).
  set (rest := Sqlite.others i (Sqlite.rows self)).
  set (s1 := {| Sqlite.rows := Sqlite.place (f1 r) rest;
                Sqlite.sequence := Sqlite.sequence self |}).
  set (s2 := {| Sqlite.rows := Sqlite.place (f2 (f1 r)) rest;
                Sqlite.sequence := Sqlite.sequence self |}).
  destruct (Hkeep1 r) as [Hid1 Hbar1].
  destruct (Hkeep2 (f1 r)) as [Hid2 Hbar2].
  assert (Hfree : Sqlite.barcode_taken (Sqlite.c_barcode r) rest = false)
    by exact (barcode_free_among_others _ _ _ Hnodup Hsel).
  assert (Hsel1 : Sqlite.select_by_id s1 i = Some (f1 r)).
  { unfold Sqlite.select_by_id, s1. cbn [Sqlite.rows].
    rewrite <- Hid, <- Hid1. apply find_place_same.
    rewrite Hid1, Hid. apply exists_others_same. }
  assert (Hnodup1 : NoDup (barcodes (Sqlite.rows s1))).
  { unfold s1. cbn [Sqlite.rows]. apply nodup_barcodes_place.
    - apply nodup_barcodes_others, Hnodup.
    - rewrite Hbar1. exact Hfree. }
  assert (Hrest1 : Sqlite.others i (Sqlite.rows s1) = rest).
  { unfold s1. cbn [Sqlite.rows]. rewrite <- Hid, <- Hid1 at 1.
    rewrite others_place, Hid1, Hid. apply others_twice. }
  exists s1, s2. split; [|split].
  - rewrite (update_item_runs self i k1 cs1 f1
               (columns_no_parameter_names k1 cs1 Hcs1) Hi1 Hne1
               ltac:(lia) Hcs1 Hf1 Hb1 Hfit).
    f_equal. apply update_keeps_key; assumption.
  - rewrite (update_item_runs s1 i k2 cs2 f2
               (columns_no_parameter_names k2 cs2 Hcs2) Hi2 Hne2
               ltac:(lia) Hcs2 Hf2 Hb2 Hfit).
    f_equal.
    rewrite (update_keeps_key s1 i (f1 r) f2 Hnodup1 Hsel1 Hid2 Hbar2).
    rewrite Hrest1. reflexivity.
  - pose proof (columns_app k1 k2 cs1 cs2 Hcs1 Hcs2) as Hcs.
    rewrite (update_item_runs self i (k1 ++ k2) (cs1 ++ cs2) f
               (columns_no_parameter_names _ _ Hcs)).
    + f_equal.
      rewrite (update_keeps_key self i r f Hnodup Hsel).
      * rewrite Hff. reflexivity.
      * rewrite Hff. congruence.
      * rewrite Hff. congruence.
    + rewrite forallb_app, Hi1, Hi2. reflexivity.
    + destruct k1; [contradiction|discriminate].
    + rewrite length_app. exact Hlen.
    + exact Hcs.
    + exact Hf.
    + rewrite forallb_app, Hb1, Hb2. reflexivity.
    + exact Hfit.
Qed.

Lemma update_item_twice_is_once_pantry :
  exists s1 s2,
    ShoppingList.update_item pantry 2 [("quantity", ShoppingList.VInt 5)]
    = Some (s1, Returns tt)
    /\ ShoppingList.update_item s1 2
         [("to_purchase", ShoppingList.VBool false);
          ("Quantity", ShoppingList.VInt 7)]
       = Some (s2, Returns tt)
    /\ ShoppingList.update_item pantry 2
         [("quantity", ShoppingList.VInt 5);
          ("to_purchase", ShoppingList.VBool false);
          ("Quantity", ShoppingList.VInt 7)]
       = Some (s2, Returns tt).
Proof.
  apply (update_item_twice_is_once pantry 2
           {| id := Some 2; quantity := 2; description := "Bread";
              barcode := Some "4006381"; last_price := None;
              to_purchase := true |}
           [("quantity", ShoppingList.VInt 5)]
           [("to_purchase", ShoppingList.VBool false);
            ("Quantity", ShoppingList.VInt 7)]).
  - closed_well_formed.
  - reflexivity.
  - discriminate.
  - discriminate.
  - reflexivity.
  - reflexivity.
  - cbn [map fst app].
    constructor; [cbn; intuition discriminate|].
    constructor; [cbn; intuition discriminate|].
    constructor; [cbn; tauto|]. constructor.
  - cbn [length]. lia.
Defined.

(** * The numbers of a line, read back *)

Lemma digits_of_uint_acc (d : Decimal.uint) :
  forall acc : positive,
  Py.digits (Z.pos acc) true (list_ascii_of_string (NilEmpty.string_of_uint d))
  = Some (Z.pos (Pos.of_uint_acc d acc)).
Proof.
  induction d; intros acc; cbn [NilEmpty.string_of_uint list_ascii_of_string
                                Py.digits Pos.of_uint_acc];
    [reflexivity|..];
    match goal with
    | |- context [Py.isdigit ?c] =>
        change (Py.isdigit c) with true; cbv iota;
        let v := eval vm_compute in (Py.digit_value c) in
        change (Py.digit_value c) with v
    end;
    rewrite <- IHd; f_equal; lia.
Qed.

Lemma digits_of_uint (d : Decimal.uint) :
  forall seen : bool,
  seen = true \/ d <> Decimal.Nil ->
  Py.digits 0 seen (list_ascii_of_string (NilEmpty.string_of_uint d))
  = Some (Z.of_N (Pos.of_uint d)).
Proof.
  induction d; intros seen Hseen;
    cbn [NilEmpty.string_of_uint list_ascii_of_string Py.digits Pos.of_uint].
  - destruct Hseen as [->|H]; [reflexivity | contradiction].
  - change (Py.isdigit "0") with true. cbv iota.
    change (10 * 0 + Py.digit_value "0") with 0.
    apply IHd. now left.
  - change (Py.isdigit "1") with true. cbv iota.
    change (10 * 0 + Py.digit_value "1") with 1. apply digits_of_uint_acc.
  - change (Py.isdigit "2") with true. cbv iota.
    change (10 * 0 + Py.digit_value "2") with 2. apply digits_of_uint_acc.
  - change (Py.isdigit "3") with true. cbv iota.
    change (10 * 0 + Py.digit_value "3") with 3. apply digits_of_uint_acc.
  - change (Py.isdigit "4") with true. cbv iota.
    change (10 * 0 + Py.digit_value "4") with 4. apply digits_of_uint_acc.
  - change (Py.isdigit "5") with true. cbv iota.
    change (10 * 0 + Py.digit_value "5") with 5. apply digits_of_uint_acc.
  - change (Py.isdigit "6") with true. cbv iota.
    change (10 * 0 + Py.digit_value "6") with 6. apply digits_of_uint_acc.
  - change (Py.isdigit "7") with true. cbv iota.
    change (10 * 0 + Py.digit_value "7") with 7. apply digits_of_uint_acc.
  - change (Py.isdigit "8") with true. cbv iota.
    change (10 * 0 + Py.digit_value "8") with 8. apply digits_of_uint_acc.
  - change (Py.isdigit "9") with true. cbv iota.
    change (10 * 0 + Py.digit_value "9") with 9. apply digits_of_uint_acc.
Qed.

Lemma to_uint_not_nil (p : positive) : Pos.to_uint p <> Decimal.Nil.
Proof.
  intros H. pose proof (DecimalPos.Unsigned.of_to p) as E.
  rewrite H in E. discriminate.
Qed.

Lemma digits_of_positive (p : positive) :
  Py.digits 0 false
    (list_ascii_of_string (NilZero.string_of_uint (Pos.to_uint p)))
  = Some (Z.pos p).
Proof.
  pose proof (to_uint_not_nil p) as Hnil.
  replace (NilZero.string_of_uint (Pos.to_uint p))
    with (NilEmpty.string_of_uint (Pos.to_uint p))
    by (unfold NilZero.string_of_uint; destruct (Pos.to_uint p); congruence).
  rewrite digits_of_uint by (now right).
  now rewrite DecimalPos.Unsigned.of_to.
Qed.

Lemma digit_not_space (c : ascii) :
  Py.isdigit c = true -> Py.literal_space c = false.
Proof.
  destruct c as [[] [] [] [] [] [] [] []]; vm_compute; congruence.
Qed.

Lemma skip_spaces_padding (k : nat) (l : list ascii) :
  Py.skip_spaces (list_ascii_of_string (Py.spaces k) ++ l) = Py.skip_spaces l.
Proof.
  induction k as [|k IH]; [reflexivity|].
  cbn [Py.spaces list_ascii_of_string app Py.skip_spaces].
  change (Py.literal_space " ") with true. exact IH.
Qed.

Lemma skip_spaces_none (c : ascii) (l : list ascii) :
  Py.literal_space c = false -> Py.skip_spaces (c :: l) = c :: l.
Proof. intros H. simpl. now rewrite H. Qed.

Lemma skip_spaces_all (sp l : list ascii) :
  (forall c, In c sp -> Py.literal_space c = true) ->
  Py.skip_spaces (sp ++ l) = Py.skip_spaces l.
Proof.
  induction sp as [|c sp IH]; intros H; [reflexivity|].
  cbn [app Py.skip_spaces]. rewrite (H c) by (now left).
  apply IH. intros x Hx. apply H. now right.
Qed.

(** Padding around a text that has no white space is dropped by [int]. *)
Lemma trim_padding (k k' : nat) (l : list ascii) :
  (forall c, In c l -> Py.literal_space c = false) ->
  Py.trim (list_ascii_of_string (Py.spaces k) ++ l
           ++ list_ascii_of_string (Py.spaces k')) = l.
Proof.
  intros H. unfold Py.trim. rewrite skip_spaces_padding.
  assert (Hsp : forall c, In c (rev (list_ascii_of_string (Py.spaces k'))) ->
                          Py.literal_space c = true).
  { intros c Hc. apply in_rev in Hc. apply spaces_chars in Hc. now subst c. }
  destruct l as [|c l].
  - cbn [app]. rewrite <- (app_nil_r (list_ascii_of_string (Py.spaces k'))).
    rewrite skip_spaces_padding. reflexivity.
  - change ((c :: l) ++ list_ascii_of_string (Py.spaces k'))%list
      with (c :: (l ++ list_ascii_of_string (Py.spaces k'))%list).
    rewrite skip_spaces_none by (apply H; now left).
    change (c :: (l ++ list_ascii_of_string (Py.spaces k'))%list)
      with ((c :: l) ++ list_ascii_of_string (Py.spaces k'))%list.
    rewrite rev_app_distr, (skip_spaces_all _ _ Hsp).
    destruct (rev (c :: l)) as [|x m] eqn:E.
    + apply (f_equal (@rev ascii)) in E. rewrite rev_involutive in E.
      discriminate.
    + rewrite skip_spaces_none.
      * rewrite <- E. apply rev_involutive.
      * apply H. apply in_rev. rewrite E. now left.
Qed.

Lemma int_of_unsigned (s : string) (c : ascii) (l : list ascii) :
  Py.trim (list_ascii_of_string s) = c :: l ->
  Py.isdigit c = true ->
  Py.int s = Py.literal (c :: l).
Proof.
  intros Ht Hc. unfold Py.int. rewrite Ht.
  destruct c as [[] [] [] [] [] [] [] []]; try reflexivity;
    vm_compute in Hc; discriminate.
Qed.

Lemma int_of_negative (s : string) (l : list ascii) :
  Py.trim (list_ascii_of_string s) = "-"%char :: l ->
  Py.int s = option_map Z.opp (Py.literal l).
Proof. intros Ht. unfold Py.int. now rewrite Ht. Qed.

Lemma uint_not_space (d : Decimal.uint) (c : ascii) :
  In c (list_ascii_of_string (NilZero.string_of_uint d)) ->
  Py.literal_space c = false.
Proof.
  intros H. apply digit_not_space.
  unfold NilZero.string_of_uint in H. destruct d;
    try (now apply (uint_chars _ _ H)).
  destruct H as [<-|[]]. reflexivity.
Qed.

Lemma uint_starts_with_digit (p : positive) :
  exists c l,
    list_ascii_of_string (NilZero.string_of_uint (Pos.to_uint p)) = c :: l
    /\ Py.isdigit c = true.
Proof.
  pose proof (to_uint_not_nil p) as Hnil.
  destruct (list_ascii_of_string (NilZero.string_of_uint (Pos.to_uint p)))
    as [|c l] eqn:E.
  - unfold NilZero.string_of_uint in E.
    destruct (Pos.to_uint p); try contradiction; discriminate.
  - exists c, l. split; [reflexivity|].
    assert (Hin : In c (list_ascii_of_string
                          (NilZero.string_of_uint (Pos.to_uint p))))
      by (rewrite E; now left).
    unfold NilZero.string_of_uint in Hin.
    destruct (Pos.to_uint p); try contradiction;
      now apply (uint_chars _ _ Hin).
Qed.

(** [int] reads back what [str] writes, padded or not. *)
Lemma int_of_decimal (k k' : nat) (n : Z) :
  (Py.digit_count (list_ascii_of_string (Py.decimal n))
   <= Py.int_max_str_digits)%nat ->
  Py.int (Py.spaces k ++ Py.decimal n ++ Py.spaces k') = Some n.
Proof.
  intros Hcap.
  assert (Hlit : forall l, (Py.digit_count l <= Py.int_max_str_digits)%nat ->
                           Py.literal l = Py.digits 0 false l).
  { intros l Hl. unfold Py.literal.
    destruct (Nat.ltb_spec Py.int_max_str_digits (Py.digit_count l)); [lia|].
    reflexivity. }
  unfold Py.decimal in *. destruct n as [|p|p]; cbn [Z.to_int NilZero.string_of_int] in *.
  - rewrite (int_of_unsigned _ "0" []).
    + reflexivity.
    + rewrite !list_ascii_of_append. apply trim_padding.
      intros c [<-|[]]. reflexivity.
    + reflexivity.
  - destruct (uint_starts_with_digit p) as (c & l & E & Hc).
    rewrite (int_of_unsigned _ c l).
    + rewrite <- E, (Hlit _ Hcap). apply digits_of_positive.
    + rewrite !list_ascii_of_append, <- E. apply trim_padding.
      intros x Hx. exact (uint_not_space _ _ Hx).
    + exact Hc.
  - rewrite (int_of_negative _
               (list_ascii_of_string (NilZero.string_of_uint (Pos.to_uint p)))).
    + rewrite Hlit, digits_of_positive; [reflexivity|].
      exact Hcap.
    + rewrite !list_ascii_of_append.
      change (list_ascii_of_string
                (String "-" (NilZero.string_of_uint (Pos.to_uint p))))
        with ("-"%char :: list_ascii_of_string
                            (NilZero.string_of_uint (Pos.to_uint p))).
      apply trim_padding.
      intros x [<-|Hx]; [reflexivity | exact (uint_not_space _ _ Hx)].
Qed.

Lemma str_within_cap (n : Z) (s : string) :
  Py.str n = Some s ->
  s = Py.decimal n
  /\ (Py.digit_count (list_ascii_of_string (Py.decimal n))
      <= Py.int_max_str_digits)%nat.
Proof.
  unfold Py.str.
  destruct (Nat.ltb_spec Py.int_max_str_digits
              (Py.digit_count (list_ascii_of_string (Py.decimal n))));
    [discriminate|].
  intros [= <-]. split; [reflexivity | assumption].
Qed.

(** X16. The numbers of a line are texts [int] reads back. Whatever
    [format] gives for an integer in a field of any width, [int] of that
    text is the integer, and so is [int] of the text [str] gives. In
    particular, in a line that [update_list] writes for an item, the text
    before the first "|" is one that [int] reads as the id of the item:
    the id is in the line, though not before a colon. *)
Theorem line_numbers_read_back :
  (forall (w : nat) (n : Z) (s : string),
     Py.format_int w n = Some s -> Py.int s = Some n)
  /\ (forall (n : Z) (s : string), Py.str n = Some s -> Py.int s = Some n)
  /\ (forall (item : Item) (line : string),
        ShoppingListGUI.row_text item = Returns line ->
        exists i, id item = Some i
                  /\ Py.int (Py.split_head "|" line) = Some i).
Proof.
  split; [|split].
  - intros w n s H. unfold Py.format_int in H.
    destruct (Py.str n) as [t|] eqn:E; [|discriminate].
    injection H as <-. destruct (str_within_cap _ _ E) as [-> Hcap].
    unfold Py.rjust.
    rewrite <- (append_empty (Py.decimal n)).
    exact (int_of_decimal _ 0 n Hcap).
  - intros n s E. destruct (str_within_cap _ _ E) as [-> Hcap].
    rewrite <- (append_empty (Py.decimal n)).
    exact (int_of_decimal 0 0 n Hcap).
  - intros item line H. unfold ShoppingListGUI.row_text in H.
    destruct (id item) as [i|]; [|discriminate].
    exists i. split; [reflexivity|].
    destruct (Py.format_int 2 i) as [id_field|] eqn:Ei; [|discriminate].
    destruct (Py.format_int 8 (quantity item)) as [q|]; [|discriminate].
    injection H as <-.
    rewrite split_head_append.
    2:{ intros c Hc. pose proof (format_int_chars _ _ _ _ Ei Hc) as Hn.
        unfold numeral_char in Hn.
        destruct c as [[] [] [] [] [] [] [] []]; try reflexivity;
          vm_compute in Hn; discriminate. }
    change (Py.split_head "|" (" | " ++ q ++ " | "
                               ++ ShoppingListGUI.description_field item
                               ++ " | " ++ ShoppingListGUI.status item))
      with (Py.spaces 1).
    unfold Py.format_int in Ei.
    destruct (Py.str i) as [t|] eqn:E; [|discriminate].
    injection Ei as <-. destruct (str_within_cap _ _ E) as [-> Hcap].
    unfold Py.rjust. rewrite append_assoc.
    exact (int_of_decimal _ 1 i Hcap).
Qed.

Lemma line_numbers_read_back_milk :
  Py.int (Py.split_head "|"
            " 7 |        3 | Milk                 | To Purchase") = Some 7.
Proof.
  destruct line_numbers_read_back as (_ & _ & H).
  destruct (H milk " 7 |        3 | Milk                 | To Purchase" eq_refl)
    as (i & Hi & Hint).
  injection Hi as <-. exact Hint.
Defined.

(** * When [add_item] raises *)

Lemma or_None_some (b : option string) (s : string) :
  ShoppingList.or_None b = Some s <-> b = Some s /\ s <> "".
Proof.
  unfold ShoppingList.or_None. destruct b as [t|].
  - destruct t as [|c t]; cbn [Py.truthy]; split.
    + discriminate.
    + intros [E H]. injection E as E. now subst s.
    + intros [= <-]. split; [reflexivity | discriminate].
    + intros [E _]. injection E as E. now subst s.
  - split; [discriminate | intros [H _]; discriminate].
Qed.

Lemma barcode_taken_listed (self : ShoppingList.t) (b : option string) :
  Sqlite.barcode_taken b (Sqlite.rows self) = true
  <-> exists existing s,
        In existing (ShoppingList.get_all_items self)
        /\ barcode existing = Some s /\ b = Some s.
Proof.
  unfold Sqlite.barcode_taken. destruct b as [s|].
  - rewrite barcode_taken_in. split.
    + intros Hin. destruct (barcode_listed _ _ Hin) as (r & Hr & Hs).
      exists (ShoppingList.Item_of_row r), s. split; [|split].
      * unfold ShoppingList.get_all_items. now apply in_map.
      * exact Hs.
      * reflexivity.
    + intros (existing & t & Hin & Hbar & [= <-]).
      destruct (listed_row _ _ Hin) as (r & Hr & ->). simpl in Hbar.
      unfold barcodes. apply in_flat_map. exists r. split; [exact Hr|].
      rewrite Hbar. now left.
  - split; [discriminate | intros (x & s & _ & _ & H); discriminate].
Qed.

(** X17. [add_item] raises in three cases and no other: the quantity is
    not an integer SQLite holds; no rowid is left to give out; or the
    barcode of the item is a text, not empty, that an item of the store
    already has. In each of them the store is the one before the call;
    in every other case the call returns the new id. *)
Theorem add_item_raises_exactly_when (self : ShoppingList.t) (item : Item) :
  (raised (snd (ShoppingList.add_item self item)) = true
   <-> Sqlite.fits_int64 (quantity item) = false
       \/ ~ room self 1
       \/ exists existing s,
            In existing (ShoppingList.get_all_items self)
            /\ barcode existing = Some s
            /\ barcode item = Some s /\ s <> "")
  /\ (raised (snd (ShoppingList.add_item self item)) = true ->
      fst (ShoppingList.add_item self item) = self)
  /\ (raised (snd (ShoppingList.add_item self item)) = false ->
      snd (ShoppingList.add_item self item)
      = Returns (Sqlite.largest_rowid self + 1)).
Proof.
  assert (Hroom : Sqlite.new_rowid self = None <-> ~ room self 1).
  { unfold Sqlite.new_rowid, room.
    destruct (Z.leb_spec Sqlite.MAX_ROWID (Sqlite.largest_rowid self)) as [H|H].
    - split; [intros _; lia | reflexivity].
    - split; [discriminate | intros H'; exfalso; apply H'; lia]. }
  assert (Htaken : Sqlite.barcode_taken (ShoppingList.or_None (barcode item))
                     (Sqlite.rows self) = true
                   <-> exists existing s,
                         In existing (ShoppingList.get_all_items self)
                         /\ barcode existing = Some s
                         /\ barcode item = Some s /\ s <> "").
  { rewrite barcode_taken_listed. split.
    - intros (existing & s & Hin & Hbar & Hs). apply or_None_some in Hs.
      exists existing, s. tauto.
    - intros (existing & s & Hin & Hbar & Hs & Hne).
      exists existing, s. split; [exact Hin|]. split; [exact Hbar|].
      apply or_None_some. tauto. }
  unfold ShoppingList.add_item, Sqlite.insert.
  destruct (Sqlite.fits_int64 (quantity item)) eqn:Efit; cbn [snd fst raised].
  2:{ split; [|split].
      - split; [intros _; now left | reflexivity].
      - reflexivity.
      - discriminate. }
  destruct (Sqlite.new_rowid self) as [i|] eqn:Enew; cbn [snd fst raised].
  2:{ split; [|split].
      - split; [intros _; right; left; now apply Hroom | reflexivity].
      - reflexivity.
      - discriminate. }
  assert (Hleft : room self 1).
  { destruct (Z.le_gt_cases (Sqlite.largest_rowid self + 1) Sqlite.MAX_ROWID)
      as [H|H]; [exact H|].
    assert (Hnone : Some i = None) by (apply Hroom; unfold room; lia).
    discriminate. }
  pose proof (new_rowid_room _ Hleft) as Ei. rewrite Enew in Ei.
  injection Ei as Ei.
  destruct (Sqlite.barcode_taken (ShoppingList.or_None (barcode item))
              (Sqlite.rows self)) eqn:Etaken; cbn [snd fst raised].
  - split; [|split].
    + split; [intros _; right; right; now apply Htaken | reflexivity].
    + reflexivity.
    + discriminate.
  - split; [|split].
    + split; [discriminate|].
      intros [H|[H|H]]; [discriminate | contradiction |].
      apply Htaken in H. discriminate.
    + discriminate.
    + intros _. now rewrite Ei.
Qed.
